(** * DupliFinder: the duplicate-detection engine, embedded and verified

    A shallow embedding of the scanning engine of the repository
    ([file_scanner.py], [pdf_similarity.py], [file_monitor.py],
    [file_organizer.py], and the hashing of [utils.py]) together with the
    properties its specification states about it.

    Conventions of the embedding.
    - [FileInfo] objects live in a store ([objects]) and are named by their
      allocation index; the session's registries hold such references, so
      that an in-place update of [content_hash] or [similarity_group] is
      seen through every registry, as in Python.
    - Python dictionaries keep insertion order: they are association lists
      with unique keys ([Dict]).
    - Whatever the code obtains from the operating system or from a PDF
      library is an explicit input: the directory tree seen by [os.walk],
      the result of opening a path, the text an extractor returns.  An
      exception is the value [None].
    - A Python string is the string of its UTF-8 bytes.  What
      [str.lower], the classes of [re] and [str.split] make of a text is
      an input too ([Unicode]); file names and the sample texts are ASCII
      text, on which [Py.lower], [Py.strip_punct] and [Py.split] do what
      Python does.
    - [hashlib.md5] is the function [MD5.hexdigest]; a hash object is the
      sequence of bytes fed to it so far, which is the documented meaning
      of [update].
    - Scores are exact rationals in lowest terms; Python computes the same
      quotient of two integers in floating point. *)

From Stdlib Require Import ZArith QArith Qreduction Lia List.
From Stdlib.Strings Require Import Ascii String Byte.
From Stdlib Require Import DecimalString DecimalNat DecimalZ.
From stdpp Require Import base list gmap strings.
From Equations Require Import Equations.

Local Open Scope string_scope.
Local Open Scope list_scope.
Close Scope Q_scope.

(* ===================================================================== *)
(** ** hashlib.md5 *)
(* ===================================================================== *)

Module MD5.
Local Open Scope Z_scope.

Definition mask32 : Z := 0xFFFFFFFF.
Definition add32 (a b : Z) : Z := Z.land (a + b) mask32.
Definition not32 (a : Z) : Z := Z.lxor a mask32.
Definition rotl32 (x n : Z) : Z :=
  Z.land (Z.lor (Z.shiftl x n) (Z.shiftr x (32 - n))) mask32.

Definition shifts : list Z :=
  [7; 12; 17; 22; 7; 12; 17; 22; 7; 12; 17; 22; 7; 12; 17; 22;
   5; 9; 14; 20; 5; 9; 14; 20; 5; 9; 14; 20; 5; 9; 14; 20;
   4; 11; 16; 23; 4; 11; 16; 23; 4; 11; 16; 23; 4; 11; 16; 23;
   6; 10; 15; 21; 6; 10; 15; 21; 6; 10; 15; 21; 6; 10; 15; 21].

Definition sines : list Z :=
  [0xd76aa478; 0xe8c7b756; 0x242070db; 0xc1bdceee; 0xf57c0faf; 0x4787c62a; 0xa8304613; 0xfd469501;
   0x698098d8; 0x8b44f7af; 0xffff5bb1; 0x895cd7be; 0x6b901122; 0xfd987193; 0xa679438e; 0x49b40821;
   0xf61e2562; 0xc040b340; 0x265e5a51; 0xe9b6c7aa; 0xd62f105d; 0x02441453; 0xd8a1e681; 0xe7d3fbc8;
   0x21e1cde6; 0xc33707d6; 0xf4d50d87; 0x455a14ed; 0xa9e3e905; 0xfcefa3f8; 0x676f02d9; 0x8d2a4c8a;
   0xfffa3942; 0x8771f681; 0x6d9d6122; 0xfde5380c; 0xa4beea44; 0x4bdecfa9; 0xf6bb4b60; 0xbebfbc70;
   0x289b7ec6; 0xeaa127fa; 0xd4ef3085; 0x04881d05; 0xd9d4d039; 0xe6db99e5; 0x1fa27cf8; 0xc4ac5665;
   0xf4292244; 0x432aff97; 0xab9423a7; 0xfc93a039; 0x655b59c3; 0x8f0ccc92; 0xffeff47d; 0x85845dd1;
   0x6fa87e4f; 0xfe2ce6e0; 0xa3014314; 0x4e0811a1; 0xf7537e82; 0xbd3af235; 0x2ad7d2bb; 0xeb86d391].

Definition byteZ (b : byte) : Z := Z.of_N (Byte.to_N b).
Definition Zbyte (z : Z) : byte :=
  match Byte.of_N (Z.to_N (Z.land z 0xFF)) with Some b => b | None => x00 end.

(** little-endian encoding of the low [n] bytes of [z] *)
Fixpoint le_bytes (n : nat) (z : Z) : list byte :=
  match n with
  | O => []
  | S n' => Zbyte z :: le_bytes n' (Z.shiftr z 8)
  end.

Fixpoint le_word (bs : list byte) : Z :=
  match bs with
  | [] => 0
  | b :: bs' => byteZ b + 256 * le_word bs'
  end.

Definition padding (len : nat) : list byte :=
  let zeros := Z.to_nat ((55 - Z.of_nat len) mod 64) in
  x80 :: repeat x00 zeros ++ le_bytes 8 (8 * Z.of_nat len).

(** cut a padded message into its 64-byte blocks *)
Fixpoint blocks (fuel : nat) (bs : list byte) : list (list byte) :=
  match fuel with
  | O => []
  | S fuel' =>
      match bs with
      | [] => []
      | _ => take 64 bs :: blocks fuel' (drop 64 bs)
      end
  end.

Fixpoint words (n : nat) (bs : list byte) : list Z :=
  match n with
  | O => []
  | S n' => le_word (take 4 bs) :: words n' (drop 4 bs)
  end.

Definition round (m : list Z) (st : Z * Z * Z * Z) (i : nat) : Z * Z * Z * Z :=
  let '(a, b, c, d) := st in
  let iz := Z.of_nat i in
  let '(f, g) :=
    if iz <? 16 then (Z.lor (Z.land b c) (Z.land (not32 b) d), iz)
    else if iz <? 32 then (Z.lor (Z.land d b) (Z.land (not32 d) c), (5 * iz + 1) mod 16)
    else if iz <? 48 then (Z.lxor (Z.lxor b c) d, (3 * iz + 5) mod 16)
    else (Z.lxor c (Z.lor b (not32 d)), (7 * iz) mod 16) in
  let f' := add32 (add32 (add32 f a) (nth i sines 0)) (nth (Z.to_nat g) m 0) in
  (d, add32 b (rotl32 f' (nth i shifts 0)), b, c).

Definition compress (st : Z * Z * Z * Z) (block : list byte) : Z * Z * Z * Z :=
  let m := words 16 block in
  let '(a, b, c, d) := fold_left (round m) (seq 0 64) st in
  let '(a0, b0, c0, d0) := st in
  (add32 a0 a, add32 b0 b, add32 c0 c, add32 d0 d).

Definition digest (msg : list byte) : list byte :=
  let padded := msg ++ padding (length msg) in
  let '(a, b, c, d) :=
    fold_left compress (blocks (S (length padded)) padded)
              (0x67452301, 0xefcdab89, 0x98badcfe, 0x10325476) in
  le_bytes 4 a ++ le_bytes 4 b ++ le_bytes 4 c ++ le_bytes 4 d.

Definition hex_digit (z : Z) : ascii :=
  nth (Z.to_nat z) (list_ascii_of_string "0123456789abcdef") "0"%char.

Fixpoint hex (bs : list byte) : string :=
  match bs with
  | [] => ""
  | b :: bs' =>
      String (hex_digit (byteZ b / 16))
             (String (hex_digit (byteZ b mod 16)) (hex bs'))
  end.

(** [hashlib.md5(msg).hexdigest()] *)
Definition hexdigest (msg : list byte) : string := hex (digest msg).
End MD5.

(* ===================================================================== *)
(** ** Python strings and [os.path] (POSIX flavour, ASCII text) *)
(* ===================================================================== *)

Module Py.

Definition chr_eqb (a b : ascii) : bool := Ascii.eqb a b.

Fixpoint sdrop (n : nat) (s : string) : string :=
  match n, s with
  | O, _ => s
  | S n', String _ s' => sdrop n' s'
  | S _, EmptyString => EmptyString
  end.

Fixpoint stake (n : nat) (s : string) : string :=
  match n, s with
  | S n', String a s' => String a (stake n' s')
  | _, _ => EmptyString
  end.

(** [s.startswith(p)] and [s.endswith(p)] *)
Fixpoint startswith (s p : string) : bool :=
  match p, s with
  | EmptyString, _ => true
  | String b p', String a s' => chr_eqb a b && startswith s' p'
  | String _ _, EmptyString => false
  end.

Definition endswith (s p : string) : bool :=
  (String.length p <=? String.length s)%nat
  && String.eqb (sdrop (String.length s - String.length p) s) p.

(** [s.lower()], for ASCII text *)
Definition lower_chr (a : ascii) : ascii :=
  let n := nat_of_ascii a in
  if ((65 <=? n) && (n <=? 90))%nat then ascii_of_nat (n + 32) else a.

Fixpoint lower (s : string) : string :=
  match s with
  | EmptyString => EmptyString
  | String a s' => String (lower_chr a) (lower s')
  end.

(** [s.rfind(c)]: the index of the last occurrence, or [-1] *)
Fixpoint rfind_opt (c : ascii) (s : string) : option nat :=
  match s with
  | EmptyString => None
  | String a s' =>
      match rfind_opt c s' with
      | Some i => Some (S i)
      | None => if chr_eqb a c then Some O else None
      end
  end.

Definition rfind (c : ascii) (s : string) : Z :=
  match rfind_opt c s with Some i => Z.of_nat i | None => (-1)%Z end.

(** [str(n)] for a machine-independent integer *)
Definition str_nat (n : nat) : string := NilEmpty.string_of_uint (Nat.to_uint n).
Definition str_Z (z : Z) : string := NilZero.string_of_int (Z.to_int z).

(** [posixpath.join(a, b)] *)
Definition join (a b : string) : string :=
  if startswith b "/" then b
  else if String.eqb a "" || endswith a "/" then a ++ b
  else a ++ "/" ++ b.

(** [posixpath.basename(p)]: [p[p.rfind('/') + 1:]] *)
Definition basename (p : string) : string :=
  sdrop (Z.to_nat (rfind "/" p + 1)) p.

(** [posixpath.splitext(p)]: the extension starts at the last dot of the
    last component, unless only dots precede it there. *)
Definition splitext (p : string) : string * string :=
  let sepIndex := rfind "/" p in
  let dotIndex := rfind "." p in
  if (sepIndex <? dotIndex)%Z then
    let filenameIndex := Z.to_nat (sepIndex + 1) in
    let before := list_ascii_of_string
                    (stake (Z.to_nat dotIndex - filenameIndex) (sdrop filenameIndex p)) in
    if existsb (fun a => negb (chr_eqb a ".")) before
    then (stake (Z.to_nat dotIndex) p, sdrop (Z.to_nat dotIndex) p)
    else (p, "")
  else (p, "").

(** the classes [\w] and [\s] of [re], on ASCII *)
Definition is_word (a : ascii) : bool :=
  let n := nat_of_ascii a in
  (((48 <=? n) && (n <=? 57)) || ((65 <=? n) && (n <=? 90))
   || ((97 <=? n) && (n <=? 122)) || (n =? 95))%nat.

Definition is_space (a : ascii) : bool :=
  let n := nat_of_ascii a in
  (((9 <=? n) && (n <=? 13)) || ((28 <=? n) && (n <=? 32)))%nat.

(** [re.sub(r'[^\w\s]', '', s)] *)
Fixpoint strip_punct (s : string) : string :=
  match s with
  | EmptyString => EmptyString
  | String a s' =>
      if is_word a || is_space a then String a (strip_punct s') else strip_punct s'
  end.

(** [s.split()]: the maximal runs of non-blank characters; [cur] is the
    run being read, last character first. *)
Fixpoint split_go (cur : list ascii) (s : string) : list string :=
  match s with
  | EmptyString =>
      match cur with [] => [] | _ => [string_of_list_ascii (rev cur)] end
  | String a s' =>
      if is_space a then
        match cur with
        | [] => split_go [] s'
        | _ => string_of_list_ascii (rev cur) :: split_go [] s'
        end
      else split_go (a :: cur) s'
  end.

Definition split (s : string) : list string := split_go [] s.

(** [s.isascii()] *)
Definition isascii (s : string) : bool :=
  forallb (fun a => (nat_of_ascii a <? 128)%nat) (list_ascii_of_string s).

(** truth value of an optional string: [None] and [''] are false *)
Definition truthy (o : option string) : bool :=
  match o with
  | Some s => negb (String.eqb s "")
  | None => false
  end.

(** [a or b] on optional strings *)
Definition or_ (a b : option string) : option string :=
  if truthy a then a else b.

End Py.

(* ===================================================================== *)
(** ** Python dictionaries: insertion-ordered, string keys *)
(* ===================================================================== *)

Module Dict.
Section Dict.
Context {V : Type}.

Definition t : Type := list (string * V).

Fixpoint get (d : list (string * V)) (k : string) : option V :=
  match d with
  | [] => None
  | (k', v) :: d' => if String.eqb k' k then Some v else get d' k
  end.

(** [k in d] *)
Definition mem (d : list (string * V)) (k : string) : bool :=
  match get d k with Some _ => true | None => false end.

(** [d[k] = v]: an existing key keeps its place, a new key goes last *)
Fixpoint set (d : list (string * V)) (k : string) (v : V) : list (string * V) :=
  match d with
  | [] => [(k, v)]
  | (k', v') :: d' =>
      if String.eqb k' k then (k', v) :: d' else (k', v') :: set d' k v
  end.

(** [d.items()], [d.values()] *)
Definition items (d : list (string * V)) : list (string * V) := d.
Definition values (d : list (string * V)) : list V := map snd d.
End Dict.
Arguments t : clear implicits.
End Dict.

(* ===================================================================== *)
(** ** The world outside the program *)
(* ===================================================================== *)

(** What [os.walk] finds below a directory: files, with the result of
    [os.stat] on them ([None] when it raises [FileNotFoundError] or
    [PermissionError]; otherwise size and modification time), and
    sub-directories, in the order the system lists them. *)
#[warnings="-register-all"]
Inductive node : Type :=
| File (fname : string) (st : option (Z * Z))
| Dir (dname : string) (children : list node).

(** What [str.lower], the classes [\w] and [\s] of [re] and [str.split]
    do with a text is laid down by the Unicode database of the
    interpreter: [str_lower text] is [text.lower()], [sub_punct text] is
    [re.sub(r'[^\w\s]', '', text)] and [str_split text] is
    [text.split()].  A text is kept as the string of its UTF-8 bytes. *)
Record Unicode : Type := mkUnicode {
  str_lower : string -> string;
  sub_punct : string -> string;
  str_split : string -> list string
}.

(** What the three do with ASCII text; the sample texts below are ASCII. *)
Definition ascii_range : Unicode := mkUnicode Py.lower Py.strip_punct Py.split.

(** a database that treats ASCII text as Python's does *)
Definition ascii_faithful (u : Unicode) : Prop :=
  forall text, Py.isascii text = true ->
    str_lower u text = Py.lower text
    /\ sub_punct u text = Py.strip_punct text
    /\ str_split u text = Py.split text.

(** What the program reads later on: [open_rb p] is the content read from
    [open(p, 'rb')], or [None] when opening or reading raises; the two
    text extractors return the text of a PDF or raise; [py_hash] is
    Python's built-in [hash] on strings; [unicode] is the database that
    the string methods and [re] consult. *)
Record Env : Type := mkEnv {
  open_rb : string -> option (list byte);
  pypdf2_text : string -> option string;
  pdfminer_text : string -> option string;
  py_hash : string -> Z;
  unicode : Unicode
}.

#[global] Instance byte_eq_decision : EqDecision byte := Byte.byte_eq_dec.

(** A file object opened for reading hands out its content front to back. *)
Definition read (n : nat) (rest : list byte) : list byte * list byte :=
  (take n rest, drop n rest).

(* ===================================================================== *)
(** ** pdf_similarity.py *)
(* ===================================================================== *)

(** [intersection / union if union > 0 else 0.0] *)
Definition ratio (intersection union : nat) : Q :=
  if (0 <? union)%nat
  then Qred (Z.of_nat intersection # Pos.of_nat union)
  else 0%Q.

Definition jaccard (s1 s2 : gset string) : Q :=
  if (size s1 =? 0)%nat || (size s2 =? 0)%nat then 0%Q
  else ratio (size (s1 ∩ s2)) (size (s1 ∪ s2)).

(** [re.sub(r'[^\w\s]', '', text.lower()).split()] *)
Definition _tokenize_text (u : Unicode) (text : string) : list string :=
  str_split u (sub_punct u (str_lower u text)).

Definition _jaccard_similarity (u : Unicode) (text1 text2 : string) : Q :=
  let words1 : gset string := list_to_set (_tokenize_text u text1) in
  let words2 : gset string := list_to_set (_tokenize_text u text2) in
  jaccard words1 words2.

Definition _calculate_similarity_pypdf2 (env : Env) (file1_path file2_path : string)
  : option Q :=
  match pypdf2_text env file1_path with
  | None => None
  | Some text1 =>
      match pypdf2_text env file2_path with
      | None => None
      | Some text2 => Some (_jaccard_similarity (unicode env) text1 text2)
      end
  end.

Definition _calculate_similarity_pdfminer (env : Env) (file1_path file2_path : string)
  : option Q :=
  match pdfminer_text env file1_path with
  | None => None
  | Some text1 =>
      match pdfminer_text env file2_path with
      | None => None
      | Some text2 => Some (_jaccard_similarity (unicode env) text1 text2)
      end
  end.

(** Remember the equation when matching on a computed value. *)
Definition inspect {A : Type} (a : A) : {b : A | a = b} := exist _ a eq_refl.

(** The loop of [get_file_blocks]: read 4096 bytes at a time until a read
    returns nothing, adding the MD5 of each chunk to the set. *)
Equations? block_loop (n : nat) (rest : list byte) (blocks : gset string)
  : gset string by wf (length rest) lt :=
  block_loop n rest blocks with inspect (fst (read n rest)) := {
    | exist _ [] _ => blocks
    | exist _ (b :: chunk) _ =>
        block_loop n (snd (read n rest)) ({[ MD5.hexdigest (b :: chunk) ]} ∪ blocks) }.
Proof.
  cbn in *. destruct n, rest; simpl in *; try discriminate.
  rewrite length_drop. lia.
Qed.

Definition get_file_blocks (env : Env) (path : string) : option (gset string) :=
  match open_rb env path with
  | None => None
  | Some content => Some (block_loop 4096 content ∅)
  end.

Definition _calculate_similarity_hash_based (env : Env) (file1_path file2_path : string)
  : option Q :=
  match get_file_blocks env file1_path with
  | None => None
  | Some blocks1 =>
      match get_file_blocks env file2_path with
      | None => None
      | Some blocks2 => Some (jaccard blocks1 blocks2)
      end
  end.

(** Three tiers; an exception in one hands over to the next, an exception
    in the last one is the caller's. *)
Definition calculate_pdf_similarity (env : Env) (file1_path file2_path : string)
  : option Q :=
  match _calculate_similarity_pypdf2 env file1_path file2_path with
  | Some s => Some s
  | None =>
      match _calculate_similarity_pdfminer env file1_path file2_path with
      | Some s => Some s
      | None => _calculate_similarity_hash_based env file1_path file2_path
      end
  end.

(* ===================================================================== *)
(** ** file_scanner.py *)
(* ===================================================================== *)

(** The dataclass [FileInfo]; times are seconds since the epoch. *)
Module FileInfo.
Record t : Type := mk {
  path : string;
  name : string;
  size : Z;
  modified : Z;
  content_hash : option string;
  similarity_group : option string
}.

Definition opt_eqb (a b : option string) : bool :=
  match a, b with
  | Some x, Some y => String.eqb x y
  | None, None => true
  | _, _ => false
  end.

(** the [__eq__] a dataclass generates: all fields, in order *)
Definition eqb (a b : t) : bool :=
  String.eqb (path a) (path b) && String.eqb (name a) (name b)
  && Z.eqb (size a) (size b) && Z.eqb (modified a) (modified b)
  && opt_eqb (content_hash a) (content_hash b)
  && opt_eqb (similarity_group a) (similarity_group b).

Definition set_content_hash (h : option string) (f : t) : t :=
  mk (path f) (name f) (size f) (modified f) h (similarity_group f).

Definition set_similarity_group (g : option string) (f : t) : t :=
  mk (path f) (name f) (size f) (modified f) (content_hash f) g.

Definition dummy : t := mk "" "" 0 0 None None.
End FileInfo.

(** A reference to a [FileInfo] object: its index in the store. *)
Definition ref : Type := nat.

Record FileScanner : Type := mkScanner {
  base_directory : string;
  include_subdirs : bool;
  similarity_threshold : Q;
  file_extensions : option (list string);
  objects : list FileInfo.t;
  file_inventory : list ref;
  duplicate_map : Dict.t (list ref);
  name_map : Dict.t (list ref);
  similarity_groups : Dict.t (list ref)
}.

Definition with_objects (o : list FileInfo.t) (s : FileScanner) : FileScanner :=
  mkScanner (base_directory s) (include_subdirs s) (similarity_threshold s)
    (file_extensions s) o (file_inventory s) (duplicate_map s) (name_map s)
    (similarity_groups s).

Definition with_file_inventory (l : list ref) (s : FileScanner) : FileScanner :=
  mkScanner (base_directory s) (include_subdirs s) (similarity_threshold s)
    (file_extensions s) (objects s) l (duplicate_map s) (name_map s)
    (similarity_groups s).

Definition with_duplicate_map (d : Dict.t (list ref)) (s : FileScanner) : FileScanner :=
  mkScanner (base_directory s) (include_subdirs s) (similarity_threshold s)
    (file_extensions s) (objects s) (file_inventory s) d (name_map s)
    (similarity_groups s).

Definition with_name_map (d : Dict.t (list ref)) (s : FileScanner) : FileScanner :=
  mkScanner (base_directory s) (include_subdirs s) (similarity_threshold s)
    (file_extensions s) (objects s) (file_inventory s) (duplicate_map s) d
    (similarity_groups s).

Definition with_similarity_groups (d : Dict.t (list ref)) (s : FileScanner) : FileScanner :=
  mkScanner (base_directory s) (include_subdirs s) (similarity_threshold s)
    (file_extensions s) (objects s) (file_inventory s) (duplicate_map s) (name_map s) d.

(** the object a reference points to *)
Definition obj (s : FileScanner) (r : ref) : FileInfo.t :=
  nth r (objects s) FileInfo.dummy.

(** [FileScanner.__init__]; [base_directory] is already absolute *)
Definition new_scanner (base : string) (subdirs : bool) (threshold : Q)
    (exts : option (list string)) : FileScanner :=
  mkScanner base subdirs threshold exts [] [] [] [] [].

(** [if k not in d: d[k] = []] followed by [d[k].append(r)] *)
Definition dict_append (d : Dict.t (list ref)) (k : string) (r : ref) : Dict.t (list ref) :=
  let d1 := if Dict.mem d k then d else Dict.set d k [] in
  match Dict.get d1 k with
  | Some l => Dict.set d1 k (l ++ [r])
  | None => d1
  end.

(** *** inventory_files *)

Definition is_dir (n : node) : bool :=
  match n with Dir _ _ => true | File _ _ => false end.

(** the [files] component of what [os.walk] yields for a directory *)
Fixpoint files_of (children : list node) : list (string * option (Z * Z)) :=
  match children with
  | [] => []
  | File f st :: rest => (f, st) :: files_of rest
  | Dir _ _ :: rest => files_of rest
  end.

(** [os.walk(top)], top-down: a directory, then each of its
    sub-directories in turn *)
Fixpoint walk_node (top : string) (n : node)
  : list (string * list (string * option (Z * Z))) :=
  match n with
  | File _ _ => []
  | Dir d children =>
      let root := Py.join top d in
      (root, files_of children) :: flat_map (walk_node root) children
  end.

Definition os_walk (top : string) (children : list node)
  : list (string * list (string * option (Z * Z))) :=
  (top, files_of children) :: flat_map (walk_node top) children.

(** [ext not in self.file_extensions], for a file name that is ASCII text *)
Definition ext_rejected (s : FileScanner) (file_name : string) : bool :=
  match file_extensions s with
  | None | Some [] => false
  | Some exts =>
      let ext := Py.lower (snd (Py.splitext file_name)) in
      negb (existsb (String.eqb ext) exts)
  end.

(** the body of the inner loop, for one file name of one directory *)
Definition inventory_one (root : string) (s : FileScanner)
    (entry : string * option (Z * Z)) : FileScanner :=
  let '(file_name, st) := entry in
  let file_path := Py.join root file_name in
  if ext_rejected s file_name then s
  else
    match st with
    | None => s
    | Some (st_size, st_mtime) =>
        let file_info := FileInfo.mk file_path file_name st_size st_mtime None None in
        let r := length (objects s) in
        let s1 := with_objects (objects s ++ [file_info]) s in
        let s2 := with_file_inventory (file_inventory s1 ++ [r]) s1 in
        with_name_map (dict_append (name_map s2) file_name r) s2
    end.

(** the body of the outer loop, for one directory *)
Definition inventory_dir (s : FileScanner)
    (d : string * list (string * option (Z * Z))) : FileScanner :=
  let '(root, files) := d in
  if negb (include_subdirs s) && negb (String.eqb root (base_directory s)) then s
  else fold_left (inventory_one root) files s.

Definition inventory_files (tree : list node) (s : FileScanner) : FileScanner :=
  fold_left inventory_dir (os_walk (base_directory s) tree)
            (with_file_inventory [] s).

(** *** _calculate_file_hash *)

(** The reading loop: feed the digest [buffer_size] bytes at a time until
    a read returns nothing.  [md5_hash] is what has been fed so far. *)
Equations? hash_loop (bufsize : nat) (rest : list byte) (md5_hash : list byte)
  : list byte by wf (length rest) lt :=
  hash_loop bufsize rest md5_hash with inspect (fst (read bufsize rest)) := {
    | exist _ [] _ => md5_hash
    | exist _ (b :: data) _ =>
        hash_loop bufsize (snd (read bufsize rest)) (md5_hash ++ b :: data) }.
Proof.
  cbn in *. destruct bufsize, rest; simpl in *; try discriminate.
  rewrite length_drop. lia.
Qed.

Definition buffer_size : nat := N.to_nat 65536.

Definition _calculate_file_hash (env : Env) (file_path : string) : option string :=
  match open_rb env file_path with
  | None => None
  | Some content => Some (MD5.hexdigest (hash_loop buffer_size content []))
  end.

(** *** _group_similar_pdfs *)

(** [f in l] on a list of objects: identity, or else [__eq__] *)
Definition obj_in (s : FileScanner) (r : ref) (l : list ref) : bool :=
  existsb (fun r' => Nat.eqb r' r || FileInfo.eqb (obj s r') (obj s r)) l.

Definition set_similarity_group (r : ref) (g : string) (s : FileScanner) : FileScanner :=
  with_objects
    (<[ r := FileInfo.set_similarity_group (Some g) (obj s r) ]> (objects s)) s.

(** [if f not in groups[gid]: groups[gid].append(f)] *)
Definition group_add (group_id : string) (r : ref) (s : FileScanner) : FileScanner :=
  match Dict.get (similarity_groups s) group_id with
  | None => s
  | Some l =>
      if obj_in s r l then s
      else with_similarity_groups (Dict.set (similarity_groups s) group_id (l ++ [r])) s
  end.

(** [f"sim_{hash(name)}_{i}_{j}"] *)
Definition mint (env : Env) (name : string) (i j : nat) : string :=
  "sim_" ++ Py.str_Z (py_hash env name) ++ "_" ++ Py.str_nat i ++ "_" ++ Py.str_nat j.

(** [a or b or fresh] *)
Definition choose_group (a b : option string) (fresh : string) : string :=
  match Py.or_ (Py.or_ a b) (Some fresh) with
  | Some g => g
  | None => fresh
  end.

(** what happens once a pair has passed the threshold *)
Definition join_group (env : Env) (name : string) (i j : nat) (ri rj : ref)
    (s : FileScanner) : FileScanner :=
  let group_id :=
    choose_group (FileInfo.similarity_group (obj s ri))
                 (FileInfo.similarity_group (obj s rj))
                 (mint env name i j) in
  let s1 := set_similarity_group ri group_id s in
  let s2 := set_similarity_group rj group_id s1 in
  let s3 := if Dict.mem (similarity_groups s2) group_id then s2
            else with_similarity_groups (Dict.set (similarity_groups s2) group_id []) s2 in
  let s4 := group_add group_id ri s3 in
  group_add group_id rj s4.

(** the body of the two inner loops, for the pair [(i, j)] of a name group *)
Definition compare_pair (env : Env) (name : string) (files : list ref)
    (s : FileScanner) (ij : nat * nat) : FileScanner :=
  let '(i, j) := ij in
  match files !! i, files !! j with
  | Some ri, Some rj =>
      if FileInfo.opt_eqb (FileInfo.content_hash (obj s ri))
                          (FileInfo.content_hash (obj s rj))
      then s
      else
        match calculate_pdf_similarity env (FileInfo.path (obj s ri))
                                       (FileInfo.path (obj s rj)) with
        | None => s
        | Some similarity =>
            if Qle_bool (similarity_threshold s) similarity
            then join_group env name i j ri rj s
            else s
        end
  | _, _ => s
  end.

(** [for i in range(n): for j in range(i + 1, n)] *)
Definition pairs (n : nat) : list (nat * nat) :=
  flat_map (fun i => map (fun j => (i, j)) (seq (S i) (n - S i))) (seq 0 n).

(** the body of the loop over [name_map.items()] *)
Definition group_name (env : Env) (s : FileScanner) (item : string * list ref)
  : FileScanner :=
  let '(name, files) := item in
  if negb (Py.endswith (Py.lower name) ".pdf") || (length files <=? 1)%nat then s
  else fold_left (compare_pair env name files) (pairs (length files)) s.

Definition _group_similar_pdfs (env : Env) (s : FileScanner) : FileScanner :=
  let pdf_files :=
    filter (fun r => Py.endswith (Py.lower (FileInfo.path (obj s r))) ".pdf" = true)
           (file_inventory s) in
  match pdf_files with
  | [] => s
  | _ => fold_left (group_name env) (Dict.items (name_map s)) s
  end.

(** *** process_files *)

(** the body of the loop when the hash was computed *)
Definition record_hash (r : ref) (file_hash : string) (s : FileScanner) : FileScanner :=
  let s1 := with_objects
              (<[ r := FileInfo.set_content_hash (Some file_hash) (obj s r) ]> (objects s)) s in
  with_duplicate_map (dict_append (duplicate_map s1) file_hash r) s1.

(** One resumption of the generator: run until the next [yield], or to the
    end.  [rest] is what the [for] loop has still to visit; the result is
    the session as the generator leaves it, and either the yielded pair
    with the rest of the loop, or [None] when the generator is exhausted
    (after [_group_similar_pdfs]). *)
Fixpoint next (env : Env) (s : FileScanner) (rest : list ref)
  : FileScanner * option ((ref * string) * list ref) :=
  match rest with
  | [] => (_group_similar_pdfs env s, None)
  | r :: rest' =>
      match _calculate_file_hash env (FileInfo.path (obj s r)) with
      | Some file_hash => (record_hash r file_hash s, Some ((r, file_hash), rest'))
      | None => next env s rest'
      end
  end.

(** The loop of the generator run over [rest] without stopping: the
    session after the loop, and the pairs yielded on the way. *)
Fixpoint hash_loop_all (env : Env) (s : FileScanner) (rest : list ref)
  : FileScanner * list (ref * string) :=
  match rest with
  | [] => (s, [])
  | r :: rest' =>
      match _calculate_file_hash env (FileInfo.path (obj s r)) with
      | Some file_hash =>
          let '(s', ys) := hash_loop_all env (record_hash r file_hash s) rest' in
          (s', (r, file_hash) :: ys)
      | None => hash_loop_all env s rest'
      end
  end.

(** [list(scanner.process_files())] *)
Definition process_files (env : Env) (s : FileScanner)
  : FileScanner * list (ref * string) :=
  let '(s', ys) := hash_loop_all env s (file_inventory s) in
  (_group_similar_pdfs env s', ys).

(** *** get_duplicate_groups, get_identical_names *)

Definition add_group (results : Dict.t (list ref)) (item : string * list ref)
  : Dict.t (list ref) :=
  let '(k, files) := item in
  if (1 <? length files)%nat then Dict.set results k files else results.

Definition get_duplicate_groups (s : FileScanner) : Dict.t (list ref) :=
  let results := fold_left add_group (Dict.items (duplicate_map s)) [] in
  fold_left add_group (Dict.items (similarity_groups s)) results.

Definition get_identical_names (s : FileScanner) : Dict.t (list ref) :=
  filter (fun item => (1 <? length (snd item))%nat = true) (Dict.items (name_map s)).

(* ===================================================================== *)
(** ** file_monitor.py *)
(* ===================================================================== *)

(** The file system the monitor acts on: regular files with their
    modification time and content, directories, the paths on which the
    system denies access, and the device that holds each path.  [clock]
    is the current time; [datetime_error t] is the text of the exception
    that [datetime.fromtimestamp(t)] raises on this platform, if it raises
    one. *)
Record World : Type := mkWorld {
  fs_files : gmap string (Z * list byte);
  fs_dirs : gset string;
  fs_denied : gset string;
  fs_device : string -> Z;
  clock : Z;
  datetime_error : Z -> option string
}.

Definition with_clock (t : Z) (w : World) : World :=
  mkWorld (fs_files w) (fs_dirs w) (fs_denied w) (fs_device w) t (datetime_error w).

(** [os.path.exists] *)
Definition path_exists (w : World) (p : string) : bool :=
  bool_decide (p ∈ dom (fs_files w) ∪ fs_dirs w).

(** [str(e)] for the [OSError]s the system raises *)
Definition quoted (p : string) : string := "'" ++ p ++ "'".
Definition ENOENT (p : string) : string := "[Errno 2] No such file or directory: " ++ quoted p.
Definition EACCES (p : string) : string := "[Errno 13] Permission denied: " ++ quoted p.
Definition EEXIST (p : string) : string := "[Errno 17] File exists: " ++ quoted p.
Definition EISDIR (p : string) : string := "[Errno 21] Is a directory: " ++ quoted p.

(** [open(p, 'rb')] followed by reading: the content, or the error *)
Definition os_open (w : World) (p : string) : string + list byte :=
  if bool_decide (p ∈ fs_denied w) then inl (EACCES p)
  else match fs_files w !! p with
       | Some (_, content) => inr content
       | None => if bool_decide (p ∈ fs_dirs w) then inl (EISDIR p) else inl (ENOENT p)
       end.

(** [os.stat(p)]: size and modification time *)
Definition os_stat (w : World) (p : string) : string + (Z * Z) :=
  match fs_files w !! p with
  | Some (mtime, content) => inr (Z.of_nat (length content), mtime)
  | None => if bool_decide (p ∈ fs_dirs w) then inr (0%Z, 0%Z) else inl (ENOENT p)
  end.

(** [os.makedirs(p, exist_ok=True)]: a directory that is there is left
    as it is; the directories above [p] are taken to be there *)
Definition os_makedirs (w : World) (p : string) : string + World :=
  if bool_decide (p ∈ dom (fs_files w)) then inl (EEXIST p)
  else if bool_decide (p ∈ fs_dirs w) then inr w
  else if bool_decide (p ∈ fs_denied w) then inl (EACCES p)
  else inr (mkWorld (fs_files w) ({[ p ]} ∪ fs_dirs w) (fs_denied w) (fs_device w)
                    (clock w) (datetime_error w)).

(** [os.rename(src, dst)] of a regular file; it does not cross from one
    device to another *)
Definition os_rename (w : World) (src dst : string) : string + World :=
  let msg := (quoted src ++ " -> " ++ quoted dst)%string in
  if negb (fs_device w src =? fs_device w dst)%Z
  then inl ("[Errno 18] Invalid cross-device link: " ++ msg)%string
  else
    match fs_files w !! src with
    | None => inl ("[Errno 2] No such file or directory: " ++ msg)%string
    | Some f =>
        if bool_decide (src ∈ fs_denied w) || bool_decide (dst ∈ fs_denied w)
        then inl ("[Errno 13] Permission denied: " ++ msg)%string
        else if bool_decide (dst ∈ fs_dirs w)
        then inl ("[Errno 21] Is a directory: " ++ msg)%string
        else inr (mkWorld (<[ dst := f ]> (delete src (fs_files w)))
                          (fs_dirs w) (fs_denied w) (fs_device w)
                          (clock w) (datetime_error w))
    end.

(** the files of the world as the scanner's hasher reads them *)
Definition world_env (w : World) : Env :=
  mkEnv (fun p => match os_open w p with inr c => Some c | inl _ => None end)
        (fun _ => None) (fun _ => None) (fun _ => 0%Z) ascii_range.

Record LogEntry : Type := mkLog { timestamp : Z; event : string }.

Record FileMonitor : Type := mkMonitor {
  directory : string;
  auto_organize : bool;
  organize_path : string;
  activity_log : list LogEntry;
  known_files : Dict.t FileInfo.t
}.

(** [log_activity]; the time is kept as the clock value it was read at *)
Definition log_activity (w : World) (message : string) (m : FileMonitor) : FileMonitor :=
  mkMonitor (directory m) (auto_organize m) (organize_path m)
            (activity_log m ++ [mkLog (clock w) message]) (known_files m).

Definition with_known_files (k : Dict.t FileInfo.t) (m : FileMonitor) : FileMonitor :=
  mkMonitor (directory m) (auto_organize m) (organize_path m) (activity_log m) k.

(** the name tried when [counter] is reached:
    [os.path.join(self.organize_path, f"{name}_{counter}{ext}")] *)
Definition candidate (organize filename : string) (counter : nat) : string :=
  let '(name, ext) := Py.splitext filename in
  Py.join organize (name ++ "_" ++ Py.str_nat counter ++ ext).

(** [while os.path.exists(dest_path): ...]; [None] when [fuel] rounds did
    not reach a free name *)
Fixpoint free_name (w : World) (organize filename : string)
    (fuel counter : nat) (dest_path : string) : option string :=
  if path_exists w dest_path then
    match fuel with
    | O => None
    | S fuel' =>
        free_name w organize filename fuel' (S counter)
                  (candidate organize filename counter)
    end
  else Some dest_path.

(** rounds that always suffice: one more than there are paths *)
Definition enough (w : World) : nat := S (size (dom (fs_files w) ∪ fs_dirs w)).

Definition _organize_duplicate (w : World) (m : FileMonitor) (file_path : string)
  : option (World * FileMonitor) :=
  match os_makedirs w (organize_path m) with
  | inl e => Some (w, log_activity w ("Failed to organize duplicate: " ++ e) m)
  | inr w1 =>
      let filename := Py.basename file_path in
      let dest_path := Py.join (organize_path m) filename in
      match free_name w1 (organize_path m) filename (enough w1) 1 dest_path with
      | None => None
      | Some dest_path =>
          match os_rename w1 file_path dest_path with
          | inl e => Some (w1, log_activity w1 ("Failed to organize duplicate: " ++ e) m)
          | inr w2 =>
              Some (w2, log_activity w2
                          ("Organized duplicate: " ++ filename ++ " → " ++ dest_path) m)
          end
      end
  end.

(** [str(e)] of the exception hashing raises on [p] *)
Definition hash_error (w : World) (p : string) : string :=
  match os_open w p with inl e => e | inr _ => "" end.

(** [process_new_file], the handler of a create or move event.  It waits
    a second, so the clock advances by one; the [FileScanner] it makes is
    used for its hasher alone.  Whatever is raised on the way, by hashing,
    by [os.stat] or by [datetime.fromtimestamp], is logged. *)
Definition process_new_file (w : World) (m : FileMonitor) (file_path : string)
  : option (World * FileMonitor) :=
  let w := with_clock (clock w + 1) w in
  match _calculate_file_hash (world_env w) file_path with
  | None =>
      Some (w, log_activity w ("Error processing " ++ file_path ++ ": "
                               ++ hash_error w file_path) m)
  | Some file_hash =>
      match Dict.get (known_files m) file_hash with
      | Some duplicate_file =>
          let m1 := log_activity w
                      ("Duplicate detected: " ++ Py.basename file_path ++ " matches "
                       ++ FileInfo.name duplicate_file) m in
          if auto_organize m1 then _organize_duplicate w m1 file_path
          else Some (w, m1)
      | None =>
          match os_stat w file_path with
          | inl e =>
              Some (w, log_activity w ("Error processing " ++ file_path ++ ": " ++ e) m)
          | inr (st_size, st_mtime) =>
              match datetime_error w st_mtime with
              | Some e =>
                  Some (w, log_activity w ("Error processing " ++ file_path ++ ": " ++ e) m)
              | None =>
                  let file_info :=
                    FileInfo.mk file_path (Py.basename file_path) st_size st_mtime
                                (Some file_hash) None in
                  let m1 := with_known_files
                              (Dict.set (known_files m) file_hash file_info) m in
                  Some (w, log_activity w ("New unique file: " ++ Py.basename file_path) m1)
              end
          end
      end
  end.

(** [FileEventHandler]: creations and moves of files reach the monitor,
    with the path the file now has; events on directories are dropped. *)
Inductive FsEvent : Type :=
| Created (is_directory : bool) (src_path : string)
| Moved (is_directory : bool) (src_path dest_path : string).

Definition on_event (w : World) (m : FileMonitor) (e : FsEvent)
  : option (World * FileMonitor) :=
  match e with
  | Created false src_path => process_new_file w m src_path
  | Moved false _ dest_path => process_new_file w m dest_path
  | _ => Some (w, m)
  end.

(** the file can be hashed and its hash is a key of the index *)
Definition known_duplicate (w : World) (m : FileMonitor) (file_path : string) : bool :=
  match _calculate_file_hash (world_env w) file_path with
  | Some file_hash => Dict.mem (known_files m) file_hash
  | None => false
  end.

(** the path that an event hands to the monitor, if it hands one *)
Definition event_path (e : FsEvent) : option string :=
  match e with
  | Created false src_path => Some src_path
  | Moved false _ dest_path => Some dest_path
  | _ => None
  end.

(* ===================================================================== *)
(** ** Notions used in the statements *)
(* ===================================================================== *)

(** an entry with two records or more *)
Definition is_group (item : string * list ref) : Prop := 2 <= length (snd item).

(** two different contents with one fingerprint *)
Definition md5_collision (c1 c2 : list byte) : Prop :=
  c1 <> c2 /\ MD5.hexdigest c1 = MD5.hexdigest c2.

(** [s'] has the inventory, the name index and the exact-duplicate index
    of [s], and its objects have the paths and hashes they have in [s]. *)
Definition keeps_hashing (s s' : FileScanner) : Prop :=
  duplicate_map s' = duplicate_map s
  /\ name_map s' = name_map s
  /\ file_inventory s' = file_inventory s
  /\ length (objects s') = length (objects s)
  /\ (forall r, FileInfo.path (obj s' r) = FileInfo.path (obj s r))
  /\ (forall r, FileInfo.content_hash (obj s' r) = FileInfo.content_hash (obj s r)).

(** the records listed under a key, none when the key is absent *)
Definition entry (d : Dict.t (list ref)) (k : string) : list ref :=
  default [] (Dict.get d k).

(** how often [r] is listed *)
Definition occurrences (r : ref) (l : list ref) : nat := count_occ Nat.eq_dec l r.

(** how many steps of the loop over [rest] list [r] under key [k], when
    [hf] gives the hash computed for each record *)
Fixpoint hits (hf : ref -> option string) (r : ref) (k : string) (rest : list ref) : nat :=
  match rest with
  | [] => 0
  | i :: rest' =>
      (if bool_decide (i = r /\ hf i = Some k) then 1 else 0) + hits hf r k rest'
  end.

(** the record made for a directory entry, if one is made *)
Definition accepted (s : FileScanner) (root : string) (e : string * option (Z * Z))
  : option FileInfo.t :=
  let '(file_name, st) := e in
  if ext_rejected s file_name then None
  else match st with
       | None => None
       | Some (st_size, st_mtime) =>
           Some (FileInfo.mk (Py.join root file_name) file_name st_size st_mtime None None)
       end.

(** the records [inventory_files] makes, in the order of the walk *)
Definition found (s : FileScanner) (tree : list node) : list FileInfo.t :=
  flat_map (fun d : string * list (string * option (Z * Z)) =>
              if negb (include_subdirs s) && negb (String.eqb (fst d) (base_directory s))
              then []
              else omap (accepted s (fst d)) (snd d))
           (os_walk (base_directory s) tree).

(** a new object enters the store, the inventory and the name index *)
Definition add_info (s : FileScanner) (file_info : FileInfo.t) : FileScanner :=
  let r := length (objects s) in
  let s1 := with_objects (objects s ++ [file_info]) s in
  let s2 := with_file_inventory (file_inventory s1 ++ [r]) s1 in
  with_name_map (dict_append (name_map s2) (FileInfo.name file_info) r) s2.

(** [s'] was made with the arguments [s] was made with *)
Definition same_config (s s' : FileScanner) : Prop :=
  base_directory s' = base_directory s
  /\ include_subdirs s' = include_subdirs s
  /\ file_extensions s' = file_extensions s.

(* ===================================================================== *)
(** ** Sample directories, files and sessions *)
(* ===================================================================== *)

(** Two readable text files, [abc] and [abd]; nothing else can be opened. *)
Definition sample_env : Env :=
  mkEnv (fun p => if String.eqb p "/d/a.txt" then Some (list_byte_of_string "abc")
                  else if String.eqb p "/d/b.txt" then Some (list_byte_of_string "abd")
                  else None)
        (fun _ => None) (fun _ => None) (fun _ => 0%Z) ascii_range.

(** A scanned document: the file has bytes, its text layer is empty. *)
Definition scanned_env : Env :=
  mkEnv (fun p => if String.eqb p "/d/scan.pdf"
                  then Some (list_byte_of_string "%PDF-1.4 one page, one picture")
                  else None)
        (fun p => if String.eqb p "/d/scan.pdf" then Some "" else None)
        (fun _ => None) (fun _ => 0%Z) ascii_range.

(** A file of three bytes and an empty file. *)
Definition two_files_env : Env :=
  mkEnv (fun p => if String.eqb p "/d/a.pdf" then Some (list_byte_of_string "abc")
                  else if String.eqb p "/d/e.pdf" then Some []
                  else None)
        (fun _ => None) (fun _ => None) (fun _ => 0%Z) ascii_range.

(** Neither file can be opened, and no extractor works. *)
Definition unreadable_env : Env :=
  mkEnv (fun _ => None) (fun _ => None) (fun _ => None) (fun _ => 0%Z) ascii_range.

(** Two files named [r.pdf], in two directories. *)
Definition two_reports_tree : list node :=
  [Dir "a" [File "r.pdf" (Some (3, 100)%Z)]; Dir "b" [File "r.pdf" (Some (4, 200)%Z)]].

(** The first of them can be read, the second cannot, and no text
    extractor is installed. *)
Definition half_readable_env : Env :=
  mkEnv (fun p => if String.eqb p "/d/a/r.pdf" then Some (list_byte_of_string "abc") else None)
        (fun _ => None) (fun _ => None) (fun _ => 7%Z) ascii_range.

(** The session after the hashing loop over these two files. *)
Definition two_reports_hashed : FileScanner :=
  let s := inventory_files two_reports_tree (new_scanner "/d" true 1 None) in
  fst (hash_loop_all half_readable_env s (file_inventory s)).

(** Four files named [r.pdf] with different bytes.  Their texts overlap
    by half for the pairs (0,3), (1,2) and (1,3), by a fifth or not at all
    for the others; the threshold is 0.5. *)
Definition four_reports_tree : list node :=
  [Dir "a" [File "r.pdf" (Some (5, 100)%Z)];
   Dir "b" [File "r.pdf" (Some (5, 100)%Z)];
   Dir "c" [File "r.pdf" (Some (5, 100)%Z)];
   Dir "d" [File "r.pdf" (Some (5, 100)%Z)]].

Definition four_reports_text (p : string) : option string :=
  if String.eqb p "/data/a/r.pdf" then Some "a b c"
  else if String.eqb p "/data/b/r.pdf" then Some "c d e"
  else if String.eqb p "/data/c/r.pdf" then Some "d e f"
  else if String.eqb p "/data/d/r.pdf" then Some "b c d"
  else None.

Definition four_reports_env : Env :=
  mkEnv (fun p => option_map list_byte_of_string (four_reports_text p))
        four_reports_text (fun _ => None) (fun _ => 7%Z) ascii_range.

Definition four_reports_scanned : FileScanner :=
  fst (process_files four_reports_env
         (inventory_files four_reports_tree (new_scanner "/data" true (1 # 2) None))).

(** A directory with a recycle bin, a trash folder and a system folder. *)
Definition trash_tree : list node :=
  [File "keep.txt" (Some (1, 10)%Z);
   Dir "$RECYCLE.BIN" [File "deleted.txt" (Some (2, 20)%Z)];
   Dir ".Trash-1000" [Dir "files" [File "old.txt" (Some (3, 30)%Z)]];
   Dir "System Volume Information" [File "tracking.log" (Some (4, 40)%Z)]].

Definition trash_scanned : FileScanner :=
  inventory_files trash_tree (new_scanner "/data" true 1 None).

(** The inventory of a directory with the single file [a.txt]. *)
Definition one_file_scanned : FileScanner :=
  inventory_files [File "a.txt" (Some (3, 100)%Z)] (new_scanner "/d" true 1 None).

(** the file of the inventory cannot be opened *)
Definition unreadable_scanned : FileScanner :=
  fst (process_files unreadable_env one_file_scanned).

(** Of the two files named [r.pdf] the second cannot be opened when it
    is hashed; the text extractor, which runs after the hashing, reads
    the same text from both. *)
Definition late_readable_env : Env :=
  mkEnv (fun p => if String.eqb p "/d/a/r.pdf" then Some (list_byte_of_string "abc") else None)
        (fun p => if String.eqb p "/d/a/r.pdf" || String.eqb p "/d/b/r.pdf"
                  then Some "annual report" else None)
        (fun _ => None) (fun _ => 7%Z) ascii_range.

Definition late_readable_scanned : FileScanner :=
  fst (process_files late_readable_env
         (inventory_files two_reports_tree (new_scanner "/d" true 1 None))).

(** a file that cannot be opened, listed before two that can *)
Definition three_files_scanned : FileScanner :=
  inventory_files [File "gone.txt" (Some (9, 50)%Z); File "a.txt" (Some (3, 100)%Z);
                   File "b.txt" (Some (3, 100)%Z)]
                  (new_scanner "/d" true 1 None).

(** The directory [/d] holds [x.bin]; [y.bin] arrives with the same
    bytes; the organize folder already has a [y.bin]. *)
Definition monitor_world : World :=
  mkWorld (list_to_map
             [("/d/x.bin", (5%Z, list_byte_of_string "same"));
              ("/d/y.bin", (6%Z, list_byte_of_string "same"));
              ("/d/Auto_Organized/y.bin", (1%Z, list_byte_of_string "other"))])
          {[ "/d"; "/d/Auto_Organized" ]} ∅ (fun _ => 1%Z) 1000 (fun _ => None).

(** the same when the event is handled, a second later *)
Definition monitor_world_later : World := with_clock 1001 monitor_world.

(** The monitor knows [x.bin] by its hash; auto-organize is on. *)
Definition monitor_start : FileMonitor :=
  mkMonitor "/d" true "/d/Auto_Organized" []
    [("51037a4a37730f52c8732586d3aaa316",
      FileInfo.mk "/d/x.bin" "x.bin" 4 5 None None)].

(* ===================================================================== *)
(** ** Further notions *)
(* ===================================================================== *)

(** a Python dictionary has one entry for a key *)
Definition keys_unique {V : Type} (d : Dict.t V) : Prop := NoDup (map fst d).

(** a name as a directory listing gives it: not empty, not absolute *)
Definition plain_name (d : string) : bool :=
  negb (String.eqb d "") && negb (Py.startswith d "/").

(** every directory of the tree has such a name *)
Fixpoint tree_ok (n : node) : bool :=
  match n with
  | File _ _ => true
  | Dir d children => plain_name d && forallb tree_ok children
  end.

(** the names of the files of a tree are ASCII text *)
Fixpoint ascii_names (n : node) : bool :=
  match n with
  | File fname _ => Py.isascii fname
  | Dir _ children => forallb ascii_names children
  end.

(** a tree with a sub-directory, and upper-case extensions *)
Definition nested_tree : list node :=
  [File "a.TXT" (Some (1, 10)%Z); File "b.pdf" (Some (2, 20)%Z);
   Dir "sub" [File "c.txt" (Some (3, 30)%Z); Dir "deep" [File "d.Txt" (Some (4, 40)%Z)]]].

(** [list(gen)] for a generator of [process_files] that has [rest] of its
    loop before it: resume it until it is exhausted.  Each resumption
    takes at least one record off [rest]; [fuel] bounds their number. *)
Fixpoint drain (fuel : nat) (env : Env) (s : FileScanner) (rest : list ref)
  : option (FileScanner * list (ref * string)) :=
  match fuel with
  | O => None
  | S fuel' =>
      match next env s rest with
      | (s1, None) => Some (s1, [])
      | (s1, Some (y, rest')) =>
          match drain fuel' env s1 rest' with
          | Some (s2, ys) => Some (s2, y :: ys)
          | None => None
          end
      end
  end.

(** the similarity index of a session and the group fields of its objects
    use identifiers that start with [sim_], each once as a key *)
Definition sim_ok (s : FileScanner) : Prop :=
  keys_unique (similarity_groups s)
  /\ (forall k, k ∈ map fst (similarity_groups s) -> Py.startswith k "sim_" = true)
  /\ (forall r g, FileInfo.similarity_group (obj s r) = Some g ->
                  Py.startswith g "sim_" = true).

(** what holds of every session made by a new scanner and its scans *)
Definition session_ok (s : FileScanner) : Prop :=
  keys_unique (duplicate_map s)
  /\ keys_unique (name_map s)
  /\ (forall k, k ∈ map fst (duplicate_map s) -> Py.startswith k "sim_" = false)
  /\ sim_ok s.

(** [s'] is [s] with its arguments kept, and with well-formed similarity
    identifiers if [s] has them *)
Definition steps_to (s s' : FileScanner) : Prop :=
  same_config s s' /\ (sim_ok s -> sim_ok s').

(** a scan as the application runs it: [inventory_files], then the
    generator of [process_files] to its end *)
Definition scan (tree : list node) (env : Env) (s : FileScanner) : FileScanner :=
  fst (process_files env (inventory_files tree s)).

(** Three files in one directory, two of them with the same bytes. *)
Definition abc_tree : list node :=
  [File "a.txt" (Some (3, 100)%Z); File "b.txt" (Some (3, 100)%Z);
   File "c.txt" (Some (3, 100)%Z)].

Definition abc_env : Env :=
  mkEnv (fun p => if String.eqb p "/d/a.txt" then Some (list_byte_of_string "abc")
                  else if String.eqb p "/d/b.txt" then Some (list_byte_of_string "abc")
                  else if String.eqb p "/d/c.txt" then Some (list_byte_of_string "xyz")
                  else None)
        (fun _ => None) (fun _ => None) (fun _ => 0%Z) ascii_range.

(** Two files made of the same two blocks of 4096 bytes: one has them in
    one order, the other in the other order, with the second repeated. *)
Definition block_a : list byte := repeat "a"%byte 4096.
Definition block_b : list byte := repeat "b"%byte 4096.

Definition shuffled_env : Env :=
  mkEnv (fun p => if String.eqb p "/d/one.pdf" then Some (block_a ++ block_b)
                  else if String.eqb p "/d/two.pdf" then Some (block_b ++ block_a ++ block_b)
                  else None)
        (fun _ => None) (fun _ => None) (fun _ => 0%Z) ascii_range.

(** one step of the loop of [_build_initial_inventory]; nothing catches
    what hashing raises there *)
Definition index_file (env : Env) (scanner : FileScanner)
    (known : option (Dict.t FileInfo.t)) (r : ref) : option (Dict.t FileInfo.t) :=
  match known with
  | None => None
  | Some known_files =>
      match _calculate_file_hash env (FileInfo.path (obj scanner r)) with
      | None => None
      | Some file_hash => Some (Dict.set known_files file_hash (obj scanner r))
      end
  end.

(** [_build_initial_inventory]: the index the monitor starts with, or
    [None] when hashing raised *)
Definition _build_initial_inventory (env : Env) (tree : list node) (directory : string)
  : option (Dict.t FileInfo.t) :=
  let scanner := inventory_files tree (new_scanner directory true 1 None) in
  fold_left (index_file env scanner) (file_inventory scanner) (Some []).

(** [FileMonitor.__init__]; [organize_path or os.path.join(...)] *)
Definition new_monitor (env : Env) (tree : list node) (directory : string)
    (auto : bool) (organize : option string) : option FileMonitor :=
  let organize_path :=
    match Py.or_ organize (Some (Py.join directory "Auto_Organized")) with
    | Some p => p
    | None => Py.join directory "Auto_Organized"
    end in
  match _build_initial_inventory env tree directory with
  | None => None
  | Some known => Some (mkMonitor directory auto organize_path [] known)
  end.

(* ===================================================================== *)
(** ** file_organizer.py *)
(* ===================================================================== *)

(** an entry of the plan: [{"source", "destination", "size"}] *)
Record Operation : Type := mkOp {
  source : string;
  destination : string;
  op_size : Z
}.

(** The organizer is given the groups with their records: it reads the
    fields of the records and changes none. *)
Record FileOrganizer : Type := mkOrganizer {
  duplicate_groups : Dict.t (list FileInfo.t);
  destination_dir : string;
  keep_original : bool
}.

(** [f"Duplicates_{first_file.name}_{group_id[:8]}"] *)
Definition folder_name (group_id : string) (first_file : FileInfo.t) : string :=
  "Duplicates_" ++ FileInfo.name first_file ++ "_" ++ Py.stake 8 group_id.

(** the dictionary made for one file to move *)
Definition operation (o : FileOrganizer) (folder : string) (file_info : FileInfo.t)
  : Operation :=
  let dest_folder := Py.join (destination_dir o) folder in
  mkOp (FileInfo.path file_info) (Py.join dest_folder (FileInfo.name file_info))
       (FileInfo.size file_info).

(** [plan[folder_name].append(...)] *)
Definition plan_append (folder : string) (plan : Dict.t (list Operation)) (op : Operation)
  : Dict.t (list Operation) :=
  match Dict.get plan folder with
  | Some ops => Dict.set plan folder (ops ++ [op])
  | None => plan
  end.

(** the body of the loop of [generate_organization_plan], for one group *)
Definition plan_group (o : FileOrganizer) (plan : Dict.t (list Operation))
    (item : string * list FileInfo.t) : Dict.t (list Operation) :=
  let '(group_id, files) := item in
  match files with
  | first_file :: _ :: _ =>
      let folder := folder_name group_id first_file in
      let plan1 := Dict.set plan folder [] in
      let files_to_move := if keep_original o then drop 1 files else files in
      fold_left (fun pl file_info => plan_append folder pl (operation o folder file_info))
                files_to_move plan1
  | _ => plan
  end.

Definition generate_organization_plan (o : FileOrganizer) : Dict.t (list Operation) :=
  fold_left (plan_group o) (Dict.items (duplicate_groups o)) [].

(** what a group puts into the plan: its folder and its operations *)
Definition planned (o : FileOrganizer) (item : string * list FileInfo.t)
  : option (string * list Operation) :=
  match snd item with
  | first_file :: _ :: _ =>
      let folder := folder_name (fst item) first_file in
      Some (folder, map (operation o folder)
                        (if keep_original o then drop 1 (snd item) else snd item))
  | _ => None
  end.

(* ===================================================================== *)
(** ** utils.py *)
(* ===================================================================== *)

(** [hashlib.sha1] and [hashlib.sha256], as functions from the bytes fed
    to the hexadecimal digest *)
Record Hashlib : Type := mkHashlib {
  sha1_hexdigest : list byte -> string;
  sha256_hexdigest : list byte -> string
}.

(** a digest, or the exception raised *)
Inductive HashResult : Type :=
| Digest (hexdigest : string)
| ValueError (message : string)
| OSError.

(** [calculate_file_hash(file_path, algorithm)] *)
Definition calculate_file_hash (lib : Hashlib) (env : Env) (file_path algorithm : string)
  : HashResult :=
  let name := Py.lower algorithm in
  let hash_obj : option (list byte -> string) :=
    if String.eqb name "md5" then Some MD5.hexdigest
    else if String.eqb name "sha1" then Some (sha1_hexdigest lib)
    else if String.eqb name "sha256" then Some (sha256_hexdigest lib)
    else None in
  match hash_obj with
  | None => ValueError ("Unsupported hash algorithm: " ++ algorithm)
  | Some hexdigest =>
      match open_rb env file_path with
      | None => OSError
      | Some content => Digest (hexdigest (hash_loop buffer_size content []))
      end
  end.

(** [os.path.getsize] *)
Definition getsize (w : World) (p : string) : string + Z :=
  match os_stat w p with
  | inl e => inl e
  | inr (st_size, _) => inr st_size
  end.

(** [is_same_file(file1_path, file2_path)]: a truth value, or the text of
    the exception that hashing raises *)
Definition is_same_file (lib : Hashlib) (w : World) (file1_path file2_path : string)
  : string + bool :=
  if negb (path_exists w file1_path) || negb (path_exists w file2_path) then inr false
  else
    match getsize w file1_path, getsize w file2_path with
    | inl e, _ => inl e
    | _, inl e => inl e
    | inr size1, inr size2 =>
        if negb (Z.eqb size1 size2) then inr false
        else
          match calculate_file_hash lib (world_env w) file1_path "md5" with
          | Digest hash1 =>
              match calculate_file_hash lib (world_env w) file2_path "md5" with
              | Digest hash2 => inr (String.eqb hash1 hash2)
              | _ => inl (hash_error w file2_path)
              end
          | _ => inl (hash_error w file1_path)
          end
    end.

(* ===================================================================== *)
(** ** file_scanner.py: statistics *)
(* ===================================================================== *)

Module Statistics.
Record t : Type := mk {
  total_files : nat;
  exact_duplicates : nat;
  similar_files : nat;
  identical_names : nat;
  duplicate_groups : nat;
  similarity_groups : nat;
  space_wasted : Z;
  space_saved_potential : Z
}.
End Statistics.

(** [len(files) > 1] *)
Definition several {A : Type} (files : list A) : bool := (1 <? length files)%nat.

(** [sum(len(files) - 1 for files in d.values() if len(files) > 1)] *)
Definition surplus (d : Dict.t (list ref)) : nat :=
  sum_list (map (fun files => length files - 1)
                (filter (fun files => several files = true) (Dict.values d))).

(** [sum(...)] of integers *)
Definition sum_Z (l : list Z) : Z := fold_left Z.add l 0%Z.

(** [sum(sum(f.size for f in files[1:]) for files in ... if len(files) > 1)] *)
Definition duplicate_space (s : FileScanner) : Z :=
  sum_Z (map (fun files => sum_Z (map (fun f => FileInfo.size (obj s f)) (drop 1 files)))
             (filter (fun files => several files = true) (Dict.values (duplicate_map s)))).

Definition get_statistics (s : FileScanner) : Statistics.t :=
  Statistics.mk
    (length (file_inventory s))
    (surplus (duplicate_map s))
    (surplus (similarity_groups s))
    (surplus (name_map s))
    (length (filter (fun item => several (snd item) = true) (Dict.items (duplicate_map s))))
    (length (similarity_groups s))
    (duplicate_space s)
    (duplicate_space s).

(** Two groups of records that the organizer names alike. *)
Definition report_1 : FileInfo.t :=
  FileInfo.mk "/d/a/report.pdf" "report.pdf" 10 100 None None.
Definition report_2 : FileInfo.t :=
  FileInfo.mk "/d/b/report.pdf" "report.pdf" 11 100 None None.
Definition report_3 : FileInfo.t :=
  FileInfo.mk "/d/c/report.pdf" "report.pdf" 12 100 None None.
Definition report_4 : FileInfo.t :=
  FileInfo.mk "/d/e/report.pdf" "report.pdf" 13 100 None None.

Definition alike_env : Env :=
  mkEnv (fun _ => None) (fun _ => None) (fun _ => None) (fun _ => 1234567%Z) ascii_range.

Definition alike_organizer : FileOrganizer :=
  mkOrganizer [(mint alike_env "report.pdf" 0 1, [report_1; report_2]);
               (mint alike_env "report.pdf" 2 3, [report_3; report_4])]
              "/out" true.

(** A directory with two readable files of the same bytes, one of other
    bytes, and one that may not be read. *)
Definition utils_world : World :=
  mkWorld (list_to_map [("/d/a.txt", (1%Z, list_byte_of_string "abc"));
                        ("/d/b.txt", (2%Z, list_byte_of_string "abc"));
                        ("/d/c.txt", (3%Z, list_byte_of_string "xyz"));
                        ("/d/locked.txt", (4%Z, list_byte_of_string "abc"))])
          {[ "/d" ]} {[ "/d/locked.txt" ]} (fun _ => 1%Z) 0 (fun _ => None).

Definition no_hashlib : Hashlib := mkHashlib (fun _ => "") (fun _ => "").

(** the operations stored under [folder] *)
Definition stored (folder : string) (entries : list (string * list Operation))
  : option (list Operation) :=
  snd <$> last (filter (fun entry => fst entry = folder) entries).

(* ===================================================================== *)
(** * Properties *)
(* ===================================================================== *)

(** ** The models of the libraries agree with the libraries *)

Example md5_empty : MD5.hexdigest [] = "d41d8cd98f00b204e9800998ecf8427e".
Proof. vm_compute. reflexivity. Qed.

Example md5_abc :
  MD5.hexdigest (list_byte_of_string "abc") = "900150983cd24fb0d6963f7d28e17f72".
Proof. vm_compute. reflexivity. Qed.

Example md5_two_blocks :
  MD5.hexdigest (repeat "a"%byte 70) = "0f5c6c4e740bfcc08c3c26ccb2673d46".
Proof. vm_compute. reflexivity. Qed.

Example py_samples :
  Py.splitext "report.final.PDF" = ("report.final", ".PDF")
  /\ Py.splitext ".bashrc" = (".bashrc", "")
  /\ Py.splitext "/a.b/c" = ("/a.b/c", "")
  /\ Py.basename "/data/in/y.bin" = "y.bin"
  /\ Py.join "/data" "y.bin" = "/data/y.bin"
  /\ Py.join "/" "y.bin" = "/y.bin"
  /\ Py.lower "Report.PDF" = "report.pdf"
  /\ Py.endswith "report.pdf" ".pdf" = true
  /\ Py.str_nat 0 = "0" /\ Py.str_nat 12 = "12"
  /\ Py.str_Z (-42) = "-42" /\ Py.str_Z 0 = "0"
  /\ Py.split (Py.strip_punct (Py.lower "Hello, World!  it's  ")) = ["hello"; "world"; "its"].
Proof. vm_compute. repeat split; reflexivity. Qed.

(** ** Dictionaries *)

Section DictFacts.
Context {V : Type}.
Implicit Types (d : Dict.t V) (k : string) (v : V).

Lemma dict_get_set_eq d k v : Dict.get (Dict.set d k v) k = Some v.
Proof.
  induction d as [|[k' v'] d IH]; simpl.
  - by rewrite String.eqb_refl.
  - destruct (String.eqb k' k) eqn:E; simpl; rewrite E; auto.
Qed.

Lemma dict_get_set_ne d k k' v :
  k <> k' -> Dict.get (Dict.set d k v) k' = Dict.get d k'.
Proof.
  intros Hne. induction d as [|[k0 v0] d IH]; simpl.
  - destruct (String.eqb k k') eqn:E; [apply String.eqb_eq in E; contradiction | done].
  - destruct (String.eqb k0 k) eqn:E; simpl.
    + apply String.eqb_eq in E. subst k0.
      destruct (String.eqb k k') eqn:E'; [apply String.eqb_eq in E'; contradiction | done].
    + by rewrite IH.
Qed.

Lemma dict_get_set d k k' v :
  Dict.get (Dict.set d k v) k' = if String.eqb k k' then Some v else Dict.get d k'.
Proof.
  destruct (String.eqb k k') eqn:E.
  - apply String.eqb_eq in E. subst. apply dict_get_set_eq.
  - apply String.eqb_neq in E. by apply dict_get_set_ne.
Qed.

Lemma dict_get_elem d k v : Dict.get d k = Some v -> (k, v) ∈ d.
Proof.
  induction d as [|[k' v'] d IH]; simpl; [done|].
  destruct (String.eqb k' k) eqn:E.
  - apply String.eqb_eq in E. intros [= ->]. subst. apply list_elem_of_here.
  - intros H. apply list_elem_of_further. auto.
Qed.

(** every value of [d[k] = v] is [v] or was there before *)
Lemma dict_set_Forall (P : string * V -> Prop) d k v :
  Forall P d -> (forall k', P (k', v)) -> Forall P (Dict.set d k v).
Proof.
  intros Hd Hv. induction Hd as [|[k' v'] d Hx Hd IH]; simpl.
  - by constructor.
  - destruct (String.eqb k' k); constructor; auto.
Qed.

Lemma dict_mem_get d k : Dict.mem d k = true <-> is_Some (Dict.get d k).
Proof.
  unfold Dict.mem. destruct (Dict.get d k); split; intros H; done.
Qed.
End DictFacts.

(** ** get_duplicate_groups reports groups of two or more *)

Lemma add_group_groups results item :
  Forall is_group results -> Forall is_group (add_group results item).
Proof.
  intros H. destruct item as [k files]. unfold add_group.
  destruct (1 <? length files)%nat eqn:E; [|done].
  apply dict_set_Forall; [done|]. intros k'. unfold is_group. simpl.
  apply Nat.ltb_lt in E. lia.
Qed.

Lemma fold_add_group_groups items results :
  Forall is_group results -> Forall is_group (fold_left add_group items results).
Proof.
  revert results. induction items as [|item items IH]; simpl; intros results H; [done|].
  apply IH, add_group_groups, H.
Qed.

(** C1.  Whatever the state of the session, every group in the result of
    [get_duplicate_groups], be its key a content hash or the identifier of
    a similarity group, lists at least two file records. *)
Theorem get_duplicate_groups_at_least_two (s : FileScanner) :
  Forall (fun item => 2 <= length (snd item)) (get_duplicate_groups s).
Proof.
  unfold get_duplicate_groups.
  apply (fold_add_group_groups _ _ (fold_add_group_groups _ [] (Forall_nil_2 _))).
Qed.

(** ** The content hasher *)

(** Reading in chunks of any positive size feeds the digest the bytes of
    the file, once and in order. *)
Lemma hash_loop_feeds n rest fed :
  0 < n -> hash_loop n rest fed = fed ++ rest.
Proof.
  intros Hn. funelim (hash_loop n rest fed).
  - match goal with E : (read _ _).1 = [] |- _ => cbn in E; rename E into Hnil end.
    destruct bufsize as [|n]; [lia|].
    destruct rest; [by rewrite app_nil_r | by simpl in Hnil].
  - match goal with E : (read _ _).1 = _ :: _ |- _ => cbn in E; rename E into Hcons end.
    match goal with IH : _ -> hash_loop _ _ _ = _ |- _ => rewrite IH by done end.
    cbn. rewrite <- Hcons, <- app_assoc. by rewrite take_drop.
Qed.

(** C8.  The fingerprint of a readable file is the MD5 of its content,
    whatever positive chunk size the reading loop uses, 64 KiB included;
    it is therefore the same at every call on the same bytes, and two
    files have the same fingerprint exactly when they have the same
    content, collisions of MD5 apart. *)
Theorem file_hash_is_digest_of_content (env : Env) (p1 p2 : string)
    (c1 c2 : list byte) (n : nat) :
  open_rb env p1 = Some c1 ->
  open_rb env p2 = Some c2 ->
  0 < n ->
  MD5.hexdigest (hash_loop n c1 []) = MD5.hexdigest (hash_loop buffer_size c1 [])
  /\ _calculate_file_hash env p1 = Some (MD5.hexdigest c1)
  /\ (c1 = c2 -> _calculate_file_hash env p1 = _calculate_file_hash env p2)
  /\ (~ md5_collision c1 c2 ->
      (_calculate_file_hash env p1 = _calculate_file_hash env p2 <-> c1 = c2)).
Proof.
  intros H1 H2 Hn.
  assert (Hb : 0 < buffer_size) by (unfold buffer_size; lia).
  unfold _calculate_file_hash. rewrite H1, H2.
  rewrite !hash_loop_feeds by done. simpl.
  repeat split.
  - by intros ->.
  - intros [= Heq]. destruct (decide (c1 = c2)) as [|Hne]; [done|].
    exfalso. apply H. by split.
  - by intros ->.
Qed.

Lemma file_hash_is_digest_of_content_witness :
  _calculate_file_hash sample_env "/d/a.txt" = Some "900150983cd24fb0d6963f7d28e17f72"
  /\ (_calculate_file_hash sample_env "/d/a.txt" = _calculate_file_hash sample_env "/d/b.txt"
      <-> list_byte_of_string "abc" = list_byte_of_string "abd").
Proof.
  assert (Hnc : ~ md5_collision (list_byte_of_string "abc") (list_byte_of_string "abd")).
  { intros [_ H]. vm_compute in H. discriminate. }
  destruct (file_hash_is_digest_of_content sample_env "/d/a.txt" "/d/b.txt"
              (list_byte_of_string "abc") (list_byte_of_string "abd") 2
              eq_refl eq_refl ltac:(lia)) as (_ & Hd & _ & Hiff).
  split; [exact Hd | exact (Hiff Hnc)].
Defined.

(** ** Jaccard similarity *)

Lemma ratio_same n : 0 < n -> ratio n n = 1%Q.
Proof.
  intros Hn. unfold ratio.
  destruct (0 <? n)%nat eqn:E; [|apply Nat.ltb_ge in E; lia].
  change 1%Q with (Qred 1). apply Qred_complete.
  unfold Qeq. simpl.
  rewrite <- (positive_nat_Z (Pos.of_nat n)), Nat2Pos.id by lia. lia.
Qed.

Lemma jaccard_comm (s1 s2 : gset string) : jaccard s1 s2 = jaccard s2 s1.
Proof.
  unfold jaccard.
  by rewrite orb_comm, (comm_L (∩) s1 s2), (comm_L (∪) s1 s2).
Qed.

Lemma jaccard_self (s : gset string) : size s <> 0 -> jaccard s s = 1%Q.
Proof.
  intros Hs. unfold jaccard.
  destruct (size s =? 0)%nat eqn:E; [apply Nat.eqb_eq in E; done|]. simpl.
  rewrite (idemp_L (∩) s), (idemp_L (∪) s). apply ratio_same. lia.
Qed.

Lemma jaccard_empty (s1 s2 : gset string) :
  size s1 = 0 \/ size s2 = 0 -> jaccard s1 s2 = 0%Q.
Proof.
  unfold jaccard. intros [-> | ->]; simpl; [done|]. by rewrite orb_true_r.
Qed.

Lemma size_list_to_set_0 (l : list string) :
  size (list_to_set l : gset string) = 0 <-> l = [].
Proof.
  split.
  - destruct l as [|x l]; [done|]. intros H.
    apply size_empty_inv in H. set_solver.
  - by intros ->.
Qed.

(** the blocks of a file: none for an empty file, some otherwise *)
Lemma block_loop_mono n rest blocks : blocks ⊆ block_loop n rest blocks.
Proof.
  funelim (block_loop n rest blocks); [done|].
  match goal with IH : _ ⊆ block_loop _ _ _ |- _ => etrans; [|exact IH] end.
  apply union_subseteq_r.
Qed.

Lemma block_loop_nil n blocks : block_loop n [] blocks = blocks.
Proof. rewrite block_loop_equation_1. by destruct n. Qed.

Lemma block_loop_nonempty n b rest :
  0 < n -> size (block_loop n (b :: rest) ∅) <> 0.
Proof.
  intros Hn Hsize. apply size_empty_inv in Hsize.
  destruct n as [|n]; [lia|].
  assert (Hin : MD5.hexdigest (b :: take n rest) ∈ block_loop (S n) (b :: rest) ∅).
  { rewrite block_loop_equation_1. cbn.
    apply block_loop_mono. set_solver. }
  set_solver.
Qed.

Lemma hash_based_comm env p1 p2 :
  _calculate_similarity_hash_based env p1 p2 = _calculate_similarity_hash_based env p2 p1.
Proof.
  unfold _calculate_similarity_hash_based.
  destruct (get_file_blocks env p1), (get_file_blocks env p2); try done.
  by rewrite jaccard_comm.
Qed.

(** C7, as stated, fails: a document whose content is not empty can have
    an empty token set, and then its similarity with itself is 0.0.  So it
    is for a PDF without text layer, compared through the first tier, and
    for a text made of punctuation. *)
Lemma self_similarity_can_be_zero :
  (exists content, open_rb scanned_env "/d/scan.pdf" = Some content /\ content <> [])
  /\ calculate_pdf_similarity scanned_env "/d/scan.pdf" "/d/scan.pdf" = Some 0%Q
  /\ "?!" <> "" /\ _jaccard_similarity ascii_range "?!" "?!" = 0%Q
  /\ 0%Q <> 1%Q.
Proof.
  split; [eexists; split; [reflexivity | discriminate] |].
  split; [vm_compute; reflexivity |].
  split; [discriminate |].
  split; [vm_compute; reflexivity | discriminate].
Qed.

(** C7, amended.  The score is symmetric in both tiers; a document scores
    1 against itself when its token set is not empty (text tiers) or when
    the file is not empty (byte tier); the score is 0, and nothing is
    raised, when either token set or either file is empty.  This holds
    of every text, whatever the Unicode database makes of its letters,
    its punctuation and its blanks. *)
Theorem jaccard_similarity_properties (u : Unicode) (env : Env)
    (text1 text2 p1 p2 : string) :
  _jaccard_similarity u text1 text2 = _jaccard_similarity u text2 text1
  /\ _calculate_similarity_hash_based env p1 p2 = _calculate_similarity_hash_based env p2 p1
  /\ (_tokenize_text u text1 <> [] -> _jaccard_similarity u text1 text1 = 1%Q)
  /\ (forall c, open_rb env p1 = Some c -> c <> [] ->
      _calculate_similarity_hash_based env p1 p1 = Some 1%Q)
  /\ (_tokenize_text u text1 = [] \/ _tokenize_text u text2 = [] ->
      _jaccard_similarity u text1 text2 = 0%Q)
  /\ (forall c1 c2, open_rb env p1 = Some c1 -> open_rb env p2 = Some c2 ->
      c1 = [] \/ c2 = [] ->
      _calculate_similarity_hash_based env p1 p2 = Some 0%Q).
Proof.
  repeat split.
  - apply jaccard_comm.
  - apply hash_based_comm.
  - intros H. apply jaccard_self. by rewrite size_list_to_set_0.
  - intros c Hc Hne. unfold _calculate_similarity_hash_based, get_file_blocks.
    rewrite Hc. f_equal. apply jaccard_self.
    destruct c as [|b c]; [done|]. apply block_loop_nonempty. lia.
  - intros H. apply jaccard_empty. rewrite !size_list_to_set_0. done.
  - intros c1 c2 H1 H2 H. unfold _calculate_similarity_hash_based, get_file_blocks.
    rewrite H1, H2. f_equal. apply jaccard_empty.
    destruct H as [-> | ->]; rewrite block_loop_nil; auto.
Qed.

Lemma jaccard_similarity_properties_witness :
  _jaccard_similarity ascii_range "a b, c" "c d" = _jaccard_similarity ascii_range "c d" "a b, c"
  /\ _jaccard_similarity ascii_range "a b, c" "a b, c" = 1%Q
  /\ _calculate_similarity_hash_based two_files_env "/d/a.pdf" "/d/a.pdf" = Some 1%Q
  /\ _jaccard_similarity ascii_range "a b, c" "?!" = 0%Q
  /\ _calculate_similarity_hash_based two_files_env "/d/a.pdf" "/d/e.pdf" = Some 0%Q.
Proof.
  destruct (jaccard_similarity_properties ascii_range two_files_env
              "a b, c" "c d" "/d/a.pdf" "/d/e.pdf")
    as (Hsym & _ & Hself & Hbself & _ & Hbzero).
  destruct (jaccard_similarity_properties ascii_range two_files_env
              "a b, c" "?!" "/d/a.pdf" "/d/e.pdf")
    as (_ & _ & _ & _ & Hzero & _).
  split; [exact Hsym|].
  split; [apply Hself; vm_compute; discriminate|].
  split; [apply (Hbself (list_byte_of_string "abc")); [reflexivity | discriminate]|].
  split; [apply Hzero; right; vm_compute; reflexivity|].
  apply (Hbzero (list_byte_of_string "abc") []); [reflexivity | reflexivity | by right].
Defined.

(** ** Errors during a comparison *)

Lemma hash_based_raises env p1 p2 :
  _calculate_similarity_hash_based env p1 p2 = None
  <-> open_rb env p1 = None \/ open_rb env p2 = None.
Proof.
  unfold _calculate_similarity_hash_based, get_file_blocks.
  destruct (open_rb env p1), (open_rb env p2); split; intros H;
    try done; auto; by destruct H.
Qed.

Lemma calculate_pdf_similarity_raises env p1 p2 :
  calculate_pdf_similarity env p1 p2 = None
  <-> _calculate_similarity_pypdf2 env p1 p2 = None
      /\ _calculate_similarity_pdfminer env p1 p2 = None
      /\ _calculate_similarity_hash_based env p1 p2 = None.
Proof.
  unfold calculate_pdf_similarity.
  destruct (_calculate_similarity_pypdf2 env p1 p2),
           (_calculate_similarity_pdfminer env p1 p2); split; intros H;
    try done; by destruct H as (? & ? & ?).
Qed.

Lemma compare_pair_raises env name files s i j ri rj :
  files !! i = Some ri -> files !! j = Some rj ->
  calculate_pdf_similarity env (FileInfo.path (obj s ri)) (FileInfo.path (obj s rj)) = None ->
  compare_pair env name files s (i, j) = s.
Proof.
  intros Hi Hj Hnone. unfold compare_pair. rewrite Hi, Hj, Hnone.
  by destruct (FileInfo.opt_eqb _ _).
Qed.

(** C5, as stated, fails: the byte-block tier opens both files and
    raises when one cannot be opened; that exception leaves
    [calculate_pdf_similarity]. *)
Lemma last_tier_raises :
  _calculate_similarity_hash_based unreadable_env "/d/a/r.pdf" "/d/b/r.pdf" = None
  /\ calculate_pdf_similarity unreadable_env "/d/a/r.pdf" "/d/b/r.pdf" = None.
Proof. split; reflexivity. Qed.

(** C5, amended.  An exception in the first or in the second tier hands
    the pair over to the next tier.  The byte-block tier raises exactly
    when one of the two files cannot be read, and [calculate_pdf_similarity]
    raises exactly when all three tiers do.  That exception is caught in
    [_group_similar_pdfs]: the pair changes nothing in the session, and
    the loop goes on with the pairs that remain. *)
Theorem similarity_errors_are_contained (env : Env) (name : string)
    (files : list ref) (s : FileScanner) (i j : nat) (ri rj : ref)
    (rest : list (nat * nat)) :
  files !! i = Some ri ->
  files !! j = Some rj ->
  let p1 := FileInfo.path (obj s ri) in
  let p2 := FileInfo.path (obj s rj) in
  (_calculate_similarity_pypdf2 env p1 p2 = None ->
   calculate_pdf_similarity env p1 p2 =
     match _calculate_similarity_pdfminer env p1 p2 with
     | Some score => Some score
     | None => _calculate_similarity_hash_based env p1 p2
     end)
  /\ (_calculate_similarity_hash_based env p1 p2 = None
      <-> open_rb env p1 = None \/ open_rb env p2 = None)
  /\ (calculate_pdf_similarity env p1 p2 = None
      <-> _calculate_similarity_pypdf2 env p1 p2 = None
          /\ _calculate_similarity_pdfminer env p1 p2 = None
          /\ _calculate_similarity_hash_based env p1 p2 = None)
  /\ (calculate_pdf_similarity env p1 p2 = None ->
      compare_pair env name files s (i, j) = s
      /\ fold_left (compare_pair env name files) ((i, j) :: rest) s
         = fold_left (compare_pair env name files) rest s).
Proof.
  intros Hi Hj p1 p2.
  split; [intros H; unfold calculate_pdf_similarity; by rewrite H|].
  split; [apply hash_based_raises|].
  split; [apply calculate_pdf_similarity_raises|].
  intros H.
  pose proof (compare_pair_raises env name files s i j ri rj Hi Hj H) as Hsame.
  split; [exact Hsame|].
  change (fold_left (compare_pair env name files) rest
            (compare_pair env name files s (i, j))
          = fold_left (compare_pair env name files) rest s).
  by rewrite Hsame.
Qed.

Lemma similarity_errors_are_contained_witness :
  FileInfo.content_hash (obj two_reports_hashed 0) = Some "900150983cd24fb0d6963f7d28e17f72"
  /\ FileInfo.content_hash (obj two_reports_hashed 1) = None
  /\ calculate_pdf_similarity half_readable_env "/d/a/r.pdf" "/d/b/r.pdf" = None
  /\ compare_pair half_readable_env "r.pdf" [0; 1] two_reports_hashed (0, 1)
     = two_reports_hashed.
Proof.
  split; [vm_compute; reflexivity|].
  split; [vm_compute; reflexivity|].
  split; [vm_compute; reflexivity|].
  assert (Hraise : calculate_pdf_similarity half_readable_env
                     (FileInfo.path (obj two_reports_hashed 0))
                     (FileInfo.path (obj two_reports_hashed 1)) = None)
    by (vm_compute; reflexivity).
  destruct (similarity_errors_are_contained half_readable_env "r.pdf" [0; 1]
              two_reports_hashed 0 1 0 1 [] eq_refl eq_refl) as (_ & _ & _ & H).
  destruct (H Hraise) as [Hsame _]. exact Hsame.
Defined.

(** ** A record listed under two similarity groups *)

(** C3.  On these four files the code leaves the record of
    [/data/d/r.pdf] listed under two similarity groups: it joins the pair
    (0,3) under a new identifier, then the pair (1,3) under the identifier
    that record 1 got from the pair (1,2), and nothing takes it out of
    the first group. *)
Theorem record_in_two_similarity_groups :
  similarity_groups four_reports_scanned
    = [("sim_7_0_3", [0; 3]); ("sim_7_1_2", [1; 2; 3])]
  /\ FileInfo.path (obj four_reports_scanned 3) = "/data/d/r.pdf"
  /\ FileInfo.similarity_group (obj four_reports_scanned 3) = Some "sim_7_1_2"
  /\ get_duplicate_groups four_reports_scanned
     = [("sim_7_0_3", [0; 3]); ("sim_7_1_2", [1; 2; 3])].
Proof. vm_compute. repeat split; reflexivity. Qed.

(** ** Trash directories are walked like any other *)

(** C4.  [inventory_files] excludes no directory: below [/data] the files
    of the recycle bin, of the trash and of the system folder are all in
    the inventory. *)
Theorem inventory_includes_trash :
  map (fun r => FileInfo.path (obj trash_scanned r)) (file_inventory trash_scanned)
  = ["/data/keep.txt"; "/data/$RECYCLE.BIN/deleted.txt";
     "/data/.Trash-1000/files/old.txt";
     "/data/System Volume Information/tracking.log"].
Proof. vm_compute. reflexivity. Qed.

(** ** What the passes leave alone *)

(** Updating a field of one object leaves the other fields of every
    object as they were. *)
Lemma nth_insert_proj {A : Type} (proj : FileInfo.t -> A) (f : FileInfo.t -> FileInfo.t)
    (l : list FileInfo.t) (r r' : ref) :
  (forall x, proj (f x) = proj x) ->
  proj (nth r' (<[ r := f (nth r l FileInfo.dummy) ]> l) FileInfo.dummy)
  = proj (nth r' l FileInfo.dummy).
Proof.
  intros Hf. rewrite !nth_lookup.
  destruct (decide (r' = r)) as [->|Hne].
  - destruct (decide (r < length l)) as [Hlt|Hge].
    + rewrite list_lookup_insert_eq by done. simpl. by rewrite Hf.
    + by rewrite list_insert_ge by lia.
  - by rewrite list_lookup_insert_ne.
Qed.

Lemma nth_insert_eq (x : FileInfo.t) (l : list FileInfo.t) (r : ref) :
  r < length l -> nth r (<[ r := x ]> l) FileInfo.dummy = x.
Proof. intros H. rewrite nth_lookup. by rewrite list_lookup_insert_eq. Qed.

Lemma nth_insert_ne (x : FileInfo.t) (l : list FileInfo.t) (r r' : ref) :
  r <> r' -> nth r' (<[ r := x ]> l) FileInfo.dummy = nth r' l FileInfo.dummy.
Proof. intros H. rewrite !nth_lookup. by rewrite list_lookup_insert_ne. Qed.

Lemma keeps_hashing_refl s : keeps_hashing s s.
Proof. by repeat split. Qed.

Lemma keeps_hashing_trans s1 s2 s3 :
  keeps_hashing s1 s2 -> keeps_hashing s2 s3 -> keeps_hashing s1 s3.
Proof.
  intros (A1 & A2 & A3 & A4 & A5 & A6) (B1 & B2 & B3 & B4 & B5 & B6).
  repeat split; congruence.
Qed.

Lemma set_similarity_group_keeps r g s : keeps_hashing s (set_similarity_group r g s).
Proof.
  unfold set_similarity_group, keeps_hashing, obj. simpl.
  repeat split; try done.
  - by rewrite length_insert.
  - intros r'. by apply (nth_insert_proj FileInfo.path).
  - intros r'. by apply (nth_insert_proj FileInfo.content_hash).
Qed.

Lemma with_similarity_groups_keeps d s : keeps_hashing s (with_similarity_groups d s).
Proof. by repeat split. Qed.

Lemma group_add_keeps g r s : keeps_hashing s (group_add g r s).
Proof.
  unfold group_add. destruct (Dict.get _ _); [|apply keeps_hashing_refl].
  destruct (obj_in _ _ _); [apply keeps_hashing_refl | apply with_similarity_groups_keeps].
Qed.

Lemma join_group_keeps env name i j ri rj s :
  keeps_hashing s (join_group env name i j ri rj s).
Proof.
  unfold join_group.
  set (g := choose_group _ _ _).
  eapply keeps_hashing_trans; [|apply group_add_keeps].
  eapply keeps_hashing_trans; [|apply group_add_keeps].
  eapply keeps_hashing_trans; [apply (set_similarity_group_keeps ri g)|].
  eapply keeps_hashing_trans; [apply (set_similarity_group_keeps rj g)|].
  destruct (Dict.mem _ _); [apply keeps_hashing_refl | apply with_similarity_groups_keeps].
Qed.

Lemma compare_pair_keeps env name files s ij :
  keeps_hashing s (compare_pair env name files s ij).
Proof.
  destruct ij as [i j]. unfold compare_pair.
  destruct (files !! i); [|apply keeps_hashing_refl].
  destruct (files !! j); [|apply keeps_hashing_refl].
  destruct (FileInfo.opt_eqb _ _); [apply keeps_hashing_refl|].
  destruct (calculate_pdf_similarity _ _ _); [|apply keeps_hashing_refl].
  destruct (Qle_bool _ _); [apply join_group_keeps | apply keeps_hashing_refl].
Qed.

Lemma fold_keeps {A : Type} (f : FileScanner -> A -> FileScanner) (l : list A) :
  (forall s x, keeps_hashing s (f s x)) ->
  forall s, keeps_hashing s (fold_left f l s).
Proof.
  intros Hf. induction l as [|x l IH]; intros s; simpl.
  - apply keeps_hashing_refl.
  - eapply keeps_hashing_trans; [apply Hf | apply IH].
Qed.

Lemma group_name_keeps env s item : keeps_hashing s (group_name env s item).
Proof.
  destruct item as [name files]. unfold group_name.
  destruct (_ || _); [apply keeps_hashing_refl|].
  apply fold_keeps. intros. apply compare_pair_keeps.
Qed.

Lemma _group_similar_pdfs_keeps env s : keeps_hashing s (_group_similar_pdfs env s).
Proof.
  unfold _group_similar_pdfs. destruct (filter _ _); [apply keeps_hashing_refl|].
  apply fold_keeps. intros. apply group_name_keeps.
Qed.

(** ** The hashing loop *)

Lemma entry_dict_append d k r k' :
  entry (dict_append d k r) k' = if String.eqb k k' then entry d k ++ [r] else entry d k'.
Proof.
  unfold entry, dict_append, Dict.mem.
  destruct (Dict.get d k) as [l|] eqn:Hk.
  - rewrite Hk, dict_get_set. destruct (String.eqb k k'); done.
  - rewrite dict_get_set_eq, !dict_get_set. destruct (String.eqb k k'); done.
Qed.

Lemma dict_append_extends d k r k' l :
  Dict.get d k' = Some l -> exists l', Dict.get (dict_append d k r) k' = Some (l ++ l').
Proof.
  intros Hl. unfold dict_append, Dict.mem.
  destruct (Dict.get d k) as [l0|] eqn:Hk.
  - rewrite Hk, dict_get_set. destruct (String.eqb k k') eqn:E.
    + apply String.eqb_eq in E. subst k'. exists [r]. congruence.
    + exists []. by rewrite app_nil_r.
  - rewrite dict_get_set_eq, !dict_get_set. destruct (String.eqb k k') eqn:E.
    + apply String.eqb_eq in E. subst k'. congruence.
    + exists []. by rewrite app_nil_r.
Qed.

Lemma hits_none hf r k rest : hf r = None -> hits hf r k rest = 0.
Proof.
  intros Hr. induction rest as [|i rest IH]; simpl; [done|].
  rewrite IH. case_bool_decide as H; [|done]. destruct H as [-> H]. congruence.
Qed.

Lemma hits_not_in hf r k rest : r ∉ rest -> hits hf r k rest = 0.
Proof.
  induction rest as [|i rest IH]; simpl; intros Hr; [done|].
  apply not_elem_of_cons in Hr as [Hne Hr]. rewrite IH by done.
  case_bool_decide as H; [|done]. destruct H as [-> _]. done.
Qed.

Lemma hits_once hf r h k rest :
  NoDup rest -> r ∈ rest -> hf r = Some h ->
  hits hf r k rest = if bool_decide (k = h) then 1 else 0.
Proof.
  intros Hnd Hin Hh. induction rest as [|i rest IH]; [by apply elem_of_nil in Hin|].
  apply NoDup_cons in Hnd as [Hi Hnd]. simpl.
  destruct (decide (i = r)) as [->|Hne].
  - rewrite hits_not_in by done. rewrite Nat.add_0_r.
    destruct (decide (k = h)) as [->|Hk].
    + by rewrite !bool_decide_eq_true_2.
    + rewrite (bool_decide_eq_false_2 (k = h)) by done.
      rewrite bool_decide_eq_false_2; [done | intros [_ ?]; congruence].
  - rewrite (bool_decide_eq_false_2 (i = r /\ hf i = Some k)) by (by intros [? _]).
    simpl. apply IH; [done|]. by apply elem_of_cons in Hin as [?|?].
Qed.

Lemma occurrences_app r l1 l2 :
  occurrences r (l1 ++ l2) = occurrences r l1 + occurrences r l2.
Proof. apply count_occ_app. Qed.

Lemma record_hash_paths r h s i :
  FileInfo.path (obj (record_hash r h s) i) = FileInfo.path (obj s i).
Proof. unfold record_hash, obj. simpl. by apply (nth_insert_proj FileInfo.path). Qed.

Lemma record_hash_entry r h s k :
  entry (duplicate_map (record_hash r h s)) k
  = if String.eqb h k then entry (duplicate_map s) h ++ [r] else entry (duplicate_map s) k.
Proof. unfold record_hash. simpl. apply entry_dict_append. Qed.

Lemma hash_loop_all_cons env s i rest :
  fst (hash_loop_all env s (i :: rest))
  = match _calculate_file_hash env (FileInfo.path (obj s i)) with
    | Some h => fst (hash_loop_all env (record_hash i h s) rest)
    | None => fst (hash_loop_all env s rest)
    end.
Proof.
  simpl. destruct (_calculate_file_hash _ _); [|done].
  by destruct (hash_loop_all _ _ _).
Qed.

(** The loop lists a record under a key once for each of its steps that
    visits the record and computes that key; it changes neither the
    inventory nor the name index nor the similarity index. *)
Lemma hash_loop_all_counts env hf rest :
  forall s,
    (forall i, hf i = _calculate_file_hash env (FileInfo.path (obj s i))) ->
    let s' := fst (hash_loop_all env s rest) in
    name_map s' = name_map s
    /\ file_inventory s' = file_inventory s
    /\ similarity_groups s' = similarity_groups s
    /\ length (objects s') = length (objects s)
    /\ (forall i, FileInfo.path (obj s' i) = FileInfo.path (obj s i))
    /\ (forall r k, occurrences r (entry (duplicate_map s') k)
                    = occurrences r (entry (duplicate_map s) k) + hits hf r k rest)
    /\ (forall k l, Dict.get (duplicate_map s) k = Some l ->
                    exists l', Dict.get (duplicate_map s') k = Some (l ++ l')).
Proof.
  induction rest as [|i rest IH]; intros s Hhf; cbn zeta.
  - simpl. repeat split; try done.
    intros k l Hl. exists []. by rewrite app_nil_r.
  - rewrite hash_loop_all_cons, <- Hhf. destruct (hf i) as [h|] eqn:Hi.
    + destruct (IH (record_hash i h s)) as (N & I & G & L & P & C & M).
      { intros i'. rewrite record_hash_paths. apply Hhf. }
      repeat split; try done.
      * rewrite L. unfold record_hash. simpl. by rewrite length_insert.
      * intros i'. by rewrite P, record_hash_paths.
      * intros r k. rewrite C, record_hash_entry. cbn [hits].
        destruct (String.eqb h k) eqn:E.
        -- apply String.eqb_eq in E. subst k. rewrite occurrences_app.
           unfold occurrences at 2. simpl.
           destruct (Nat.eq_dec i r) as [->|Hne].
           ++ rewrite bool_decide_eq_true_2 by done. lia.
           ++ rewrite bool_decide_eq_false_2 by (by intros [? _]). lia.
        -- apply String.eqb_neq in E.
           rewrite bool_decide_eq_false_2 by (intros [_ ?]; congruence). lia.
      * intros k l Hl.
        destruct (dict_append_extends (duplicate_map s) h i k l Hl) as [l1 Hl1].
        destruct (M k (l ++ l1)) as [l2 Hl2]; [exact Hl1|].
        exists (l1 ++ l2). by rewrite app_assoc.
    + destruct (IH s Hhf) as (N & I & G & L & P & C & M).
      repeat split; try done.
      intros r k. rewrite C. cbn [hits].
      rewrite bool_decide_eq_false_2 by (intros [_ ?]; congruence). lia.
Qed.

Lemma hits_pos hf r h rest : r ∈ rest -> hf r = Some h -> 0 < hits hf r h rest.
Proof.
  intros Hin Hh. induction rest as [|i rest IH]; [by apply elem_of_nil in Hin|].
  simpl. apply elem_of_cons in Hin as [<-|Hin].
  - rewrite bool_decide_eq_true_2 by done. lia.
  - specialize (IH Hin). lia.
Qed.

Lemma record_hash_content_same r h s :
  r < length (objects s) \/ FileInfo.content_hash (obj s r) = Some h ->
  FileInfo.content_hash (obj (record_hash r h s) r) = Some h.
Proof.
  intros H. unfold record_hash, obj in *. simpl.
  destruct (decide (r < length (objects s))) as [Hlt|Hge].
  - by rewrite nth_insert_eq.
  - destruct H as [?|H]; [done|]. by rewrite list_insert_ge by lia.
Qed.

Lemma record_hash_content_ne i r h s :
  i <> r ->
  FileInfo.content_hash (obj (record_hash i h s) r) = FileInfo.content_hash (obj s r).
Proof. intros H. unfold record_hash, obj. simpl. by rewrite nth_insert_ne. Qed.

Lemma record_hash_length i h s :
  length (objects (record_hash i h s)) = length (objects s).
Proof. unfold record_hash. simpl. by rewrite length_insert. Qed.

(** a hash once set to what the loop computes stays *)
Lemma hash_loop_all_keeps_hash env hf rest r h :
  forall s,
    (forall i, hf i = _calculate_file_hash env (FileInfo.path (obj s i))) ->
    hf r = Some h ->
    FileInfo.content_hash (obj s r) = Some h ->
    FileInfo.content_hash (obj (fst (hash_loop_all env s rest)) r) = Some h.
Proof.
  induction rest as [|i rest IH]; intros s Hhf Hr Hs; [done|].
  rewrite hash_loop_all_cons, <- Hhf.
  destruct (hf i) as [hi|] eqn:Hi; [|by apply IH].
  apply IH; [intros i'; rewrite record_hash_paths; apply Hhf | done |].
  destruct (decide (i = r)) as [->|Hne].
  - assert (hi = h) as -> by congruence. apply record_hash_content_same. by right.
  - by rewrite record_hash_content_ne.
Qed.

(** the loop sets the hash of every record it can hash *)
Lemma hash_loop_all_sets_hash env hf rest r h :
  forall s,
    (forall i, hf i = _calculate_file_hash env (FileInfo.path (obj s i))) ->
    r ∈ rest -> r < length (objects s) -> hf r = Some h ->
    FileInfo.content_hash (obj (fst (hash_loop_all env s rest)) r) = Some h.
Proof.
  induction rest as [|i rest IH]; intros s Hhf Hin Hlt Hr; [by apply elem_of_nil in Hin|].
  rewrite hash_loop_all_cons, <- Hhf.
  destruct (decide (i = r)) as [->|Hne].
  - rewrite Hr. apply (hash_loop_all_keeps_hash env hf); [|done|].
    + intros i'. rewrite record_hash_paths. apply Hhf.
    + apply record_hash_content_same. by left.
  - apply elem_of_cons in Hin as [?|Hin]; [done|].
    destruct (hf i) as [hi|] eqn:Hi; [|by apply IH].
    apply IH; [intros i'; rewrite record_hash_paths; apply Hhf | done | | done].
    by rewrite record_hash_length.
Qed.

(** and leaves alone the hash of every record it cannot hash *)
Lemma hash_loop_all_skips env hf rest r :
  forall s,
    (forall i, hf i = _calculate_file_hash env (FileInfo.path (obj s i))) ->
    hf r = None ->
    FileInfo.content_hash (obj (fst (hash_loop_all env s rest)) r)
    = FileInfo.content_hash (obj s r).
Proof.
  induction rest as [|i rest IH]; intros s Hhf Hr; [done|].
  rewrite hash_loop_all_cons, <- Hhf.
  destruct (hf i) as [hi|] eqn:Hi; [|by apply IH].
  rewrite IH; [|intros i'; rewrite record_hash_paths; apply Hhf | done].
  apply record_hash_content_ne. congruence.
Qed.

Lemma process_files_fst env s :
  fst (process_files env s)
  = _group_similar_pdfs env (fst (hash_loop_all env s (file_inventory s))).
Proof. unfold process_files. by destruct (hash_loop_all _ _ _). Qed.

(** a resumption of the generator only adds to the exact-duplicate index *)
Lemma next_extends env rest :
  forall s k l, Dict.get (duplicate_map s) k = Some l ->
    exists l', Dict.get (duplicate_map (fst (next env s rest))) k = Some (l ++ l').
Proof.
  induction rest as [|i rest IH]; intros s k l Hl; simpl.
  - destruct (_group_similar_pdfs_keeps env s) as (-> & _).
    exists []. by rewrite app_nil_r.
  - destruct (_calculate_file_hash _ _) as [h|]; [|by apply IH].
    simpl. by apply dict_append_extends.
Qed.

(** ** process_files and the exact-duplicate index *)

(** C2, as stated, fails: [process_files] hashes every record of the
    inventory, hashed or not.  Run a second time on the same session it
    computes the hash of the record again and lists the record a second
    time under its key. *)
Lemma rerun_inserts_again :
  let s1 := fst (process_files sample_env one_file_scanned) in
  let run2 := process_files sample_env s1 in
  FileInfo.content_hash (obj s1 0) = Some "900150983cd24fb0d6963f7d28e17f72"
  /\ duplicate_map s1 = [("900150983cd24fb0d6963f7d28e17f72", [0])]
  /\ snd run2 = [(0, "900150983cd24fb0d6963f7d28e17f72")]
  /\ duplicate_map (fst run2) = [("900150983cd24fb0d6963f7d28e17f72", [0; 0])].
Proof. vm_compute. repeat split; reflexivity. Qed.

(** C2, amended.  One complete run of [process_files] over an inventory
    of distinct records sets the hash of every record whose hash can be
    computed, whether it had one or not, and lists it once more under the
    key of that hash and under no other key: a record not listed before is
    listed afterwards under exactly one key, exactly once.  Entries made
    earlier are never lost, neither by a complete run nor by a single
    resumption of the generator: the lists only grow at their end. *)
Theorem process_files_lists_once_per_run (env : Env) (s : FileScanner)
    (r : ref) (h : string) :
  NoDup (file_inventory s) ->
  r ∈ file_inventory s ->
  r < length (objects s) ->
  _calculate_file_hash env (FileInfo.path (obj s r)) = Some h ->
  let s' := fst (process_files env s) in
  FileInfo.content_hash (obj s' r) = Some h
  /\ (forall k, occurrences r (entry (duplicate_map s') k)
                = occurrences r (entry (duplicate_map s) k)
                  + (if bool_decide (k = h) then 1 else 0))
  /\ (forall k l, Dict.get (duplicate_map s) k = Some l ->
                  exists l', Dict.get (duplicate_map s') k = Some (l ++ l'))
  /\ (forall rest k l, Dict.get (duplicate_map s) k = Some l ->
                       exists l', Dict.get (duplicate_map (fst (next env s rest))) k
                                  = Some (l ++ l')).
Proof.
  intros Hnd Hin Hlt Hh s'. subst s'. rewrite process_files_fst.
  set (hf := fun i => _calculate_file_hash env (FileInfo.path (obj s i))).
  assert (Hhf : forall i, hf i = _calculate_file_hash env (FileInfo.path (obj s i))) by done.
  destruct (hash_loop_all_counts env hf (file_inventory s) s Hhf)
    as (_ & _ & _ & _ & _ & C & M).
  destruct (_group_similar_pdfs_keeps env (fst (hash_loop_all env s (file_inventory s))))
    as (D & _ & _ & _ & _ & H).
  rewrite D, H. split; [|split; [|split]].
  - by apply (hash_loop_all_sets_hash env hf).
  - intros k. rewrite C. f_equal. by apply hits_once.
  - exact M.
  - intros rest. apply next_extends.
Qed.

Lemma process_files_lists_once_per_run_witness :
  let s' := fst (process_files sample_env one_file_scanned) in
  FileInfo.content_hash (obj s' 0) = Some (MD5.hexdigest (list_byte_of_string "abc"))
  /\ forall k, occurrences 0 (entry (duplicate_map s') k)
               = occurrences 0 (entry (duplicate_map one_file_scanned) k)
                 + (if bool_decide (k = MD5.hexdigest (list_byte_of_string "abc"))
                    then 1 else 0).
Proof.
  assert (H1 : NoDup (file_inventory one_file_scanned))
    by (vm_compute; apply NoDup_singleton).
  assert (H2 : 0 ∈ file_inventory one_file_scanned)
    by (vm_compute; constructor).
  assert (H3 : 0 < length (objects one_file_scanned))
    by (vm_compute; lia).
  assert (H4 : _calculate_file_hash sample_env (FileInfo.path (obj one_file_scanned 0))
               = Some (MD5.hexdigest (list_byte_of_string "abc")))
    by (vm_compute; reflexivity).
  destruct (process_files_lists_once_per_run sample_env one_file_scanned 0 _ H1 H2 H3 H4)
    as (Hhash & Hcount & _).
  split; [exact Hhash | exact Hcount].
Defined.

(** ** Records that cannot be hashed *)

(** C6, as stated, fails: the record of a file that cannot be hashed is
    kept out of the exact-duplicate index only.  It stays in the name
    index and in the inventory, where it was put before hashing; and the
    similarity pass, which skips a pair when the two hashes are equal,
    compares it with a hashed record of its name, so that it is listed in
    a similarity group and reported by [get_duplicate_groups]. *)
Lemma unhashed_record_stays_indexed :
  (_calculate_file_hash unreadable_env (FileInfo.path (obj one_file_scanned 0)) = None
   /\ FileInfo.content_hash (obj unreadable_scanned 0) = None
   /\ duplicate_map unreadable_scanned = []
   /\ name_map unreadable_scanned = [("a.txt", [0])]
   /\ file_inventory unreadable_scanned = [0])
  /\ (FileInfo.path (obj late_readable_scanned 1) = "/d/b/r.pdf"
      /\ _calculate_file_hash late_readable_env "/d/b/r.pdf" = None
      /\ FileInfo.content_hash (obj late_readable_scanned 1) = None
      /\ duplicate_map late_readable_scanned
         = [("900150983cd24fb0d6963f7d28e17f72", [0])]
      /\ similarity_groups late_readable_scanned = [("sim_7_0_1", [0; 1])]
      /\ get_duplicate_groups late_readable_scanned = [("sim_7_0_1", [0; 1])]).
Proof. vm_compute. repeat split; reflexivity. Qed.

(** C6, amended.  [process_files] skips a record whose hash cannot be
    computed: the record gets no hash and no entry in the exact-duplicate
    index, and every other record of the inventory whose hash can be
    computed is listed under its hash, so the failure stops nothing.  The
    record is kept out of no other index: it stays in the inventory and
    in the name index, which [process_files] leaves as they are, and the
    test [files[i].content_hash == files[j].content_hash] of the
    similarity pass does not set it aside, since its unset hash equals no
    computed hash. *)
Theorem process_files_skips_unreadable (env : Env) (s : FileScanner) (r : ref) :
  r ∈ file_inventory s ->
  _calculate_file_hash env (FileInfo.path (obj s r)) = None ->
  let s' := fst (process_files env s) in
  FileInfo.content_hash (obj s' r) = FileInfo.content_hash (obj s r)
  /\ (forall k, occurrences r (entry (duplicate_map s') k)
                = occurrences r (entry (duplicate_map s) k))
  /\ name_map s' = name_map s
  /\ file_inventory s' = file_inventory s
  /\ (forall r' h, r' ∈ file_inventory s ->
                   _calculate_file_hash env (FileInfo.path (obj s r')) = Some h ->
                   r' ∈ entry (duplicate_map s') h)
  /\ (FileInfo.content_hash (obj s r) = None ->
      forall r' h, FileInfo.content_hash (obj s' r') = Some h ->
        FileInfo.opt_eqb (FileInfo.content_hash (obj s' r))
                         (FileInfo.content_hash (obj s' r')) = false
        /\ FileInfo.opt_eqb (FileInfo.content_hash (obj s' r'))
                            (FileInfo.content_hash (obj s' r)) = false).
Proof.
  intros Hin Hnone s'.
  assert (Hkeep : FileInfo.content_hash (obj s' r) = FileInfo.content_hash (obj s r)).
  { subst s'. rewrite process_files_fst.
    destruct (_group_similar_pdfs_keeps env (fst (hash_loop_all env s (file_inventory s))))
      as (_ & _ & _ & _ & _ & H).
    rewrite H.
    by apply (hash_loop_all_skips env
                (fun i => _calculate_file_hash env (FileInfo.path (obj s i)))). }
  assert (Hsim : FileInfo.content_hash (obj s r) = None ->
            forall r' h, FileInfo.content_hash (obj s' r') = Some h ->
              FileInfo.opt_eqb (FileInfo.content_hash (obj s' r))
                               (FileInfo.content_hash (obj s' r')) = false
              /\ FileInfo.opt_eqb (FileInfo.content_hash (obj s' r'))
                                  (FileInfo.content_hash (obj s' r)) = false).
  { intros Hr r' h Hr'. by rewrite Hkeep, Hr, Hr'. }
  cut (FileInfo.content_hash (obj s' r) = FileInfo.content_hash (obj s r)
       /\ (forall k, occurrences r (entry (duplicate_map s') k)
                     = occurrences r (entry (duplicate_map s) k))
       /\ name_map s' = name_map s
       /\ file_inventory s' = file_inventory s
       /\ (forall r' h, r' ∈ file_inventory s ->
                        _calculate_file_hash env (FileInfo.path (obj s r')) = Some h ->
                        r' ∈ entry (duplicate_map s') h)).
  { intros (A & B & C & D & E).
    split; [exact A|]. split; [exact B|]. split; [exact C|]. split; [exact D|].
    split; [exact E | exact Hsim]. }
  clear Hkeep Hsim.
  subst s'. rewrite process_files_fst.
  set (hf := fun i => _calculate_file_hash env (FileInfo.path (obj s i))).
  assert (Hhf : forall i, hf i = _calculate_file_hash env (FileInfo.path (obj s i))) by done.
  destruct (hash_loop_all_counts env hf (file_inventory s) s Hhf)
    as (N & I & _ & _ & _ & C & _).
  destruct (_group_similar_pdfs_keeps env (fst (hash_loop_all env s (file_inventory s))))
    as (D & N' & I' & _ & _ & H).
  rewrite D, H, N', I'. split; [|split; [|split; [|split]]]; try done.
  - by apply (hash_loop_all_skips env hf).
  - intros k. rewrite C, hits_none by done. lia.
  - intros r' h Hr' Hh.
    apply list_elem_of_In, (count_occ_In Nat.eq_dec).
    change (occurrences r' (entry (duplicate_map (fst (hash_loop_all env s (file_inventory s)))) h) > 0).
    rewrite C. pose proof (hits_pos hf r' h (file_inventory s) Hr' Hh). lia.
Qed.

Lemma process_files_skips_unreadable_witness :
  let s' := fst (process_files sample_env three_files_scanned) in
  FileInfo.content_hash (obj s' 0) = FileInfo.content_hash (obj three_files_scanned 0)
  /\ (forall k, occurrences 0 (entry (duplicate_map s') k)
                = occurrences 0 (entry (duplicate_map three_files_scanned) k))
  /\ name_map s' = name_map three_files_scanned
  /\ file_inventory s' = file_inventory three_files_scanned
  /\ 2 ∈ entry (duplicate_map s') (MD5.hexdigest (list_byte_of_string "abd"))
  /\ FileInfo.opt_eqb (FileInfo.content_hash (obj s' 0))
                      (FileInfo.content_hash (obj s' 2)) = false.
Proof.
  assert (H1 : 0 ∈ file_inventory three_files_scanned) by (vm_compute; constructor).
  assert (H2 : _calculate_file_hash sample_env
                 (FileInfo.path (obj three_files_scanned 0)) = None)
    by (vm_compute; reflexivity).
  assert (H3 : 2 ∈ file_inventory three_files_scanned)
    by (vm_compute; do 2 constructor; constructor).
  assert (H4 : _calculate_file_hash sample_env
                 (FileInfo.path (obj three_files_scanned 2))
               = Some (MD5.hexdigest (list_byte_of_string "abd")))
    by (vm_compute; reflexivity).
  destruct (process_files_skips_unreadable sample_env three_files_scanned 0 H1 H2)
    as (Hhash & Hcount & Hname & Hinv & Hothers & Hsim).
  split; [exact Hhash|]. split; [exact Hcount|]. split; [exact Hname|].
  split; [exact Hinv|]. split; [exact (Hothers 2 _ H3 H4)|].
  apply (Hsim eq_refl 2 (MD5.hexdigest (list_byte_of_string "abd"))).
  vm_compute. reflexivity.
Defined.

(** ** inventory_files, record by record *)

Lemma same_config_add_infos infos :
  forall s, same_config s (fold_left add_info infos s).
Proof.
  induction infos as [|x infos IH]; intros s; simpl; [done|].
  destruct (IH (add_info s x)) as (A & B & C). by repeat split.
Qed.

Lemma accepted_config s s' root e :
  same_config s s' -> accepted s' root e = accepted s root e.
Proof.
  intros (_ & _ & E). destruct e as [f st]. unfold accepted, ext_rejected. by rewrite E.
Qed.

Lemma inventory_one_accepted root s e :
  inventory_one root s e
  = match accepted s root e with Some file_info => add_info s file_info | None => s end.
Proof.
  destruct e as [f st]. unfold inventory_one, accepted.
  destruct (ext_rejected s f); [done|]. by destruct st as [[sz mt]|].
Qed.

Lemma fold_inventory_one s0 root files :
  forall s, same_config s0 s ->
    fold_left (inventory_one root) files s
    = fold_left add_info (omap (accepted s0 root) files) s.
Proof.
  induction files as [|e files IH]; intros s Hc; [done|].
  cbn [fold_left omap list_omap]. rewrite inventory_one_accepted, (accepted_config s0 s) by done.
  destruct (accepted s0 root e) as [x|]; [|by apply IH].
  simpl. apply IH. destruct Hc as (A & B & C). by repeat split.
Qed.

Lemma fold_inventory_dir s0 walk :
  forall s, same_config s0 s ->
    fold_left inventory_dir walk s
    = fold_left add_info
        (flat_map (fun d : string * list (string * option (Z * Z)) =>
                     if negb (include_subdirs s0)
                        && negb (String.eqb (fst d) (base_directory s0))
                     then []
                     else omap (accepted s0 (fst d)) (snd d)) walk) s.
Proof.
  induction walk as [|[root files] walk IH]; intros s Hc; [done|].
  cbn [fold_left flat_map fst snd]. rewrite fold_left_app.
  assert (Hd : inventory_dir s (root, files)
               = fold_left add_info
                   (if negb (include_subdirs s0)
                       && negb (String.eqb root (base_directory s0))
                    then [] else omap (accepted s0 root) files) s).
  { unfold inventory_dir. pose proof Hc as (Hb & Hi & _). rewrite Hb, Hi.
    destruct (_ && _); [done|]. by apply fold_inventory_one. }
  rewrite Hd. apply IH.
  pose proof (same_config_add_infos
                (if negb (include_subdirs s0) && negb (String.eqb root (base_directory s0))
                 then [] else omap (accepted s0 root) files) s) as (A & B & C).
  destruct Hc as (A' & B' & C'). repeat split; congruence.
Qed.

Lemma inventory_files_found tree s :
  inventory_files tree s = fold_left add_info (found s tree) (with_file_inventory [] s).
Proof. unfold inventory_files, found. by apply fold_inventory_dir. Qed.

Lemma found_config s s' tree : same_config s s' -> found s' tree = found s tree.
Proof.
  intros Hc. pose proof Hc as (A & B & C). unfold found. rewrite A, B.
  apply flat_map_ext. intros [root files]. simpl.
  destruct (_ && _); [done|].
  induction files as [|e files IH]; [done|].
  cbn [omap list_omap]. rewrite (accepted_config s s') by done. by rewrite IH.
Qed.

Lemma dict_append_get_eq d k r :
  Dict.get (dict_append d k r) k = Some (entry d k ++ [r]).
Proof.
  unfold entry, dict_append, Dict.mem.
  destruct (Dict.get d k) as [l|] eqn:Hk.
  - by rewrite Hk, dict_get_set_eq.
  - by rewrite dict_get_set_eq, dict_get_set_eq.
Qed.

(** what a run of additions does to the store and the registries *)
Lemma add_infos_spec infos :
  forall s,
    let s' := fold_left add_info infos s in
    objects s' = objects s ++ infos
    /\ file_inventory s' = file_inventory s ++ seq (length (objects s)) (length infos)
    /\ duplicate_map s' = duplicate_map s
    /\ similarity_groups s' = similarity_groups s
    /\ (forall k l, Dict.get (name_map s) k = Some l ->
                    exists l', Dict.get (name_map s') k = Some (l ++ l'))
    /\ (forall i file_info, infos !! i = Some file_info ->
          exists l, Dict.get (name_map s') (FileInfo.name file_info) = Some l
                    /\ (length (objects s) + i) ∈ l).
Proof.
  induction infos as [|x infos IH]; intros s; cbn zeta.
  - simpl. rewrite !app_nil_r. repeat split; try done.
    intros k l Hl. exists []. by rewrite app_nil_r.
  - cbn [fold_left]. destruct (IH (add_info s x)) as (O & I & D & G & M & N).
    assert (Hlen : length (objects (add_info s x)) = S (length (objects s))).
    { unfold add_info. simpl. rewrite length_app. simpl. lia. }
    split; [rewrite O; unfold add_info; simpl; by rewrite <- app_assoc|].
    split; [rewrite I, Hlen; unfold add_info; simpl; by rewrite <- app_assoc|].
    split; [by rewrite D|]. split; [by rewrite G|]. split.
    + intros k l Hl.
      destruct (dict_append_extends (name_map s) (FileInfo.name x) (length (objects s)) k l Hl)
        as [l1 Hl1].
      destruct (M k (l ++ l1)) as [l2 Hl2]; [exact Hl1|].
      exists (l1 ++ l2). by rewrite app_assoc.
    + intros [|i] file_info Hi; simpl in Hi.
      * injection Hi as ->.
        destruct (M (FileInfo.name file_info)
                    (entry (name_map s) (FileInfo.name file_info) ++ [length (objects s)]))
          as [l2 Hl2]; [apply dict_append_get_eq|].
        eexists. split; [exact Hl2|]. rewrite Nat.add_0_r.
        apply elem_of_app. left. apply elem_of_app. right. constructor.
      * destruct (N i file_info Hi) as (l & Hl & Hin).
        exists l. split; [done|]. rewrite Hlen in Hin.
        by replace (length (objects s) + S i) with (S (length (objects s)) + i) by lia.
Qed.

(** ** Calling inventory_files twice *)

Lemma nth_app_offset (pre l post : list FileInfo.t) (i : nat) (x : FileInfo.t) :
  l !! i = Some x -> nth (length pre + i) (pre ++ l ++ post) FileInfo.dummy = x.
Proof.
  intros Hi. rewrite nth_lookup.
  rewrite lookup_app_r by lia.
  replace (length pre + i - length pre) with i by lia.
  by rewrite (lookup_app_l_Some _ _ _ _ Hi).
Qed.

Lemma map_nth_seq (pre l post : list FileInfo.t) :
  map (fun r => nth r (pre ++ l ++ post) FileInfo.dummy) (seq (length pre) (length l)) = l.
Proof.
  revert pre. induction l as [|x l IH]; intros pre; [done|].
  cbn [length seq map]. f_equal.
  - rewrite <- (Nat.add_0_r (length pre)). by apply nth_app_offset.
  - specialize (IH (pre ++ [x])). rewrite length_app in IH. simpl in IH.
    rewrite Nat.add_1_r, <- app_assoc in IH. exact IH.
Qed.

Lemma two_members (l : list ref) (r1 r2 : ref) :
  r1 <> r2 -> r1 ∈ l -> r2 ∈ l -> 1 < length l.
Proof.
  intros Hne H1 H2. destruct l as [|a [|b l]]; simpl; [| |lia].
  - by apply elem_of_nil in H1.
  - apply list_elem_of_singleton in H1, H2. congruence.
Qed.

(** C10.  A second call of [inventory_files] on the same scanner, with
    the directory unchanged, makes the inventory anew, one record for each
    file found, but adds to the name index without clearing it: what the
    first call listed is still there, every file found is now listed twice
    under its name, by two records with the same path, and
    [get_identical_names] reports that name. *)
Theorem second_inventory_doubles_names (tree : list node) (s0 : FileScanner) :
  let s1 := inventory_files tree s0 in
  let s2 := inventory_files tree s1 in
  map (obj s2) (file_inventory s2) = found s0 tree
  /\ NoDup (file_inventory s2)
  /\ (forall k l, Dict.get (name_map s1) k = Some l ->
                  exists l', Dict.get (name_map s2) k = Some (l ++ l'))
  /\ (forall file_info, file_info ∈ found s0 tree ->
        exists l r1 r2,
          Dict.get (name_map s2) (FileInfo.name file_info) = Some l
          /\ r1 <> r2 /\ r1 ∈ l /\ r2 ∈ l
          /\ obj s2 r1 = file_info /\ obj s2 r2 = file_info
          /\ (FileInfo.name file_info, l) ∈ get_identical_names s2).
Proof.
  intros s1 s2. subst s2 s1.
  set (s1 := inventory_files tree s0).
  assert (Hc : same_config s0 s1).
  { unfold s1. rewrite inventory_files_found.
    apply (same_config_add_infos (found s0 tree) (with_file_inventory [] s0)). }
  rewrite (inventory_files_found tree s1), (found_config s0 s1 tree Hc).
  destruct (add_infos_spec (found s0 tree) (with_file_inventory [] s1))
    as (O2 & I2 & _ & _ & M2 & N2).
  assert (O1 : objects s1 = objects s0 ++ found s0 tree).
  { unfold s1. rewrite inventory_files_found.
    by destruct (add_infos_spec (found s0 tree) (with_file_inventory [] s0)) as (-> & _). }
  assert (N1 : forall i file_info, found s0 tree !! i = Some file_info ->
            exists l, Dict.get (name_map s1) (FileInfo.name file_info) = Some l
                      /\ (length (objects s0) + i) ∈ l).
  { unfold s1. rewrite inventory_files_found.
    by destruct (add_infos_spec (found s0 tree) (with_file_inventory [] s0))
      as (_ & _ & _ & _ & _ & N1). }
  simpl in O2, I2, M2, N2.
  split; [|split; [|split]].
  - rewrite I2. unfold obj. rewrite O2, O1, <- app_assoc.
    rewrite <- (map_nth_seq (objects s0 ++ found s0 tree) (found s0 tree) []) at 3.
    by rewrite app_nil_r, <- app_assoc.
  - rewrite I2. apply NoDup_seq.
  - exact M2.
  - intros file_info Hin. apply list_elem_of_lookup in Hin as [i Hi].
    destruct (N1 i file_info Hi) as (l1 & Hl1 & Hin1).
    destruct (M2 _ _ Hl1) as [l' Hl].
    destruct (N2 i file_info Hi) as (l2 & Hl2 & Hin2).
    assert (l2 = l1 ++ l') as -> by congruence.
    exists (l1 ++ l'), (length (objects s0) + i), (length (objects s1) + i).
    assert (Hne : length (objects s0) + i <> length (objects s1) + i).
    { rewrite O1, length_app. apply lookup_lt_Some in Hi. lia. }
    assert (Hin1' : (length (objects s0) + i) ∈ l1 ++ l') by (apply elem_of_app; by left).
    split; [done|]. split; [done|]. split; [done|]. split; [done|].
    split; [|split].
    + unfold obj. rewrite O2, O1, <- app_assoc. by apply nth_app_offset.
    + unfold obj. rewrite O2.
      rewrite <- (app_nil_r (found s0 tree)) at 1. by apply nth_app_offset.
    + unfold get_identical_names, Dict.items. apply list_elem_of_filter. split.
      * simpl. apply Nat.ltb_lt. by apply (two_members _ _ _ Hne).
      * by apply dict_get_elem.
Qed.

Lemma second_inventory_doubles_names_witness :
  let s2 := inventory_files [File "a.txt" (Some (3, 100)%Z)] one_file_scanned in
  map (fun r => FileInfo.path (obj s2 r)) (file_inventory s2) = ["/d/a.txt"]
  /\ get_identical_names s2 = [("a.txt", [0; 1])]
  /\ FileInfo.path (obj s2 0) = "/d/a.txt" /\ FileInfo.path (obj s2 1) = "/d/a.txt"
  /\ exists l r1 r2,
       Dict.get (name_map s2) "a.txt" = Some l
       /\ r1 <> r2 /\ r1 ∈ l /\ r2 ∈ l
       /\ obj s2 r1 = FileInfo.mk "/d/a.txt" "a.txt" 3 100 None None
       /\ obj s2 r2 = FileInfo.mk "/d/a.txt" "a.txt" 3 100 None None
       /\ ("a.txt", l) ∈ get_identical_names s2.
Proof.
  split; [vm_compute; reflexivity|].
  split; [vm_compute; reflexivity|].
  split; [vm_compute; reflexivity|].
  split; [vm_compute; reflexivity|].
  destruct (second_inventory_doubles_names [File "a.txt" (Some (3, 100)%Z)]
              (new_scanner "/d" true 1 None)) as (_ & _ & _ & H).
  apply (H (FileInfo.mk "/d/a.txt" "a.txt" 3 100 None None)).
  vm_compute. constructor.
Defined.

(** ** Names for organized duplicates *)

Lemma str_nat_inj n1 n2 : Py.str_nat n1 = Py.str_nat n2 -> n1 = n2.
Proof.
  unfold Py.str_nat. intros H.
  apply (f_equal NilEmpty.uint_of_string) in H. rewrite !NilEmpty.usu in H.
  injection H as H. apply (f_equal Nat.of_uint) in H.
  by rewrite !DecimalNat.Unsigned.of_to in H.
Qed.

Lemma list_ascii_of_append (s1 s2 : string) :
  list_ascii_of_string (s1 ++ s2) = list_ascii_of_string s1 ++ list_ascii_of_string s2.
Proof. induction s1 as [|a s1 IH]; simpl; [done|]. by rewrite IH. Qed.

Lemma append_inv_tail (s1 s2 t : string) : (s1 ++ t)%string = (s2 ++ t)%string -> s1 = s2.
Proof.
  intros H. apply (f_equal list_ascii_of_string) in H.
  rewrite !list_ascii_of_append in H. apply app_inv_tail in H.
  apply (f_equal string_of_list_ascii) in H.
  by rewrite !string_of_list_ascii_of_string in H.
Qed.

Lemma append_inv_head (s t1 t2 : string) : (s ++ t1)%string = (s ++ t2)%string -> t1 = t2.
Proof. induction s as [|a s IH]; simpl; [done|]. intros [= H]. auto. Qed.

(** whether a suffixed name is absolute does not depend on the suffix *)
Lemma startswith_suffixed (name t : string) :
  Py.startswith (name ++ "_" ++ t) "/" = Py.startswith (name ++ "_") "/".
Proof.
  assert (Hnil : forall s, Py.startswith s "" = true) by (by intros []).
  destruct name as [|a name]; simpl; [done|]. by rewrite !Hnil.
Qed.

(** different counters give different names *)
Lemma candidate_inj organize filename k1 k2 :
  candidate organize filename k1 = candidate organize filename k2 -> k1 = k2.
Proof.
  unfold candidate. destruct (Py.splitext filename) as [name ext].
  intros H.
  assert (Hb : (name ++ "_" ++ Py.str_nat k1 ++ ext)%string
               = (name ++ "_" ++ Py.str_nat k2 ++ ext)%string).
  { unfold Py.join in H. rewrite !startswith_suffixed in H.
    destruct (Py.startswith (name ++ "_") "/"); [done|].
    destruct (_ || _); apply append_inv_head in H; [done|].
    by apply (append_inv_head "/") in H. }
  apply append_inv_head in Hb. apply (append_inv_head "_") in Hb.
  apply append_inv_tail in Hb. by apply str_nat_inj.
Qed.

Lemma free_name_free w organize filename fuel counter dest_path :
  path_exists w dest_path = false ->
  free_name w organize filename fuel counter dest_path = Some dest_path.
Proof. intros H. destruct fuel; simpl; by rewrite H. Qed.

(** The loop ends: the names it tries are all different, and only
    finitely many paths exist. *)
Lemma free_name_total w organize filename :
  forall fuel counter dest_path (E : gset string),
    (forall k, counter <= k -> path_exists w (candidate organize filename k) = true ->
               candidate organize filename k ∈ E) ->
    size E < fuel ->
    is_Some (free_name w organize filename fuel counter dest_path).
Proof.
  induction fuel as [|fuel IH]; intros counter dest_path E HE Hsize; [lia|].
  simpl. destruct (path_exists w dest_path) eqn:Hd; [|done].
  destruct (path_exists w (candidate organize filename counter)) eqn:Hc.
  - apply (IH (S counter) _ (E ∖ {[ candidate organize filename counter ]})).
    + intros k Hk Hex. apply elem_of_difference. split; [apply HE; [lia | done]|].
      intros Heq%elem_of_singleton. apply candidate_inj in Heq. lia.
    + assert (Hin : candidate organize filename counter ∈ E) by (apply HE; [lia | done]).
      rewrite size_difference by (by apply singleton_subseteq_l).
      rewrite size_singleton.
      assert (size E <> 0); [|lia].
      intros H0. apply size_empty_inv in H0. set_solver.
  - rewrite free_name_free by done. done.
Qed.

(** What the loop returns: a name that is free; the plain name when that
    is free, else the first free one among the suffixed names from
    [counter] on. *)
Lemma free_name_spec w organize filename :
  forall fuel counter dest_path d,
    free_name w organize filename fuel counter dest_path = Some d ->
    path_exists w d = false
    /\ (d = dest_path
        \/ path_exists w dest_path = true
           /\ exists k, counter <= k /\ d = candidate organize filename k
                        /\ forall j, counter <= j < k ->
                                     path_exists w (candidate organize filename j) = true).
Proof.
  induction fuel as [|fuel IH]; intros counter dest_path d; simpl;
    destruct (path_exists w dest_path) eqn:Hd; try done.
  - intros [= <-]. auto.
  - intros H. apply IH in H as (Hfree & [->|(Hc & k & Hk & -> & Hall)]).
    + split; [done|]. right. split; [done|]. exists counter.
      split; [lia|]. split; [done|]. intros j Hj. lia.
    + split; [done|]. right. split; [done|]. exists k.
      split; [lia|]. split; [done|]. intros j Hj.
      destruct (decide (j = counter)) as [->|Hne]; [done|]. apply Hall. lia.
  - intros [= <-]. auto.
Qed.

Lemma free_name_enough w organize filename counter dest_path :
  is_Some (free_name w organize filename (enough w) counter dest_path).
Proof.
  apply (free_name_total w organize filename _ _ _ (dom (fs_files w) ∪ fs_dirs w)).
  - intros k _ H. unfold path_exists in H. by apply bool_decide_eq_true in H.
  - unfold enough. lia.
Qed.

(** ** The monitor on a duplicate *)

Lemma os_rename_moves w src dst w2 :
  os_rename w src dst = inr w2 ->
  path_exists w dst = false ->
  fs_files w2 !! dst = fs_files w !! src
  /\ fs_files w2 !! src = None
  /\ clock w2 = clock w.
Proof.
  unfold os_rename. destruct (negb _); [done|].
  destruct (fs_files w !! src) as [f|] eqn:Hsrc; [|done].
  destruct (_ || _); [done|]. case_bool_decide; [done|].
  intros [= <-] Hfree. simpl.
  assert (Hne : dst <> src).
  { intros ->. unfold path_exists in Hfree. apply bool_decide_eq_false in Hfree.
    apply Hfree, elem_of_union. left. apply elem_of_dom. by eexists. }
  split; [by rewrite lookup_insert_eq|].
  split; [|done]. rewrite lookup_insert_ne by done. by rewrite lookup_delete_eq.
Qed.

(** a rename touches the two paths it is given and no other *)
Lemma os_rename_others w src dst w2 q :
  os_rename w src dst = inr w2 -> q <> src -> q <> dst ->
  fs_files w2 !! q = fs_files w !! q.
Proof.
  unfold os_rename. destruct (negb _); [done|].
  destruct (fs_files w !! src) as [f|]; [|done].
  destruct (_ || _); [done|]. case_bool_decide; [done|].
  intros [= <-] Hs Hd. simpl.
  rewrite lookup_insert_ne by congruence. by rewrite lookup_delete_ne by congruence.
Qed.

(** the files that can be opened and read *)
Lemma world_open w p content :
  open_rb (world_env w) p = Some content
  <-> (p ∉ fs_denied w) /\ (exists t, fs_files w !! p = Some (t, content)).
Proof.
  unfold world_env, os_open. cbn [open_rb].
  case_bool_decide as Hd.
  - split; [done | by intros [? _]].
  - destruct (fs_files w !! p) as [[t c]|].
    + split; [(intros [= ->]; eauto) | (by intros [_ [t' [= _ ->]]])].
    + split; [(by case_bool_decide) | (by intros [_ [t' ?]])].
Qed.

(** when a rename of a readable file to a free path goes through *)
Lemma os_rename_result w src dst content :
  open_rb (world_env w) src = Some content ->
  path_exists w dst = false ->
  if (fs_device w src =? fs_device w dst)%Z && negb (bool_decide (dst ∈ fs_denied w))
  then exists w2, os_rename w src dst = inr w2
  else exists err, os_rename w src dst = inl err.
Proof.
  unfold world_env, os_open, path_exists. cbn [open_rb].
  intros Ho Hfree. apply bool_decide_eq_false in Hfree.
  destruct (bool_decide (src ∈ fs_denied w)) eqn:Hs; [done|].
  destruct (fs_files w !! src) as [f|] eqn:Hf;
    [|by destruct (bool_decide (src ∈ fs_dirs w))].
  unfold os_rename. rewrite Hf, Hs.
  destruct (fs_device w src =? fs_device w dst)%Z; cbn [negb andb orb]; [|by eexists].
  destruct (bool_decide (dst ∈ fs_denied w)); cbn [negb]; [by eexists|].
  rewrite bool_decide_eq_false_2; [by eexists|].
  intros Hdir. apply Hfree, elem_of_union. by right.
Qed.

Lemma os_makedirs_same w p w1 :
  os_makedirs w p = inr w1 ->
  fs_files w1 = fs_files w /\ clock w1 = clock w
  /\ fs_denied w1 = fs_denied w /\ fs_device w1 = fs_device w
  /\ forall q, path_exists w1 q = false -> path_exists w q = false.
Proof.
  unfold os_makedirs. repeat case_bool_decide; try done; intros [= <-]; [done|].
  repeat split; try done. unfold path_exists. cbn [fs_files fs_dirs].
  intros q Hq. apply bool_decide_eq_false in Hq. apply bool_decide_eq_false_2.
  intros Hin. apply Hq. apply elem_of_union in Hin as [Hin|Hin].
  - apply elem_of_union. by left.
  - apply elem_of_union. right. apply elem_of_union. by right.
Qed.

Lemma log_activity_log w message m :
  activity_log (log_activity w message m) = activity_log m ++ [mkLog (clock w) message].
Proof. done. Qed.

(** what [_organize_duplicate] does with a file that can be read: the
    folder is made or the failure is logged; then a free name is found;
    then the file is renamed, which goes through exactly when the name
    is on the device of the file and access to it is not denied. *)
Lemma organize_duplicate_cases w m p content :
  open_rb (world_env w) p = Some content ->
  exists w',
    match os_makedirs w (organize_path m) with
    | inl err =>
        _organize_duplicate w m p
        = Some (w', log_activity w ("Failed to organize duplicate: " ++ err) m)
        /\ w' = w
    | inr w1 =>
        exists dest,
          path_exists w1 dest = false
          /\ (dest = Py.join (organize_path m) (Py.basename p)
              \/ path_exists w1 (Py.join (organize_path m) (Py.basename p)) = true
                 /\ exists k,
                      1 <= k /\ dest = candidate (organize_path m) (Py.basename p) k
                      /\ forall j, 1 <= j < k ->
                           path_exists w1 (candidate (organize_path m) (Py.basename p) j)
                           = true)
          /\ if (fs_device w p =? fs_device w dest)%Z
                && negb (bool_decide (dest ∈ fs_denied w))
             then
               _organize_duplicate w m p
               = Some (w', log_activity w
                             ("Organized duplicate: " ++ Py.basename p ++ " → " ++ dest) m)
               /\ os_rename w1 p dest = inr w'
             else
               exists err,
                 os_rename w1 p dest = inl err
                 /\ _organize_duplicate w m p
                    = Some (w', log_activity w ("Failed to organize duplicate: " ++ err) m)
                 /\ w' = w1
    end.
Proof.
  intros Ho. unfold _organize_duplicate.
  destruct (os_makedirs w (organize_path m)) as [err|w1] eqn:Hmk; [by exists w|].
  destruct (os_makedirs_same _ _ _ Hmk) as (Hfiles & Hclock & Hden & Hdev & _).
  destruct (free_name_enough w1 (organize_path m) (Py.basename p) 1
              (Py.join (organize_path m) (Py.basename p))) as [dest Hdest].
  rewrite Hdest. apply free_name_spec in Hdest as (Hfree & Hwhich).
  assert (Ho1 : open_rb (world_env w1) p = Some content).
  { apply world_open. apply world_open in Ho. by rewrite Hfiles, Hden. }
  pose proof (os_rename_result w1 p dest content Ho1 Hfree) as Hres.
  rewrite Hdev, Hden in Hres.
  destruct ((fs_device w p =? fs_device w dest)%Z
            && negb (bool_decide (dest ∈ fs_denied w))) eqn:Hc.
  - destruct Hres as [w2 Hmv]. exists w2, dest. split; [done|]. split; [done|].
    rewrite Hc, Hmv. split; [|done].
    destruct (os_rename_moves _ _ _ _ Hmv Hfree) as (_ & _ & Hc2).
    unfold log_activity. by rewrite Hc2, Hclock.
  - destruct Hres as [err Hmv]. exists w1, dest. split; [done|]. split; [done|].
    rewrite Hc, Hmv. exists err. split; [done|]. split; [|done].
    unfold log_activity. by rewrite Hclock.
Qed.

Lemma hashable_readable env p h :
  _calculate_file_hash env p = Some h -> exists content, open_rb env p = Some content.
Proof. unfold _calculate_file_hash. destruct (open_rb env p); [eauto | done]. Qed.

(** C9.  When a file is created or moved into place and its hash is a key
    of the monitor's index, the handler logs that a duplicate was
    detected.  With auto-organize on it then makes the organize folder;
    if that fails, the failure is logged and nothing moves.  Otherwise it
    takes the file's own name in the folder or, when that is taken, the
    name with [_k] before the extension for the first [k] from 1 on that
    gives a free path; the search ends.  The file is then renamed: when
    that path is on the device of the file and access to it is not
    denied, the file is at that path afterwards and no longer at its own,
    no other file is touched, and the move is logged; else the error of
    [os.rename] is logged and the files are where they were. *)
Theorem duplicate_is_logged_and_organized (w : World) (m : FileMonitor) (e : FsEvent)
    (p h : string) (dup : FileInfo.t) :
  e = Created false p \/ (exists src, e = Moved false src p) ->
  _calculate_file_hash (world_env w) p = Some h ->
  Dict.get (known_files m) h = Some dup ->
  let t := (clock w + 1)%Z in
  let filename := Py.basename p in
  let detected :=
    mkLog t ("Duplicate detected: " ++ filename ++ " matches " ++ FileInfo.name dup) in
  exists w' m',
    on_event w m e = Some (w', m')
    /\ known_files m' = known_files m
    /\ if auto_organize m then
         match os_makedirs (with_clock t w) (organize_path m) with
         | inl err =>
             activity_log m'
             = activity_log m ++ [detected; mkLog t ("Failed to organize duplicate: " ++ err)]
             /\ fs_files w' = fs_files w
         | inr w1 =>
             exists dest,
               path_exists w1 dest = false
               /\ (dest = Py.join (organize_path m) filename
                   \/ path_exists w1 (Py.join (organize_path m) filename) = true
                      /\ exists k,
                           1 <= k /\ dest = candidate (organize_path m) filename k
                           /\ forall j, 1 <= j < k ->
                                path_exists w1 (candidate (organize_path m) filename j)
                                = true)
               /\ if (fs_device w p =? fs_device w dest)%Z
                     && negb (bool_decide (dest ∈ fs_denied w))
                  then
                    activity_log m'
                    = activity_log m
                      ++ [detected;
                          mkLog t ("Organized duplicate: " ++ filename ++ " → " ++ dest)]
                    /\ fs_files w' !! dest = fs_files w !! p
                    /\ fs_files w' !! p = None
                    /\ (forall q, q <> p -> q <> dest ->
                                  fs_files w' !! q = fs_files w !! q)
                  else
                    exists err,
                      os_rename w1 p dest = inl err
                      /\ activity_log m'
                         = activity_log m
                           ++ [detected; mkLog t ("Failed to organize duplicate: " ++ err)]
                      /\ fs_files w' = fs_files w
         end
       else activity_log m' = activity_log m ++ [detected] /\ fs_files w' = fs_files w.
Proof.
  intros He Hh Hk t filename detected.
  assert (Hev : on_event w m e = process_new_file w m p).
  { destruct He as [->|[src ->]]; done. }
  rewrite Hev. unfold process_new_file.
  change (world_env (with_clock (clock w + 1) w)) with (world_env w).
  rewrite Hh, Hk.
  set (w0 := with_clock (clock w + 1) w).
  set (m1 := log_activity w0 _ m).
  change (auto_organize m1) with (auto_organize m).
  destruct (auto_organize m) eqn:Ha; [|eexists _, _; by repeat split].
  destruct (hashable_readable _ _ _ Hh) as [content Ho].
  destruct (organize_duplicate_cases w0 m1 p content Ho) as [w' Hcases].
  change (organize_path m1) with (organize_path m) in Hcases.
  change (fs_device w0) with (fs_device w) in Hcases.
  change (fs_denied w0) with (fs_denied w) in Hcases.
  change (os_makedirs (with_clock t w) (organize_path m))
    with (os_makedirs w0 (organize_path m)).
  destruct (os_makedirs w0 (organize_path m)) as [err|w1] eqn:Hmk.
  - destruct Hcases as [Hrun ->]. eexists _, _. split; [exact Hrun|].
    split; [done|]. split; [|done].
    rewrite log_activity_log. unfold m1. rewrite log_activity_log. by rewrite <- app_assoc.
  - destruct (os_makedirs_same _ _ _ Hmk) as (Hfiles & _).
    destruct Hcases as (dest & Hfree & Hwhich & Hres).
    destruct ((fs_device w p =? fs_device w dest)%Z
              && negb (bool_decide (dest ∈ fs_denied w))) eqn:Hc.
    + destruct Hres as [Hrun Hmv]. eexists _, _. split; [exact Hrun|].
      split; [done|]. exists dest. split; [done|]. split; [done|]. rewrite Hc.
      destruct (os_rename_moves _ _ _ _ Hmv Hfree) as (Hd & Hp & _).
      split; [rewrite log_activity_log; unfold m1; rewrite log_activity_log;
             by rewrite <- app_assoc|].
      split; [by rewrite Hd, Hfiles|]. split; [done|].
      intros q Hq1 Hq2. by rewrite (os_rename_others _ _ _ _ _ Hmv Hq1 Hq2), Hfiles.
    + destruct Hres as (err & Hmv & Hrun & ->). eexists _, _. split; [exact Hrun|].
      split; [done|]. exists dest. split; [done|]. split; [done|]. rewrite Hc.
      exists err. split; [done|]. split; [|done].
      rewrite log_activity_log. unfold m1. rewrite log_activity_log. by rewrite <- app_assoc.
Qed.

Lemma duplicate_is_logged_and_organized_witness :
  exists w' m',
    on_event monitor_world monitor_start (Created false "/d/y.bin") = Some (w', m')
    /\ known_files m' = known_files monitor_start
    /\ activity_log m'
       = [mkLog 1001 "Duplicate detected: y.bin matches x.bin";
          mkLog 1001 "Organized duplicate: y.bin → /d/Auto_Organized/y_1.bin"]
    /\ fs_files w' !! "/d/Auto_Organized/y_1.bin" = Some (6%Z, list_byte_of_string "same")
    /\ fs_files w' !! "/d/y.bin" = None
    /\ fs_files w' !! "/d/Auto_Organized/y.bin" = Some (1%Z, list_byte_of_string "other").
Proof.
  assert (Hh : _calculate_file_hash (world_env monitor_world) "/d/y.bin"
               = Some "51037a4a37730f52c8732586d3aaa316") by (vm_compute; reflexivity).
  destruct (duplicate_is_logged_and_organized monitor_world monitor_start
              (Created false "/d/y.bin") "/d/y.bin" "51037a4a37730f52c8732586d3aaa316"
              (FileInfo.mk "/d/x.bin" "x.bin" 4 5 None None)
              (or_introl eq_refl) Hh eq_refl) as (w' & m' & Hev & Hknown & Hlog).
  exists w', m'. split; [exact Hev|]. split; [exact Hknown|].
  cbn [auto_organize monitor_start] in Hlog.
  match type of Hlog with
  | match ?made with _ => _ end =>
      replace made with (@inr string World monitor_world_later) in Hlog
        by (vm_compute; reflexivity)
  end.
  destruct Hlog as (dest & Hfree & Hwhich & Hres).
  assert (Hdest : dest = "/d/Auto_Organized/y_1.bin").
  { destruct Hwhich as [->|(_ & k & Hk & -> & Hall)].
    - vm_compute in Hfree. discriminate.
    - destruct (decide (k = 1)) as [->|Hne]; [vm_compute; reflexivity|].
      assert (H1 : 1 <= 1 < k) by lia.
      apply Hall in H1. vm_compute in H1. discriminate. }
  subst dest.
  destruct (_ && _) eqn:Hc; [|vm_compute in Hc; discriminate].
  destruct Hres as (Hl & Hd & Hp & Hq).
  split; [rewrite Hl; vm_compute; reflexivity|].
  split; [rewrite Hd; vm_compute; reflexivity|].
  split; [exact Hp|].
  rewrite Hq by discriminate. vm_compute. reflexivity.
Defined.

(** the same event, run: the file goes to [y_1.bin] *)
Example monitor_scenario :
  match on_event monitor_world monitor_start (Created false "/d/y.bin") with
  | Some (w', m') =>
      map event (activity_log m')
      = ["Duplicate detected: y.bin matches x.bin";
         "Organized duplicate: y.bin → /d/Auto_Organized/y_1.bin"]
      /\ fs_files w' !! "/d/Auto_Organized/y_1.bin" = Some (6%Z, list_byte_of_string "same")
      /\ fs_files w' !! "/d/Auto_Organized/y.bin" = Some (1%Z, list_byte_of_string "other")
      /\ fs_files w' !! "/d/y.bin" = None
  | None => False
  end.
Proof. vm_compute. repeat split; reflexivity. Qed.

(* ===================================================================== *)
(** * Further properties of the code *)
(* ===================================================================== *)

(** ** Dictionaries with one entry for a key *)

Lemma dict_get_None {V : Type} (d : Dict.t V) (k : string) :
  Dict.get d k = None <-> k ∉ map fst d.
Proof.
  induction d as [|[k' v'] d IH]; simpl.
  - split; [intros _; apply not_elem_of_nil | done].
  - destruct (String.eqb k' k) eqn:E.
    + apply String.eqb_eq in E. subst k'. split; [done|]. intros H.
      exfalso. apply H. constructor.
    + apply String.eqb_neq in E. rewrite IH, not_elem_of_cons.
      split; [by split | by intros [_ ?]].
Qed.

Lemma dict_set_keys {V : Type} (d : Dict.t V) (k : string) (v : V) :
  map fst (Dict.set d k v) = if Dict.mem d k then map fst d else map fst d ++ [k].
Proof.
  unfold Dict.mem. induction d as [|[k' v'] d IH]; simpl; [done|].
  destruct (String.eqb k' k) eqn:E; simpl; [done|].
  rewrite IH. by destruct (Dict.get d k).
Qed.

Lemma keys_unique_set {V : Type} (d : Dict.t V) (k : string) (v : V) :
  keys_unique d -> keys_unique (Dict.set d k v).
Proof.
  unfold keys_unique. intros H. rewrite dict_set_keys.
  destruct (Dict.mem d k) eqn:E; [done|].
  apply NoDup_app. split; [done|]. split; [|apply NoDup_singleton].
  intros x Hx ->%list_elem_of_singleton.
  apply dict_get_None in Hx; [done|]. unfold Dict.mem in E. by destruct (Dict.get d k).
Qed.

Lemma keys_unique_dict_append d k r : keys_unique d -> keys_unique (dict_append d k r).
Proof.
  intros H. unfold dict_append.
  assert (H1 : keys_unique (if Dict.mem d k then d else Dict.set d k []))
    by (destruct (Dict.mem d k); [done | by apply keys_unique_set]).
  destruct (Dict.get _ k); [by apply keys_unique_set | done].
Qed.

Lemma dict_get_elem_unique {V : Type} (d : Dict.t V) (k : string) (v : V) :
  keys_unique d -> (k, v) ∈ d -> Dict.get d k = Some v.
Proof.
  unfold keys_unique. induction d as [|[k' v'] d IH]; simpl; intros Hnd Hin.
  - by apply elem_of_nil in Hin.
  - apply NoDup_cons in Hnd as [Hk' Hnd].
    apply elem_of_cons in Hin as [[= -> ->]|Hin].
    + by rewrite String.eqb_refl.
    + destruct (String.eqb k' k) eqn:E; [|by apply IH].
      apply String.eqb_eq in E. subst k'. exfalso. apply Hk'.
      apply list_elem_of_fmap. by exists (k, v).
Qed.

(** what a lookup finds after the groups of [items] were copied over *)
Lemma fold_add_group_lookup items :
  keys_unique items ->
  forall results k,
    Dict.get (fold_left add_group items results) k
    = match Dict.get items k with
      | Some files => if (1 <? length files)%nat then Some files else Dict.get results k
      | None => Dict.get results k
      end.
Proof.
  unfold keys_unique. induction items as [|[k0 l0] items IH]; intros Hnd results k; [done|].
  apply NoDup_cons in Hnd as [Hk0 Hnd]. simpl in Hk0.
  cbn [fold_left]. rewrite IH by done.
  cbn [Dict.get].
  change (add_group results (k0, l0))
    with (if (1 <? length l0)%nat then Dict.set results k0 l0 else results).
  destruct (String.eqb k0 k) eqn:E.
  - apply String.eqb_eq in E. subst k0.
    apply dict_get_None in Hk0. rewrite Hk0.
    destruct (1 <? length l0)%nat; [apply dict_get_set_eq | done].
  - apply String.eqb_neq in E.
    assert (Hr : Dict.get (if (1 <? length l0)%nat then Dict.set results k0 l0 else results) k
                 = Dict.get results k).
    { destruct (1 <? length l0)%nat; [by apply dict_get_set_ne | done]. }
    by rewrite Hr.
Qed.

Lemma duplicate_groups_get s k :
  keys_unique (duplicate_map s) ->
  keys_unique (similarity_groups s) ->
  Dict.get (get_duplicate_groups s) k
  = let by_hash :=
      match Dict.get (duplicate_map s) k with
      | Some files => if (1 <? length files)%nat then Some files else None
      | None => None
      end in
    match Dict.get (similarity_groups s) k with
    | Some files => if (1 <? length files)%nat then Some files else by_hash
    | None => by_hash
    end.
Proof.
  intros Hd Hs. unfold get_duplicate_groups, Dict.items.
  rewrite fold_add_group_lookup by done. by rewrite fold_add_group_lookup by done.
Qed.

(** X1.  Looking a key up in the result of [get_duplicate_groups]: the
    similarity group of that key when it has two records or more, else the
    hash group of that key when it has two or more, else nothing.  A
    similarity group thus replaces a hash group with the same key. *)
Theorem get_duplicate_groups_lookup (s : FileScanner) (k : string) :
  keys_unique (duplicate_map s) ->
  keys_unique (similarity_groups s) ->
  Dict.get (get_duplicate_groups s) k
  = let by_hash :=
      match Dict.get (duplicate_map s) k with
      | Some files => if (1 <? length files)%nat then Some files else None
      | None => None
      end in
    match Dict.get (similarity_groups s) k with
    | Some files => if (1 <? length files)%nat then Some files else by_hash
    | None => by_hash
    end.
Proof. apply duplicate_groups_get. Qed.

Lemma get_duplicate_groups_lookup_witness :
  Dict.get (get_duplicate_groups four_reports_scanned) "sim_7_1_2" = Some [1; 2; 3]
  /\ Dict.get (get_duplicate_groups four_reports_scanned)
       "06f0760ec7f18687a7fbc0ddbf1b1722" = None.
Proof.
  assert (Hd : keys_unique (duplicate_map four_reports_scanned))
    by (apply (bool_decide_unpack _); vm_compute; exact I).
  assert (Hs : keys_unique (similarity_groups four_reports_scanned))
    by (apply (bool_decide_unpack _); vm_compute; exact I).
  split.
  - rewrite (get_duplicate_groups_lookup four_reports_scanned "sim_7_1_2" Hd Hs).
    vm_compute. reflexivity.
  - rewrite (get_duplicate_groups_lookup four_reports_scanned
               "06f0760ec7f18687a7fbc0ddbf1b1722" Hd Hs).
    vm_compute. reflexivity.
Defined.

Lemma dict_get_filter {V : Type} (P : string * V -> bool) (d : list (string * V))
    (k : string) :
  keys_unique d ->
  Dict.get (filter (fun item => P item = true) d) k
  = match Dict.get d k with
    | Some v => if P (k, v) then Some v else None
    | None => None
    end.
Proof.
  unfold keys_unique. induction d as [|[k' v'] d IH]; intros Hnd; [done|].
  apply NoDup_cons in Hnd as [Hk' Hnd]. simpl in Hk'.
  rewrite filter_cons. cbn [Dict.get].
  destruct (String.eqb k' k) eqn:E.
  - apply String.eqb_eq in E. subst k'.
    destruct (decide (P (k, v') = true)) as [HP|HP].
    + cbn [Dict.get]. by rewrite String.eqb_refl, HP.
    + rewrite IH by done. apply dict_get_None in Hk'. rewrite Hk'.
      by destruct (P (k, v')).
  - destruct (decide (P (k', v') = true)) as [HP|HP].
    + cbn [Dict.get]. rewrite E. by apply IH.
    + by apply IH.
Qed.

(** X2.  [get_identical_names] keeps a name exactly when the name index
    lists two records or more under it, with the same list. *)
Theorem get_identical_names_lookup (s : FileScanner) (k : string) :
  keys_unique (name_map s) ->
  Dict.get (get_identical_names s) k
  = match Dict.get (name_map s) k with
    | Some files => if (1 <? length files)%nat then Some files else None
    | None => None
    end.
Proof.
  intros H.
  exact (dict_get_filter (fun item => (1 <? length (snd item))%nat) (name_map s) k H).
Qed.

Lemma get_identical_names_lookup_witness :
  let s2 := inventory_files [File "a.txt" (Some (3, 100)%Z)] one_file_scanned in
  Dict.get (get_identical_names s2) "a.txt" = Some [0; 1]
  /\ Dict.get (get_identical_names one_file_scanned) "a.txt" = None.
Proof.
  split.
  - rewrite get_identical_names_lookup
      by (apply (bool_decide_unpack _); vm_compute; exact I).
    vm_compute. reflexivity.
  - rewrite get_identical_names_lookup
      by (apply (bool_decide_unpack _); vm_compute; exact I).
    vm_compute. reflexivity.
Defined.

(** ** What inventory_files puts into the session *)

Lemma inventory_files_lists_found tree s :
  map (obj (inventory_files tree s)) (file_inventory (inventory_files tree s))
  = found s tree.
Proof.
  rewrite inventory_files_found.
  destruct (add_infos_spec (found s tree) (with_file_inventory [] s)) as (O & I & _).
  simpl in O, I. rewrite I. unfold obj. rewrite O.
  pose proof (map_nth_seq (objects s) (found s tree) []) as H.
  by rewrite app_nil_r in H.
Qed.

Lemma found_accepted s tree file_info :
  file_info ∈ found s tree -> exists root e, accepted s root e = Some file_info.
Proof.
  unfold found. intros H. apply list_elem_of_In, in_flat_map in H as ([root files] & _ & H).
  simpl in H. destruct (_ && _); [by apply in_nil in H|].
  apply list_elem_of_In, list_elem_of_omap in H as (e & _ & H). by exists root, e.
Qed.

Lemma accepted_fields s root e file_info :
  accepted s root e = Some file_info ->
  FileInfo.name file_info = fst e
  /\ FileInfo.path file_info = Py.join root (fst e)
  /\ FileInfo.content_hash file_info = None
  /\ FileInfo.similarity_group file_info = None
  /\ ext_rejected s (fst e) = false.
Proof.
  destruct e as [f st]. unfold accepted.
  destruct (ext_rejected s f) eqn:E; [done|]. destruct st as [[sz mt]|]; [|done].
  by intros [= <-].
Qed.

Lemma inventory_files_records (tree : list node) (s : FileScanner) :
  let s' := inventory_files tree s in
  NoDup (file_inventory s')
  /\ duplicate_map s' = duplicate_map s
  /\ similarity_groups s' = similarity_groups s
  /\ (forall i, i < length (objects s) -> obj s' i = obj s i)
  /\ forall r, r ∈ file_inventory s' ->
       length (objects s) <= r < length (objects s')
       /\ FileInfo.content_hash (obj s' r) = None
       /\ FileInfo.similarity_group (obj s' r) = None
       /\ r ∈ entry (name_map s') (FileInfo.name (obj s' r))
       /\ exists root, FileInfo.path (obj s' r) = Py.join root (FileInfo.name (obj s' r)).
Proof.
  intros s'. subst s'. rewrite inventory_files_found.
  destruct (add_infos_spec (found s tree) (with_file_inventory [] s))
    as (O & I & D & G & _ & N).
  simpl in O, I, D, G, N. rewrite I.
  split; [apply NoDup_seq|]. split; [done|]. split; [done|]. split.
  - intros i Hi. unfold obj. rewrite O, !nth_lookup. by rewrite lookup_app_l.
  - intros r Hr. apply elem_of_seq in Hr as [Hlo Hhi].
    assert (Hi : exists file_info, found s tree !! (r - length (objects s)) = Some file_info).
    { apply lookup_lt_is_Some. lia. }
    destruct Hi as [file_info Hi].
    assert (Hobj : obj (fold_left add_info (found s tree) (with_file_inventory [] s)) r
                   = file_info).
    { unfold obj. rewrite O.
      replace r with (length (objects s) + (r - length (objects s))) at 1 by lia.
      rewrite <- (app_nil_r (found s tree)). by apply nth_app_offset. }
    rewrite Hobj, O, length_app.
    destruct (found_accepted s tree file_info) as (root & e & Ha).
    { apply list_elem_of_lookup. by eexists. }
    apply accepted_fields in Ha as (Hn & Hp & Hc & Hg & _).
    split; [lia|]. split; [done|]. split; [done|]. split.
    + destruct (N _ _ Hi) as (l & Hl & Hin). unfold entry. rewrite Hl. simpl.
      by replace (length (objects s) + (r - length (objects s))) with r in Hin by lia.
    + exists root. by rewrite Hn.
Qed.

(** X3.  After [inventory_files] the inventory holds new records only,
    each once: references to objects made by this call, without hash and
    without similarity group, each listed in the name index under its own
    name, with the path of its directory joined to that name.  The objects
    made earlier, the exact-duplicate index and the similarity index are
    as they were. *)
Theorem inventory_files_fresh_records (tree : list node) (s : FileScanner) :
  let s' := inventory_files tree s in
  NoDup (file_inventory s')
  /\ duplicate_map s' = duplicate_map s
  /\ similarity_groups s' = similarity_groups s
  /\ (forall i, i < length (objects s) -> obj s' i = obj s i)
  /\ forall r, r ∈ file_inventory s' ->
       length (objects s) <= r < length (objects s')
       /\ FileInfo.content_hash (obj s' r) = None
       /\ FileInfo.similarity_group (obj s' r) = None
       /\ r ∈ entry (name_map s') (FileInfo.name (obj s' r))
       /\ exists root, FileInfo.path (obj s' r) = Py.join root (FileInfo.name (obj s' r)).
Proof. apply inventory_files_records. Qed.

(** ** Without sub-directories *)

Lemma node_ind2 (P : node -> Prop) :
  (forall f st, P (File f st)) ->
  (forall d children, Forall P children -> P (Dir d children)) ->
  forall n, P n.
Proof.
  intros HF HD. fix IH 1. intros [f st|d children]; [apply HF|].
  apply HD. induction children as [|c children IHc]; constructor; [apply IH | exact IHc].
Qed.

Lemma length_append (a b : string) :
  String.length (a ++ b) = String.length a + String.length b.
Proof. induction a as [|x a IH]; simpl; [done|]. by rewrite IH. Qed.

Lemma join_longer a b :
  plain_name b = true -> String.length a < String.length (Py.join a b).
Proof.
  unfold plain_name, Py.join. intros [Hne Hs]%andb_prop.
  apply negb_true_iff in Hs. rewrite Hs.
  assert (0 < String.length b) by (destruct b; [done | simpl; lia]).
  destruct (_ || _); rewrite !length_append; simpl; lia.
Qed.

Lemma walk_node_deeper n :
  forall top d, tree_ok n = true -> d ∈ walk_node top n ->
                String.length top < String.length (fst d).
Proof.
  induction n as [f st|dname children IH] using node_ind2; intros top d Hok Hin; simpl in *.
  - by apply elem_of_nil in Hin.
  - apply andb_prop in Hok as [Hp Hcs].
    apply elem_of_cons in Hin as [->|Hin]; [by apply join_longer|].
    apply list_elem_of_In, in_flat_map in Hin as (c & Hc & Hin).
    pose proof (proj1 (Forall_forall _ _) IH c (proj2 (list_elem_of_In _ _) Hc)) as IHc.
    assert (Hokc : tree_ok c = true) by (by apply (proj1 (forallb_forall _ _) Hcs)).
    specialize (IHc (Py.join top dname) d Hokc (proj2 (list_elem_of_In _ _) Hin)).
    pose proof (join_longer top dname Hp). lia.
Qed.

Lemma flat_map_nil {A B : Type} (g : A -> list B) (l : list A) :
  (forall x, x ∈ l -> g x = []) -> flat_map g l = [].
Proof.
  induction l as [|x l IH]; intros H; simpl; [done|].
  rewrite (H x) by constructor. apply IH. intros y Hy. apply H. by constructor.
Qed.

(** X4.  With [include_subdirs] off, the inventory holds the files that
    lie in the base directory itself and pass the extension filter and
    [os.stat], in the order of the listing, and nothing from below. *)
Theorem inventory_without_subdirs (tree : list node) (s : FileScanner) :
  include_subdirs s = false ->
  forallb tree_ok tree = true ->
  map (obj (inventory_files tree s)) (file_inventory (inventory_files tree s))
  = omap (accepted s (base_directory s)) (files_of tree).
Proof.
  intros Hs Hok. rewrite inventory_files_lists_found. unfold found, os_walk.
  cbn [flat_map fst snd]. rewrite Hs, String.eqb_refl. cbn [negb andb].
  rewrite flat_map_nil; [by rewrite app_nil_r|].
  intros [root files] Hd. cbn [fst].
  apply list_elem_of_In, in_flat_map in Hd as (c & Hc & Hd).
  assert (Hokc : tree_ok c = true) by (by apply (proj1 (forallb_forall _ _) Hok)).
  pose proof (walk_node_deeper c (base_directory s) _ Hokc (proj2 (list_elem_of_In _ _) Hd))
    as Hlen.
  simpl in Hlen. destruct (String.eqb root (base_directory s)) eqn:E; [|done].
  apply String.eqb_eq in E. subst root. lia.
Qed.

Lemma inventory_without_subdirs_witness :
  let s' := inventory_files nested_tree (new_scanner "/d" false 1 None) in
  map (obj s') (file_inventory s')
  = [FileInfo.mk "/d/a.TXT" "a.TXT" 1 10 None None;
     FileInfo.mk "/d/b.pdf" "b.pdf" 2 20 None None].
Proof.
  exact (inventory_without_subdirs nested_tree (new_scanner "/d" false 1 None)
           eq_refl eq_refl).
Defined.

(** ** The extension filter *)

Lemma lower_chr_idem a : Py.lower_chr (Py.lower_chr a) = Py.lower_chr a.
Proof. destruct a as [[] [] [] [] [] [] [] []]; reflexivity. Qed.

Lemma lower_idem s : Py.lower (Py.lower s) = Py.lower s.
Proof. induction s as [|a s IH]; simpl; [done|]. by rewrite lower_chr_idem, IH. Qed.

Lemma inventory_record_accepted tree s r :
  r ∈ file_inventory (inventory_files tree s) ->
  exists root e, accepted s root e = Some (obj (inventory_files tree s) r).
Proof.
  intros Hr. apply (found_accepted s tree).
  rewrite <- inventory_files_lists_found. apply list_elem_of_fmap. by exists r.
Qed.

Lemma inventory_record_ext (tree : list node) (s : FileScanner)
    (exts : list string) (r : ref) :
  file_extensions s = Some exts ->
  exts <> [] ->
  r ∈ file_inventory (inventory_files tree s) ->
  Py.lower (snd (Py.splitext (FileInfo.name (obj (inventory_files tree s) r)))) ∈ exts.
Proof.
  intros He Hne Hr.
  destruct (inventory_record_accepted tree s r Hr) as (root & e & Ha).
  apply accepted_fields in Ha as (Hn & _ & _ & _ & Hrej).
  rewrite Hn. unfold ext_rejected in Hrej. rewrite He in Hrej.
  destruct exts as [|x exts]; [done|].
  apply negb_false_iff, existsb_exists in Hrej as (y & Hy & Heq).
  apply String.eqb_eq in Heq. rewrite Heq. by apply list_elem_of_In.
Qed.

Lemma files_of_ascii children :
  forallb ascii_names children = true ->
  Forall (fun e => Py.isascii (fst e) = true) (files_of children).
Proof.
  induction children as [|[f st|d cs] rest IH]; simpl; intros H; [constructor| |].
  - apply andb_prop in H as [Hf Hr]. constructor; [done | by apply IH].
  - apply andb_prop in H as [_ Hr]. by apply IH.
Qed.

Lemma walk_node_ascii n :
  forall top d, ascii_names n = true -> d ∈ walk_node top n ->
                Forall (fun e => Py.isascii (fst e) = true) (snd d).
Proof.
  induction n as [f st|dname children IH] using node_ind2; intros top d Hok Hin; simpl in *.
  - by apply elem_of_nil in Hin.
  - apply elem_of_cons in Hin as [->|Hin]; [by apply files_of_ascii|].
    apply list_elem_of_In, in_flat_map in Hin as (c & Hc & Hin).
    pose proof (proj1 (Forall_forall _ _) IH c (proj2 (list_elem_of_In _ _) Hc)) as IHc.
    assert (Hokc : ascii_names c = true) by (by apply (proj1 (forallb_forall _ _) Hok)).
    exact (IHc (Py.join top dname) d Hokc (proj2 (list_elem_of_In _ _) Hin)).
Qed.

Lemma found_ascii s tree file_info :
  forallb ascii_names tree = true ->
  file_info ∈ found s tree -> Py.isascii (FileInfo.name file_info) = true.
Proof.
  unfold found. intros Hok H.
  apply list_elem_of_In, in_flat_map in H as ([root files] & Hd & H).
  simpl in H. destruct (_ && _); [by apply in_nil in H|].
  apply list_elem_of_In, list_elem_of_omap in H as (e & He & Ha).
  apply accepted_fields in Ha as (-> & _).
  assert (Hall : Forall (fun e => Py.isascii (fst e) = true) files).
  { unfold os_walk in Hd. destruct Hd as [[= <- <-]|Hd]; [by apply files_of_ascii|].
    apply in_flat_map in Hd as (c & Hc & Hin).
    assert (Hokc : ascii_names c = true) by (by apply (proj1 (forallb_forall _ _) Hok)).
    exact (walk_node_ascii c _ _ Hokc (proj2 (list_elem_of_In _ _) Hin)). }
  by apply (proj1 (Forall_forall _ _) Hall e).
Qed.

(** X5.  With a non-empty extension filter, every record of the inventory
    of a tree whose file names are ASCII has an ASCII name whose
    extension, put in lower case, is an entry of the filter. *)
Theorem inventory_passes_filter (tree : list node) (s : FileScanner)
    (exts : list string) (r : ref) :
  file_extensions s = Some exts ->
  exts <> [] ->
  forallb ascii_names tree = true ->
  r ∈ file_inventory (inventory_files tree s) ->
  Py.isascii (FileInfo.name (obj (inventory_files tree s) r)) = true
  /\ Py.lower (snd (Py.splitext (FileInfo.name (obj (inventory_files tree s) r)))) ∈ exts.
Proof.
  intros He Hne Hok Hr. split; [|by apply (inventory_record_ext tree s exts r)].
  apply (found_ascii s tree); [done|].
  rewrite <- inventory_files_lists_found. apply list_elem_of_fmap. by exists r.
Qed.

Lemma inventory_passes_filter_witness :
  let s' := inventory_files nested_tree (new_scanner "/d" true 1 (Some [".txt"])) in
  map (fun r => FileInfo.path (obj s' r)) (file_inventory s')
  = ["/d/a.TXT"; "/d/sub/c.txt"; "/d/sub/deep/d.Txt"]
  /\ Py.isascii (FileInfo.name (obj s' 0)) = true
  /\ Py.lower (snd (Py.splitext (FileInfo.name (obj s' 0)))) ∈ [".txt"].
Proof.
  split; [vm_compute; reflexivity|].
  apply (inventory_passes_filter nested_tree (new_scanner "/d" true 1 (Some [".txt"]))
           [".txt"] 0 eq_refl); [discriminate| |].
  - vm_compute. reflexivity.
  - vm_compute. constructor.
Defined.

(** X6.  The filter is compared with the lower-cased extension of the
    file, and is not itself put in lower case: when no entry of a
    non-empty filter is in lower case, the inventory is empty. *)
Theorem filter_with_capitals_matches_nothing (tree : list node) (s : FileScanner)
    (exts : list string) :
  file_extensions s = Some exts ->
  exts <> [] ->
  Forall (fun e => Py.lower e <> e) exts ->
  file_inventory (inventory_files tree s) = [].
Proof.
  intros He Hne Hcap.
  destruct (file_inventory (inventory_files tree s)) as [|r l] eqn:Hinv; [done|].
  exfalso.
  assert (Hr : r ∈ file_inventory (inventory_files tree s)) by (rewrite Hinv; constructor).
  pose proof (inventory_record_ext tree s exts r He Hne Hr) as Hin.
  apply (proj1 (Forall_forall _ _) Hcap) in Hin. apply Hin, lower_idem.
Qed.

Lemma filter_with_capitals_matches_nothing_witness :
  file_inventory (inventory_files nested_tree (new_scanner "/d" true 1 (Some [".TXT"; ".Pdf"])))
  = [].
Proof.
  apply (filter_with_capitals_matches_nothing nested_tree
           (new_scanner "/d" true 1 (Some [".TXT"; ".Pdf"])) [".TXT"; ".Pdf"] eq_refl).
  - discriminate.
  - repeat constructor; vm_compute; discriminate.
Defined.

(** ** What process_files yields and lists *)

Lemma hash_loop_all_yields env hf rest :
  forall s,
    (forall i, hf i = _calculate_file_hash env (FileInfo.path (obj s i))) ->
    snd (hash_loop_all env s rest) = omap (fun r => pair r <$> hf r) rest.
Proof.
  induction rest as [|i rest IH]; intros s Hhf; [done|].
  cbn [hash_loop_all omap list_omap]. rewrite <- Hhf.
  destruct (hf i) as [h|] eqn:Hi; simpl.
  - specialize (IH (record_hash i h s)).
    destruct (hash_loop_all env (record_hash i h s) rest) as [s1 ys]. simpl in *.
    f_equal. apply IH. intros i'. rewrite record_hash_paths. apply Hhf.
  - by apply IH.
Qed.

(** X7.  [process_files] yields the records of the inventory whose hash
    can be computed, in the order of the inventory, each with its hash;
    the records whose hash fails are passed over without a trace. *)
Theorem process_files_yields (env : Env) (s : FileScanner) :
  snd (process_files env s)
  = omap (fun r => pair r <$> _calculate_file_hash env (FileInfo.path (obj s r)))
         (file_inventory s).
Proof.
  unfold process_files.
  pose proof (hash_loop_all_yields env
                (fun r => _calculate_file_hash env (FileInfo.path (obj s r)))
                (file_inventory s) s (fun _ => eq_refl)) as H.
  by destruct (hash_loop_all env s (file_inventory s)).
Qed.

Lemma hits_pos_iff hf r k rest : 0 < hits hf r k rest <-> r ∈ rest /\ hf r = Some k.
Proof.
  split; [|intros [? ?]; by apply hits_pos].
  induction rest as [|i rest IH]; simpl; [lia|].
  case_bool_decide as H.
  - destruct H as [-> H]. intros _. split; [constructor | done].
  - intros Hpos. destruct IH as [Hin Hh]; [lia|]. split; [by constructor | done].
Qed.

(** X8.  After one run of [process_files] on a session whose
    exact-duplicate index is empty, a record is listed under a key
    exactly when it is a record of the inventory and the key is the hash
    computed for it; the [content_hash] of the record is then that key. *)
Theorem duplicate_index_after_first_run (env : Env) (s : FileScanner)
    (r : ref) (k : string) :
  duplicate_map s = [] ->
  Forall (fun i => i < length (objects s)) (file_inventory s) ->
  let s' := fst (process_files env s) in
  (r ∈ entry (duplicate_map s') k
   <-> r ∈ file_inventory s /\ _calculate_file_hash env (FileInfo.path (obj s r)) = Some k)
  /\ (r ∈ entry (duplicate_map s') k -> FileInfo.content_hash (obj s' r) = Some k).
Proof.
  intros Hempty Hvalid s'. subst s'. rewrite process_files_fst.
  set (hf := fun i => _calculate_file_hash env (FileInfo.path (obj s i))).
  assert (Hhf : forall i, hf i = _calculate_file_hash env (FileInfo.path (obj s i))) by done.
  destruct (hash_loop_all_counts env hf (file_inventory s) s Hhf)
    as (_ & _ & _ & _ & _ & C & _).
  destruct (_group_similar_pdfs_keeps env (fst (hash_loop_all env s (file_inventory s))))
    as (D & _ & _ & _ & _ & H).
  rewrite D, H.
  assert (Hiff : r ∈ entry (duplicate_map (fst (hash_loop_all env s (file_inventory s)))) k
                 <-> r ∈ file_inventory s /\ hf r = Some k).
  { rewrite <- hits_pos_iff. rewrite list_elem_of_In, (count_occ_In Nat.eq_dec).
    change (occurrences r (entry (duplicate_map (fst (hash_loop_all env s (file_inventory s)))) k) > 0
            <-> 0 < hits hf r k (file_inventory s)).
    rewrite C, Hempty. unfold entry, occurrences. simpl. lia. }
  split; [exact Hiff|].
  intros [Hin Hh]%Hiff. apply (hash_loop_all_sets_hash env hf); try done.
  by apply (proj1 (Forall_forall _ _) Hvalid).
Qed.

Lemma duplicate_index_after_first_run_witness :
  let s' := fst (process_files sample_env three_files_scanned) in
  (1 ∈ entry (duplicate_map s') (MD5.hexdigest (list_byte_of_string "abc"))
   <-> 1 ∈ file_inventory three_files_scanned
       /\ _calculate_file_hash sample_env (FileInfo.path (obj three_files_scanned 1))
          = Some (MD5.hexdigest (list_byte_of_string "abc")))
  /\ (1 ∈ entry (duplicate_map s') (MD5.hexdigest (list_byte_of_string "abc")) ->
      FileInfo.content_hash (obj s' 1) = Some (MD5.hexdigest (list_byte_of_string "abc"))).
Proof.
  apply (duplicate_index_after_first_run sample_env three_files_scanned 1).
  - vm_compute. reflexivity.
  - vm_compute. repeat constructor.
Defined.

(** ** Resuming the generator *)

(** X9.  Resuming the generator of [process_files] until it is exhausted
    gives, step by step, the session and the pairs of the complete run;
    as many resumptions as there are records, and one more, suffice. *)
Theorem drain_is_process_files (env : Env) (s : FileScanner) :
  drain (S (length (file_inventory s))) env s (file_inventory s)
  = Some (process_files env s).
Proof.
  unfold process_files.
  assert (H : forall rest fuel s0,
             length rest < fuel ->
             drain fuel env s0 rest
             = Some (let '(s', ys) := hash_loop_all env s0 rest in
                     (_group_similar_pdfs env s', ys))).
  { induction rest as [|r rest IH]; intros fuel s0 Hfuel;
      (destruct fuel as [|fuel]; [simpl in Hfuel; lia|]).
    - reflexivity.
    - cbn [drain next hash_loop_all].
      destruct (_calculate_file_hash env (FileInfo.path (obj s0 r))) as [h|] eqn:Hh.
      + rewrite IH by (simpl in Hfuel; lia).
        by destruct (hash_loop_all env (record_hash r h s0) rest).
      + specialize (IH (S fuel) s0). cbn [drain] in IH. apply IH. simpl in Hfuel. lia. }
  apply H. lia.
Qed.

(** ** Identifiers of groups *)

Lemma startswith_nil s : Py.startswith s "" = true.
Proof. by destruct s. Qed.

Lemma mint_sim env name i j : Py.startswith (mint env name i j) "sim_" = true.
Proof. unfold mint. simpl. apply startswith_nil. Qed.

Lemma hex_digit_not_s z : Ascii.eqb (MD5.hex_digit z) "s" = false.
Proof.
  unfold MD5.hex_digit. generalize (Z.to_nat z). intros n.
  do 16 (destruct n as [|n]; [reflexivity|]). by destruct n.
Qed.

(** a fingerprint is made of hexadecimal digits: it is no [sim_] id *)
Lemma hexdigest_not_sim msg : Py.startswith (MD5.hexdigest msg) "sim_" = false.
Proof.
  unfold MD5.hexdigest, MD5.digest.
  destruct (fold_left _ _ _) as [[[a b] c] d].
  cbn [MD5.le_bytes app MD5.hex Py.startswith]. unfold Py.chr_eqb.
  by rewrite hex_digit_not_s.
Qed.

Lemma file_hash_not_sim env p h :
  _calculate_file_hash env p = Some h -> Py.startswith h "sim_" = false.
Proof.
  unfold _calculate_file_hash. destruct (open_rb env p) as [content|]; [|done].
  generalize (hash_loop buffer_size content []). intros msg [= <-].
  apply hexdigest_not_sim.
Qed.

Lemma choose_group_sim a b fresh :
  (forall g, a = Some g -> Py.startswith g "sim_" = true) ->
  (forall g, b = Some g -> Py.startswith g "sim_" = true) ->
  Py.startswith fresh "sim_" = true ->
  Py.startswith (choose_group a b fresh) "sim_" = true.
Proof.
  intros Ha Hb Hf. unfold choose_group, Py.or_, Py.truthy.
  destruct a as [ga|], b as [gb|]; simpl;
    repeat (match goal with |- context [String.eqb ?x ""] => destruct (String.eqb x "") end;
            simpl);
    auto.
Qed.

Lemma steps_to_refl s : steps_to s s.
Proof. split; [by repeat split | auto]. Qed.

Lemma steps_to_trans s1 s2 s3 : steps_to s1 s2 -> steps_to s2 s3 -> steps_to s1 s3.
Proof.
  intros [(A1 & A2 & A3) HA] [(B1 & B2 & B3) HB].
  split; [repeat split; congruence | auto].
Qed.

Lemma fold_steps {A : Type} (f : FileScanner -> A -> FileScanner) (l : list A) :
  (forall s x, steps_to s (f s x)) -> forall s, steps_to s (fold_left f l s).
Proof.
  intros Hf. induction l as [|x l IH]; intros s; simpl.
  - apply steps_to_refl.
  - eapply steps_to_trans; [apply Hf | apply IH].
Qed.

Lemma set_similarity_group_steps r g s :
  Py.startswith g "sim_" = true -> steps_to s (set_similarity_group r g s).
Proof.
  intros Hg. split; [done|]. intros (K & S & O). split; [done|]. split; [done|].
  intros r' g'. unfold set_similarity_group, obj. simpl.
  destruct (decide (r' = r)) as [->|Hne].
  - destruct (decide (r < length (objects s))) as [Hlt|Hge].
    + rewrite nth_insert_eq by done. simpl. by intros [= <-].
    + rewrite list_insert_ge by lia. apply O.
  - rewrite nth_insert_ne by done. apply O.
Qed.

Lemma set_group_entry_steps g l s :
  Py.startswith g "sim_" = true ->
  steps_to s (with_similarity_groups (Dict.set (similarity_groups s) g l) s).
Proof.
  intros Hg. split; [done|]. intros (K & S & O). split; [|split; [|done]].
  - by apply keys_unique_set.
  - intros k. simpl. rewrite dict_set_keys.
    destruct (Dict.mem _ _); [apply S|].
    intros [?| ->%list_elem_of_singleton]%elem_of_app; [by apply S | done].
Qed.

Lemma group_add_steps g r s :
  Py.startswith g "sim_" = true -> steps_to s (group_add g r s).
Proof.
  intros Hg. unfold group_add. destruct (Dict.get _ _); [|apply steps_to_refl].
  destruct (obj_in _ _ _); [apply steps_to_refl | by apply set_group_entry_steps].
Qed.

Lemma join_group_steps env name i j ri rj s :
  sim_ok s -> steps_to s (join_group env name i j ri rj s).
Proof.
  intros Hok. unfold join_group.
  set (g := choose_group _ _ _).
  assert (Hg : Py.startswith g "sim_" = true).
  { destruct Hok as (_ & _ & O).
    apply choose_group_sim; [apply O | apply O | apply mint_sim]. }
  eapply steps_to_trans; [|by apply group_add_steps].
  eapply steps_to_trans; [|by apply group_add_steps].
  eapply steps_to_trans; [by apply (set_similarity_group_steps ri g)|].
  eapply steps_to_trans; [by apply (set_similarity_group_steps rj g)|].
  destruct (Dict.mem _ _); [apply steps_to_refl | by apply set_group_entry_steps].
Qed.

Lemma steps_to_weaken s s' : (sim_ok s -> steps_to s s') -> same_config s s' -> steps_to s s'.
Proof. intros H Hc. split; [done|]. intros Hok. by apply H. Qed.

Lemma join_group_config env name i j ri rj s :
  same_config s (join_group env name i j ri rj s).
Proof.
  unfold join_group. set (g := choose_group _ _ _).
  unfold group_add at 1.
  destruct (Dict.get _ _); [destruct (obj_in _ _ _)|];
    unfold group_add; destruct (Dict.get _ _); try destruct (obj_in _ _ _);
    destruct (Dict.mem _ _); done.
Qed.

Lemma compare_pair_steps env name files s ij : steps_to s (compare_pair env name files s ij).
Proof.
  destruct ij as [i j]. unfold compare_pair.
  destruct (files !! i); [|apply steps_to_refl].
  destruct (files !! j); [|apply steps_to_refl].
  destruct (FileInfo.opt_eqb _ _); [apply steps_to_refl|].
  destruct (calculate_pdf_similarity _ _ _); [|apply steps_to_refl].
  destruct (Qle_bool _ _); [|apply steps_to_refl].
  apply steps_to_weaken; [apply join_group_steps | apply join_group_config].
Qed.

Lemma _group_similar_pdfs_steps env s : steps_to s (_group_similar_pdfs env s).
Proof.
  unfold _group_similar_pdfs. destruct (filter _ _); [apply steps_to_refl|].
  apply fold_steps. intros s0 [name files]. unfold group_name.
  destruct (_ || _); [apply steps_to_refl|].
  apply fold_steps. intros. apply compare_pair_steps.
Qed.

Lemma record_hash_steps r h s : steps_to s (record_hash r h s).
Proof.
  split; [done|]. intros (K & S & O). split; [done|]. split; [done|].
  intros r' g. unfold record_hash, obj. simpl.
  rewrite (nth_insert_proj FileInfo.similarity_group) by done. apply O.
Qed.

Lemma hash_loop_all_steps env rest : forall s, steps_to s (fst (hash_loop_all env s rest)).
Proof.
  induction rest as [|r rest IH]; intros s; [apply steps_to_refl|].
  rewrite hash_loop_all_cons. destruct (_calculate_file_hash _ _); [|apply IH].
  eapply steps_to_trans; [apply record_hash_steps | apply IH].
Qed.

Lemma process_files_steps env s : steps_to s (fst (process_files env s)).
Proof.
  rewrite process_files_fst.
  eapply steps_to_trans; [apply hash_loop_all_steps | apply _group_similar_pdfs_steps].
Qed.

Lemma inventory_files_steps tree s : steps_to s (inventory_files tree s).
Proof.
  split.
  - rewrite inventory_files_found.
    apply (same_config_add_infos (found s tree) (with_file_inventory [] s)).
  - intros (K & S & O).
    destruct (inventory_files_records tree s) as (_ & _ & G & Hold & Hnew).
    rewrite inventory_files_found in *.
    destruct (add_infos_spec (found s tree) (with_file_inventory [] s)) as (Ob & I & _).
    simpl in Ob, I.
    split; [by rewrite G|]. split; [by rewrite G|].
    intros r g Hg.
    destruct (decide (r < length (objects s))) as [Hlt|Hge].
    + rewrite Hold in Hg by done. by apply (O r).
    + destruct (decide (r < length (objects s) + length (found s tree))) as [Hlt2|Hge2].
      * destruct (Hnew r) as (_ & _ & Hnone & _); [|congruence].
        rewrite I. apply elem_of_seq. lia.
      * unfold obj in Hg. rewrite Ob, nth_overflow in Hg; [done|].
        rewrite length_app. lia.
Qed.

(** ** Sessions made by scans *)

Lemma session_ok_new base subdirs threshold exts :
  session_ok (new_scanner base subdirs threshold exts).
Proof.
  repeat split; try apply NoDup_nil_2; try (intros k Hk; by apply elem_of_nil in Hk).
  intros r g. unfold obj. simpl. by destruct r.
Qed.

Lemma dict_append_keys d h r k :
  k ∈ map fst (dict_append d h r) -> k ∈ map fst d \/ k = h.
Proof.
  unfold dict_append, Dict.mem.
  destruct (Dict.get d h) as [l|] eqn:G.
  - rewrite G, dict_set_keys. unfold Dict.mem. rewrite G. by left.
  - rewrite dict_get_set_eq, !dict_set_keys. unfold Dict.mem.
    rewrite dict_get_set_eq, G.
    intros [?| ->%list_elem_of_singleton]%elem_of_app; auto.
Qed.

Lemma add_infos_name_keys infos :
  forall s, keys_unique (name_map s) -> keys_unique (name_map (fold_left add_info infos s)).
Proof.
  induction infos as [|x infos IH]; intros s H; [done|].
  simpl. apply IH. unfold add_info. simpl. by apply keys_unique_dict_append.
Qed.

Lemma session_ok_inventory_files tree s :
  session_ok s -> session_ok (inventory_files tree s).
Proof.
  intros (D & N & H & S).
  destruct (inventory_files_records tree s) as (_ & Hd & _).
  split; [by rewrite Hd|]. split; [|split; [by rewrite Hd|]].
  - rewrite inventory_files_found. by apply add_infos_name_keys.
  - by apply inventory_files_steps.
Qed.

Lemma hash_loop_all_dup_keys env rest :
  forall s,
    keys_unique (duplicate_map s) ->
    (forall k, k ∈ map fst (duplicate_map s) -> Py.startswith k "sim_" = false) ->
    keys_unique (duplicate_map (fst (hash_loop_all env s rest)))
    /\ (forall k, k ∈ map fst (duplicate_map (fst (hash_loop_all env s rest))) ->
                  Py.startswith k "sim_" = false).
Proof.
  induction rest as [|r rest IH]; intros s K H; [done|].
  rewrite hash_loop_all_cons.
  destruct (_calculate_file_hash env (FileInfo.path (obj s r))) as [h|] eqn:Hh; [|by apply IH].
  apply IH; unfold record_hash; simpl.
  - by apply keys_unique_dict_append.
  - intros k [Hk| ->]%dict_append_keys; [by apply H|].
    by apply (file_hash_not_sim env _ _ Hh).
Qed.

Lemma session_ok_process_files env s :
  session_ok s -> session_ok (fst (process_files env s)).
Proof.
  intros (D & N & H & S).
  destruct (process_files_steps env s) as [_ Hs].
  rewrite process_files_fst in *.
  destruct (_group_similar_pdfs_keeps env (fst (hash_loop_all env s (file_inventory s))))
    as (Hd & Hn & _).
  destruct (hash_loop_all_counts env (fun i => _calculate_file_hash env (FileInfo.path (obj s i)))
              (file_inventory s) s (fun _ => eq_refl)) as (Hn' & _).
  destruct (hash_loop_all_dup_keys env (file_inventory s) s D H) as [D' H'].
  split; [by rewrite Hd|]. split; [by rewrite Hn, Hn'|]. split; [by rewrite Hd|]. auto.
Qed.

Lemma file_hash_of_content env p content :
  open_rb env p = Some content -> _calculate_file_hash env p = Some (MD5.hexdigest content).
Proof.
  intros H. unfold _calculate_file_hash. rewrite H.
  rewrite hash_loop_feeds by (unfold buffer_size; lia). done.
Qed.

Lemma hashed_record_listed env s r h :
  r ∈ file_inventory s ->
  _calculate_file_hash env (FileInfo.path (obj s r)) = Some h ->
  r ∈ entry (duplicate_map (fst (process_files env s))) h.
Proof.
  intros Hr Hh. rewrite process_files_fst.
  set (hf := fun i => _calculate_file_hash env (FileInfo.path (obj s i))).
  destruct (hash_loop_all_counts env hf (file_inventory s) s (fun _ => eq_refl))
    as (_ & _ & _ & _ & _ & C & _).
  destruct (_group_similar_pdfs_keeps env (fst (hash_loop_all env s (file_inventory s))))
    as (D & _).
  rewrite D. apply list_elem_of_In, (count_occ_In Nat.eq_dec).
  change (occurrences r (entry (duplicate_map (fst (hash_loop_all env s (file_inventory s)))) h) > 0).
  rewrite C. pose proof (hits_pos hf r h (file_inventory s) Hr Hh). lia.
Qed.

Lemma entry_get d k r : r ∈ entry d k -> Dict.get d k = Some (entry d k).
Proof.
  unfold entry. destruct (Dict.get d k); [done|]. simpl. intros H. by apply elem_of_nil in H.
Qed.

(** a group of the exact-duplicate index with two records is reported *)
Lemma hash_group_reported s h r1 r2 :
  session_ok s -> Py.startswith h "sim_" = false ->
  r1 <> r2 -> r1 ∈ entry (duplicate_map s) h -> r2 ∈ entry (duplicate_map s) h ->
  Dict.get (get_duplicate_groups s) h = Some (entry (duplicate_map s) h).
Proof.
  intros (D & _ & _ & K & S & _) Hh Hne H1 H2.
  rewrite duplicate_groups_get by done. cbn zeta.
  assert (Hnone : Dict.get (similarity_groups s) h = None).
  { apply dict_get_None. intros Hk. apply S in Hk. congruence. }
  rewrite Hnone, (entry_get _ _ _ H1).
  pose proof (two_members _ _ _ Hne H1 H2) as Hlen.
  apply Nat.ltb_lt in Hlen. by rewrite Hlen.
Qed.

(** X10.  Two different records of the inventory whose files can be read
    and hold the same bytes are reported together by
    [get_duplicate_groups] after [process_files], under the MD5 of those
    bytes. *)
Theorem identical_files_reported_together (env : Env) (s : FileScanner)
    (r1 r2 : ref) (content : list byte) :
  session_ok s ->
  r1 <> r2 ->
  r1 ∈ file_inventory s ->
  r2 ∈ file_inventory s ->
  open_rb env (FileInfo.path (obj s r1)) = Some content ->
  open_rb env (FileInfo.path (obj s r2)) = Some content ->
  exists files,
    Dict.get (get_duplicate_groups (fst (process_files env s))) (MD5.hexdigest content)
    = Some files
    /\ r1 ∈ files /\ r2 ∈ files.
Proof.
  intros Hok Hne H1 H2 O1 O2.
  apply file_hash_of_content in O1, O2.
  pose proof (hashed_record_listed env s r1 _ H1 O1) as L1.
  pose proof (hashed_record_listed env s r2 _ H2 O2) as L2.
  eexists. split; [|split; [exact L1 | exact L2]].
  apply (hash_group_reported _ _ r1 r2); try done.
  - by apply session_ok_process_files.
  - apply hexdigest_not_sim.
Qed.

Lemma identical_files_reported_together_witness :
  let s := inventory_files abc_tree (new_scanner "/d" true 1 None) in
  get_duplicate_groups (fst (process_files abc_env s))
  = [("900150983cd24fb0d6963f7d28e17f72", [0; 1])]
  /\ exists files,
       Dict.get (get_duplicate_groups (fst (process_files abc_env s)))
                (MD5.hexdigest (list_byte_of_string "abc")) = Some files
       /\ 0 ∈ files /\ 1 ∈ files.
Proof.
  split; [vm_compute; reflexivity|].
  apply (identical_files_reported_together abc_env
           (inventory_files abc_tree (new_scanner "/d" true 1 None)) 0 1).
  - apply session_ok_inventory_files, session_ok_new.
  - discriminate.
  - vm_compute. constructor.
  - vm_compute. do 2 constructor.
  - vm_compute. reflexivity.
  - vm_compute. reflexivity.
Defined.

Lemma process_files_paths env s :
  length (objects (fst (process_files env s))) = length (objects s)
  /\ (forall r, FileInfo.path (obj (fst (process_files env s)) r) = FileInfo.path (obj s r))
  /\ (forall k l, Dict.get (duplicate_map s) k = Some l ->
        exists l', Dict.get (duplicate_map (fst (process_files env s))) k = Some (l ++ l')).
Proof.
  rewrite process_files_fst.
  destruct (hash_loop_all_counts env (fun i => _calculate_file_hash env (FileInfo.path (obj s i)))
              (file_inventory s) s (fun _ => eq_refl)) as (_ & _ & _ & L & P & _ & M).
  destruct (_group_similar_pdfs_keeps env (fst (hash_loop_all env s (file_inventory s))))
    as (D & _ & _ & L' & P' & _).
  split; [congruence|]. split; [intros r; by rewrite P', P|].
  intros k l Hl. rewrite D. by apply M.
Qed.

Lemma inventory_record_at tree s i file_info :
  found s tree !! i = Some file_info ->
  (length (objects s) + i) ∈ file_inventory (inventory_files tree s)
  /\ obj (inventory_files tree s) (length (objects s) + i) = file_info
  /\ length (objects (inventory_files tree s)) = length (objects s) + length (found s tree).
Proof.
  intros Hi. rewrite inventory_files_found.
  destruct (add_infos_spec (found s tree) (with_file_inventory [] s)) as (O & I & _).
  simpl in O, I. rewrite I. unfold obj. rewrite O, length_app.
  split; [|split; [|done]].
  - apply elem_of_seq. apply lookup_lt_Some in Hi. lia.
  - rewrite <- (app_nil_r (found s tree)). by apply nth_app_offset.
Qed.

(** X11.  The application scans again on the scanner it has, after files
    were deleted.  When nothing else changed, every file found whose
    bytes can be read is then reported by [get_duplicate_groups] as a
    duplicate of itself: the group of its hash lists two records with its
    path, the one of the first scan and the one of the second. *)
Theorem rescan_reports_every_file (tree : list node) (env : Env) (s : FileScanner)
    (file_info : FileInfo.t) (content : list byte) :
  session_ok s ->
  file_info ∈ found s tree ->
  open_rb env (FileInfo.path file_info) = Some content ->
  let s2 := scan tree env (scan tree env s) in
  exists files r1 r2,
    Dict.get (get_duplicate_groups s2) (MD5.hexdigest content) = Some files
    /\ r1 <> r2 /\ r1 ∈ files /\ r2 ∈ files
    /\ FileInfo.path (obj s2 r1) = FileInfo.path file_info
    /\ FileInfo.path (obj s2 r2) = FileInfo.path file_info.
Proof.
  intros Hok Hin Hopen s2. subst s2. unfold scan.
  apply list_elem_of_lookup in Hin as [i Hi].
  apply file_hash_of_content in Hopen.
  set (s1a := inventory_files tree s).
  set (s1 := fst (process_files env s1a)).
  set (s2a := inventory_files tree s1).
  set (h := MD5.hexdigest content) in *.
  (* the first scan *)
  destruct (inventory_record_at tree s i file_info Hi) as (Hr1 & Ho1 & Hlen1).
  fold s1a in Hr1, Ho1, Hlen1.
  set (r1 := length (objects s) + i) in *.
  destruct (process_files_paths env s1a) as (L1 & P1 & _). fold s1 in L1, P1.
  assert (E1 : r1 ∈ entry (duplicate_map s1) h).
  { apply hashed_record_listed; [done|]. by rewrite Ho1. }
  (* the second scan *)
  assert (Hc : same_config s s1).
  { destruct (inventory_files_steps tree s) as [(A & B & C) _].
    destruct (process_files_steps env s1a) as [(A' & B' & C') _].
    fold s1a in A, B, C. fold s1 in A', B', C'. repeat split; congruence. }
  assert (Hi2 : found s1 tree !! i = Some file_info) by (by rewrite (found_config s s1)).
  destruct (inventory_record_at tree s1 i file_info Hi2) as (Hr2 & Ho2 & _).
  fold s2a in Hr2, Ho2.
  set (r2 := length (objects s1) + i) in *.
  destruct (inventory_files_records tree s1) as (_ & Hd & _ & Hold & _).
  fold s2a in Hd, Hold.
  assert (Hlt : r1 < length (objects s1)).
  { rewrite L1, Hlen1. unfold r1. apply lookup_lt_Some in Hi. lia. }
  destruct (process_files_paths env s2a) as (_ & P2 & M2).
  assert (E2 : r2 ∈ entry (duplicate_map (fst (process_files env s2a))) h).
  { apply hashed_record_listed; [done|]. by rewrite Ho2. }
  assert (E1' : r1 ∈ entry (duplicate_map (fst (process_files env s2a))) h).
  { pose proof (entry_get _ _ _ E1) as G. rewrite <- Hd in G.
    destruct (M2 _ _ G) as [l' Hl']. unfold entry at 1. rewrite Hl'.
    change (r1 ∈ entry (duplicate_map s2a) h ++ l').
    apply elem_of_app. left. rewrite Hd. exact E1. }
  exists (entry (duplicate_map (fst (process_files env s2a))) h), r1, r2.
  split; [|split; [unfold r1, r2; lia|]].
  - apply (hash_group_reported _ _ r1 r2); try done; [|apply hexdigest_not_sim | unfold r1, r2; lia].
    apply session_ok_process_files, session_ok_inventory_files,
      session_ok_process_files, session_ok_inventory_files, Hok.
  - split; [done|]. split; [done|]. split.
    + by rewrite P2, Hold, P1, Ho1.
    + by rewrite P2, Ho2.
Qed.

Lemma rescan_reports_every_file_witness :
  let s2 := scan abc_tree abc_env (scan abc_tree abc_env (new_scanner "/d" true 1 None)) in
  get_duplicate_groups (scan abc_tree abc_env (new_scanner "/d" true 1 None))
  = [("900150983cd24fb0d6963f7d28e17f72", [0; 1])]
  /\ get_duplicate_groups s2
     = [("900150983cd24fb0d6963f7d28e17f72", [0; 1; 3; 4]);
        ("d16fb36f0911f878998c136191af705e", [2; 5])]
  /\ exists files r1 r2,
       Dict.get (get_duplicate_groups s2) (MD5.hexdigest (list_byte_of_string "xyz"))
       = Some files
       /\ r1 <> r2 /\ r1 ∈ files /\ r2 ∈ files
       /\ FileInfo.path (obj s2 r1) = "/d/c.txt" /\ FileInfo.path (obj s2 r2) = "/d/c.txt".
Proof.
  split; [vm_compute; reflexivity|]. split; [vm_compute; reflexivity|].
  apply (rescan_reports_every_file abc_tree abc_env (new_scanner "/d" true 1 None)
           (FileInfo.mk "/d/c.txt" "c.txt" 3 100 None None)).
  - apply session_ok_new.
  - vm_compute. do 2 constructor. constructor.
  - vm_compute. reflexivity.
Defined.

(** ** The similarity pass and the exact duplicates *)

Lemma filter_none {A : Type} (P : A -> bool) (l : list A) :
  Forall (fun x => P x = false) l -> filter (fun x => P x = true) l = [].
Proof.
  induction 1 as [|x l Hx Hl IH]; [done|].
  rewrite filter_cons. destruct (decide _) as [Ht|_]; [congruence | exact IH].
Qed.

(** X12.  [_group_similar_pdfs] changes neither the inventory nor the name
    index nor the exact-duplicate index, and no path and no hash of any
    object; without a [.pdf] path in the inventory it changes nothing at
    all. *)
Theorem similarity_pass_keeps_exact_results (env : Env) (s : FileScanner) :
  let s' := _group_similar_pdfs env s in
  duplicate_map s' = duplicate_map s
  /\ name_map s' = name_map s
  /\ file_inventory s' = file_inventory s
  /\ (forall r, FileInfo.path (obj s' r) = FileInfo.path (obj s r)
                /\ FileInfo.content_hash (obj s' r) = FileInfo.content_hash (obj s r))
  /\ (Forall (fun r => Py.endswith (Py.lower (FileInfo.path (obj s r))) ".pdf" = false)
             (file_inventory s) -> s' = s).
Proof.
  intros s'. subst s'.
  destruct (_group_similar_pdfs_keeps env s) as (D & N & I & _ & P & H).
  split; [done|]. split; [done|]. split; [done|]. split; [by split|].
  intros Hno. unfold _group_similar_pdfs.
  by rewrite (filter_none _ _ Hno).
Qed.

Lemma similarity_pass_keeps_exact_results_witness :
  let s := fst (hash_loop_all abc_env (inventory_files abc_tree (new_scanner "/d" true 1 None))
                  [0; 1; 2]) in
  _group_similar_pdfs abc_env s = s.
Proof.
  intros s.
  destruct (similarity_pass_keeps_exact_results abc_env s) as (_ & _ & _ & _ & H).
  apply H. vm_compute. repeat constructor.
Defined.

(** ** The score *)

Lemma ratio_bounds i u : i <= u -> Qle 0 (ratio i u) /\ Qle (ratio i u) 1.
Proof.
  intros Hle. unfold ratio. destruct (0 <? u)%nat eqn:E; [|done].
  apply Nat.ltb_lt in E. rewrite Qred_correct. unfold Qle. simpl.
  rewrite <- (positive_nat_Z (Pos.of_nat u)), Nat2Pos.id by lia. lia.
Qed.

Lemma jaccard_bounds (s1 s2 : gset string) :
  Qle 0 (jaccard s1 s2) /\ Qle (jaccard s1 s2) 1.
Proof.
  unfold jaccard. destruct (_ || _); [done|].
  apply ratio_bounds, subseteq_size. intros x [Hx _]%elem_of_intersection.
  apply elem_of_union. by left.
Qed.

(** X13.  Whatever tier computes it, a score is between 0 and 1. *)
Theorem similarity_score_bounds (env : Env) (p1 p2 : string) (score : Q) :
  calculate_pdf_similarity env p1 p2 = Some score ->
  Qle 0 score /\ Qle score 1.
Proof.
  assert (T1 : forall q, _calculate_similarity_pypdf2 env p1 p2 = Some q ->
                         Qle 0 q /\ Qle q 1).
  { unfold _calculate_similarity_pypdf2.
    destruct (pypdf2_text env p1); [|done]. destruct (pypdf2_text env p2); [|done].
    intros q [= <-]. apply jaccard_bounds. }
  assert (T2 : forall q, _calculate_similarity_pdfminer env p1 p2 = Some q ->
                         Qle 0 q /\ Qle q 1).
  { unfold _calculate_similarity_pdfminer.
    destruct (pdfminer_text env p1); [|done]. destruct (pdfminer_text env p2); [|done].
    intros q [= <-]. apply jaccard_bounds. }
  assert (T3 : forall q, _calculate_similarity_hash_based env p1 p2 = Some q ->
                         Qle 0 q /\ Qle q 1).
  { unfold _calculate_similarity_hash_based.
    destruct (get_file_blocks env p1); [|done]. destruct (get_file_blocks env p2); [|done].
    intros q [= <-]. apply jaccard_bounds. }
  unfold calculate_pdf_similarity.
  destruct (_calculate_similarity_pypdf2 env p1 p2) as [q1|]; [intros [= <-]; by apply T1|].
  destruct (_calculate_similarity_pdfminer env p1 p2) as [q2|]; [intros [= <-]; by apply T2|].
  apply T3.
Qed.

Lemma similarity_score_bounds_witness :
  calculate_pdf_similarity four_reports_env "/data/a/r.pdf" "/data/d/r.pdf" = Some (1 # 2)%Q
  /\ Qle 0 (1 # 2) /\ Qle (1 # 2) 1.
Proof.
  assert (H : calculate_pdf_similarity four_reports_env "/data/a/r.pdf" "/data/d/r.pdf"
              = Some (1 # 2)%Q) by (vm_compute; reflexivity).
  split; [exact H|].
  exact (similarity_score_bounds four_reports_env "/data/a/r.pdf" "/data/d/r.pdf" _ H).
Defined.

Lemma ratio_one i u : ratio i u = 1%Q -> i = u /\ 0 < u.
Proof.
  unfold ratio. destruct (0 <? u)%nat eqn:E; [|done].
  apply Nat.ltb_lt in E. intros H.
  assert (Heq : Qeq (Z.of_nat i # Pos.of_nat u) 1) by (rewrite <- H; symmetry; apply Qred_correct).
  unfold Qeq in Heq. simpl in Heq.
  rewrite <- (positive_nat_Z (Pos.of_nat u)), Nat2Pos.id in Heq by lia. lia.
Qed.

Lemma jaccard_one (s1 s2 : gset string) :
  jaccard s1 s2 = 1%Q <-> s1 = s2 /\ size s1 <> 0.
Proof.
  split.
  - unfold jaccard. destruct (size s1 =? 0)%nat eqn:E1; [done|].
    destruct (size s2 =? 0)%nat eqn:E2; [done|]. simpl.
    intros [Heq _]%ratio_one. apply Nat.eqb_neq in E1. split; [|done].
    assert (H : s1 ∩ s2 = s1 ∪ s2).
    { apply set_subseteq_size_eq; [|lia].
      intros x [Hx _]%elem_of_intersection. apply elem_of_union. by left. }
    apply set_eq. intros x. split; intros Hx.
    + assert (Hi : x ∈ s1 ∩ s2) by (rewrite H; apply elem_of_union; by left).
      by apply elem_of_intersection in Hi as [_ ?].
    + assert (Hi : x ∈ s1 ∩ s2) by (rewrite H; apply elem_of_union; by right).
      by apply elem_of_intersection in Hi as [? _].
  - intros [-> H]. by apply jaccard_self.
Qed.

Lemma jaccard_canonical (s1 s2 : gset string) : Qred (jaccard s1 s2) = jaccard s1 s2.
Proof.
  unfold jaccard, ratio. destruct (_ || _); [done|].
  destruct (0 <? _)%nat; [apply Qred_complete, Qred_correct | done].
Qed.

(** X14.  Two texts score 1 exactly when they have the same set of
    tokens and that set is not empty; so it is with the default threshold
    of 1.0 that a pair is taken as similar.  This holds whatever the
    Unicode database makes the tokens of a text. *)
Theorem score_one_iff_same_tokens (u : Unicode) (text1 text2 : string) :
  let words1 : gset string := list_to_set (_tokenize_text u text1) in
  let words2 : gset string := list_to_set (_tokenize_text u text2) in
  (_jaccard_similarity u text1 text2 = 1%Q
   <-> words1 = words2 /\ _tokenize_text u text1 <> [])
  /\ (Qle_bool 1 (_jaccard_similarity u text1 text2) = true
      <-> _jaccard_similarity u text1 text2 = 1%Q).
Proof.
  intros words1 words2. split.
  - unfold _jaccard_similarity. fold words1 words2.
    rewrite jaccard_one. unfold words1. by rewrite size_list_to_set_0.
  - unfold _jaccard_similarity. fold words1 words2. rewrite Qle_bool_iff. split.
    + intros Hle. destruct (jaccard_bounds words1 words2) as [_ Hle1].
      rewrite <- jaccard_canonical. change 1%Q with (Qred 1).
      apply Qred_complete. by apply Qle_antisym.
    + intros ->. apply Qle_refl.
Qed.

(** ** Tokens *)

Lemma lower_chr_class a :
  Py.is_word (Py.lower_chr a) = Py.is_word a /\ Py.is_space (Py.lower_chr a) = Py.is_space a.
Proof. destruct a as [[] [] [] [] [] [] [] []]; split; reflexivity. Qed.

Lemma strip_punct_lower s : Py.strip_punct (Py.lower s) = Py.lower (Py.strip_punct s).
Proof.
  induction s as [|a s IH]; [done|]. simpl.
  destruct (lower_chr_class a) as [-> ->].
  destruct (_ || _); simpl; by rewrite IH.
Qed.

Lemma strip_punct_idem s : Py.strip_punct (Py.strip_punct s) = Py.strip_punct s.
Proof.
  induction s as [|a s IH]; [done|]. simpl.
  destruct (Py.is_word a || Py.is_space a) eqn:E; [|done].
  simpl. by rewrite E, IH.
Qed.

Lemma isascii_lower s : Py.isascii s = true -> Py.isascii (Py.lower s) = true.
Proof.
  unfold Py.isascii. induction s as [|a s IH]; [done|]. simpl.
  intros [Ha Hs]%andb_prop. rewrite (IH Hs), andb_true_r.
  revert Ha. destruct a as [[] [] [] [] [] [] [] []]; vm_compute; congruence.
Qed.

Lemma isascii_strip_punct s : Py.isascii s = true -> Py.isascii (Py.strip_punct s) = true.
Proof.
  unfold Py.isascii. induction s as [|a s IH]; [done|]. simpl.
  intros [Ha Hs]%andb_prop. destruct (_ || _); [|by apply IH].
  simpl. by rewrite Ha, (IH Hs).
Qed.

(** on ASCII text every faithful database gives the same tokens *)
Lemma tokenize_ascii u text :
  ascii_faithful u -> Py.isascii text = true ->
  _tokenize_text u text = Py.split (Py.strip_punct (Py.lower text)).
Proof.
  intros Hu Ha. unfold _tokenize_text.
  destruct (Hu text Ha) as (-> & _ & _).
  destruct (Hu (Py.lower text) (isascii_lower _ Ha)) as (_ & -> & _).
  by destruct (Hu (Py.strip_punct (Py.lower text))
                 (isascii_strip_punct _ (isascii_lower _ Ha))) as (_ & _ & ->).
Qed.

(** X15.  The tokens of an ASCII text do not depend on the case of its
    letters, nor on its punctuation, which is deleted before the text is
    split: so neither changes a score.  Here [Py.lower text1] is the text
    in lower case and [Py.strip_punct text1] the text without its
    punctuation, and the Unicode database is any that treats ASCII text
    as Python's does. *)
Theorem tokens_ignore_case_and_punctuation (u : Unicode) (text1 text2 : string) :
  ascii_faithful u ->
  Py.isascii text1 = true ->
  _tokenize_text u (Py.lower text1) = _tokenize_text u text1
  /\ _tokenize_text u (Py.strip_punct text1) = _tokenize_text u text1
  /\ _jaccard_similarity u (Py.lower text1) text2 = _jaccard_similarity u text1 text2
  /\ _jaccard_similarity u (Py.strip_punct text1) text2 = _jaccard_similarity u text1 text2.
Proof.
  intros Hu Ha.
  assert (H1 : _tokenize_text u (Py.lower text1) = _tokenize_text u text1).
  { rewrite !tokenize_ascii by auto using isascii_lower. by rewrite lower_idem. }
  assert (H2 : _tokenize_text u (Py.strip_punct text1) = _tokenize_text u text1).
  { rewrite !tokenize_ascii by auto using isascii_strip_punct.
    by rewrite <- strip_punct_lower, strip_punct_idem, strip_punct_lower. }
  unfold _jaccard_similarity. by rewrite H1, H2.
Qed.

Lemma tokens_ignore_case_and_punctuation_witness :
  _tokenize_text ascii_range "Tax Report, 2023 (final)!" = ["tax"; "report"; "2023"; "final"]
  /\ _tokenize_text ascii_range (Py.lower "Tax Report, 2023 (final)!")
     = _tokenize_text ascii_range "Tax Report, 2023 (final)!"
  /\ _tokenize_text ascii_range (Py.strip_punct "Tax Report, 2023 (final)!")
     = _tokenize_text ascii_range "Tax Report, 2023 (final)!"
  /\ _jaccard_similarity ascii_range (Py.lower "Tax Report, 2023 (final)!") "tax report"
     = _jaccard_similarity ascii_range "Tax Report, 2023 (final)!" "tax report"
  /\ _jaccard_similarity ascii_range (Py.strip_punct "Tax Report, 2023 (final)!") "tax report"
     = _jaccard_similarity ascii_range "Tax Report, 2023 (final)!" "tax report".
Proof.
  split; [vm_compute; reflexivity|].
  apply (tokens_ignore_case_and_punctuation ascii_range "Tax Report, 2023 (final)!" "tax report").
  - intros text _. by repeat split.
  - vm_compute. reflexivity.
Defined.

(** ** Blocks *)

Lemma block_loop_step n rest blocks b chunk :
  take n rest = b :: chunk ->
  block_loop n rest blocks
  = block_loop n (drop n rest) ({[ MD5.hexdigest (b :: chunk) ]} ∪ blocks).
Proof.
  intros Htake. funelim (block_loop n rest blocks).
  - match goal with E : (read _ _).1 = [] |- _ => cbn in E; congruence end.
  - match goal with E : (read _ _).1 = _ :: _ |- _ => pose proof E as Hcons end.
    cbn in Hcons. rewrite Htake in Hcons. by injection Hcons as -> ->.
Qed.

Lemma block_loop_chunk n chunk rest blocks :
  0 < n -> length chunk = n ->
  block_loop n (chunk ++ rest) blocks
  = block_loop n rest ({[ MD5.hexdigest chunk ]} ∪ blocks).
Proof.
  intros Hn Hlen. destruct chunk as [|b chunk]; [simpl in Hlen; lia|].
  rewrite (block_loop_step n _ blocks b chunk) by (by rewrite take_app_length').
  by rewrite drop_app_length'.
Qed.

(** X16.  The byte-block tier compares the sets of the blocks of two
    files: neither the order of the blocks nor how often a block occurs
    counts.  Two files made of the same blocks of 4096 bytes score 1
    whatever the arrangement, although their bytes differ. *)
Theorem block_tier_ignores_arrangement (env : Env) (p1 p2 : string) (a b : list byte) :
  length a = 4096 ->
  length b = 4096 ->
  open_rb env p1 = Some (a ++ b) ->
  open_rb env p2 = Some (b ++ a ++ b) ->
  _calculate_similarity_hash_based env p1 p2 = Some 1%Q.
Proof.
  intros Ha Hb H1 H2. unfold _calculate_similarity_hash_based, get_file_blocks.
  rewrite H1, H2. f_equal.
  assert (Hn : 0 < 4096) by lia.
  assert (Hlast : forall blocks, block_loop 4096 b blocks
                                 = {[ MD5.hexdigest b ]} ∪ blocks).
  { intros blocks. rewrite <- (app_nil_r b) at 1.
    rewrite block_loop_chunk by done. apply block_loop_nil. }
  rewrite !block_loop_chunk by done. rewrite !Hlast.
  apply jaccard_one. split.
  - apply set_eq. intros x. rewrite !elem_of_union, !elem_of_singleton. tauto.
  - intros H0. apply size_empty_inv in H0.
    apply (not_elem_of_empty (C := gset string) (MD5.hexdigest b)).
    rewrite <- H0. apply elem_of_union. left. by apply elem_of_singleton.
Qed.

Lemma block_tier_ignores_arrangement_witness :
  block_a ++ block_b <> block_b ++ block_a ++ block_b
  /\ _calculate_similarity_hash_based shuffled_env "/d/one.pdf" "/d/two.pdf" = Some 1%Q.
Proof.
  split.
  - intros H. apply (f_equal length) in H. vm_compute in H. discriminate.
  - apply (block_tier_ignores_arrangement shuffled_env "/d/one.pdf" "/d/two.pdf"
             block_a block_b); reflexivity.
Defined.

(** ** The index the monitor starts with *)







(** ** Events, one after the other *)

Lemma organize_duplicate_outcome w m p :
  exists w' outcome,
    _organize_duplicate w m p = Some (w', log_activity w outcome m)
    /\ clock w' = clock w
    /\ forall q v, fs_files w !! q = Some v ->
         fs_files w' !! q = Some v
         \/ (q = p /\ exists dest, path_exists w dest = false /\ fs_files w' !! dest = Some v).
Proof.
  unfold _organize_duplicate.
  destruct (os_makedirs w (organize_path m)) as [err|w1] eqn:Hmk.
  - eexists _, _. split; [done|]. split; [done|]. intros q v Hq. by left.
  - destruct (os_makedirs_same _ _ _ Hmk) as (Hfiles & Hclock & _ & _ & Hex).
    destruct (free_name_enough w1 (organize_path m) (Py.basename p) 1
                (Py.join (organize_path m) (Py.basename p))) as [dest Hdest].
    rewrite Hdest. apply free_name_spec in Hdest as (Hfree & _).
    assert (Hnone : fs_files w !! dest = None).
    { unfold path_exists in Hfree. apply bool_decide_eq_false in Hfree.
      rewrite <- Hfiles. apply not_elem_of_dom. intros Hd. apply Hfree.
      apply elem_of_union. by left. }
    destruct (os_rename w1 p dest) as [err|w2] eqn:Hmv.
    + exists w1. eexists. split; [unfold log_activity; by rewrite Hclock|].
      split; [done|]. intros q v Hq. left. by rewrite Hfiles.
    + destruct (os_rename_moves _ _ _ _ Hmv Hfree) as (Hd & Hp & Hc).
      exists w2. eexists. split; [unfold log_activity; by rewrite Hc, Hclock|].
      split; [congruence|]. intros q v Hq.
      destruct (decide (q = p)) as [->|Hne].
      * right. split; [done|]. exists dest. split; [by apply Hex|]. by rewrite Hd, Hfiles.
      * left. rewrite (os_rename_others _ _ _ _ q Hmv Hne); [by rewrite Hfiles|].
        intros ->. congruence.
Qed.

(** what the handler does, whatever the file *)
Lemma process_new_file_effect w m p :
  exists w' m' new,
    process_new_file w m p = Some (w', m')
    /\ activity_log m' = activity_log m ++ new
    /\ length new = (if known_duplicate w m p && auto_organize m then 2 else 1)
    /\ Forall (fun entry => timestamp entry = (clock w + 1)%Z) new
    /\ directory m' = directory m /\ auto_organize m' = auto_organize m
    /\ organize_path m' = organize_path m
    /\ (forall k v, Dict.get (known_files m) k = Some v -> Dict.get (known_files m') k = Some v)
    /\ forall q v, fs_files w !! q = Some v ->
         fs_files w' !! q = Some v
         \/ (q = p /\ exists dest, path_exists w dest = false /\ fs_files w' !! dest = Some v).
Proof.
  unfold process_new_file, known_duplicate, Dict.mem.
  change (world_env (with_clock (clock w + 1) w)) with (world_env w).
  destruct (_calculate_file_hash _ p) as [h|] eqn:Hh.
  - destruct (Dict.get (known_files m) h) as [dup|] eqn:Hk.
    + set (m1 := log_activity _ _ m).
      change (auto_organize m1) with (auto_organize m).
      destruct (auto_organize m) eqn:Ha; cbn [andb].
      * destruct (organize_duplicate_outcome (with_clock (clock w + 1) w) m1 p)
          as (w' & outcome & Ho & Hc & Hfs).
        rewrite Ho. eexists _, _, [_; _]. split; [done|].
        split; [unfold m1; rewrite !log_activity_log; by rewrite <- app_assoc|].
        split; [done|]. split; [by repeat constructor|].
        repeat split; try done.
      * eexists _, _, [_]. split; [done|]. split; [done|].
        split; [done|]. split; [by repeat constructor|].
        repeat split; try done. intros q v Hq. by left.
    + cbn [andb]. destruct (os_stat _ p) as [err|[sz mt]].
      * eexists _, _, [_]. split; [done|]. split; [done|].
        split; [done|]. split; [by repeat constructor|].
        repeat split; try done. intros q v Hq. by left.
      * destruct (datetime_error _ mt) as [err|].
        -- eexists _, _, [_]. split; [done|]. split; [done|].
           split; [done|]. split; [by repeat constructor|].
           repeat split; try done. intros q v Hq. by left.
        -- eexists _, _, [_]. split; [done|]. split; [done|].
           split; [done|]. split; [by repeat constructor|].
           repeat split; try done.
           ++ intros k v Hv. simpl. rewrite dict_get_set_ne; [done|]. congruence.
           ++ intros q v Hq. by left.
  - cbn [andb]. eexists _, _, [_]. split; [done|]. split; [done|].
    split; [done|]. split; [by repeat constructor|].
    repeat split; try done. intros q v Hq. by left.
Qed.

(** X18.  Whatever the event, the handler ends and only adds.  An event
    on a directory changes nothing.  For an event on a file the log grows
    at its end by entries of the time of handling: by two when the file
    can be hashed, its hash is in the index and auto-organize is on, and
    by one otherwise.  The settings of the monitor stay, and no entry of
    the index is removed or replaced. *)
Theorem on_event_only_adds (w : World) (m : FileMonitor) (e : FsEvent) :
  exists w' m' new,
    on_event w m e = Some (w', m')
    /\ activity_log m' = activity_log m ++ new
    /\ match event_path e with
       | None => new = [] /\ w' = w /\ m' = m
       | Some p =>
           length new = (if known_duplicate w m p && auto_organize m then 2 else 1)
           /\ Forall (fun entry => timestamp entry = (clock w + 1)%Z) new
       end
    /\ directory m' = directory m /\ auto_organize m' = auto_organize m
    /\ organize_path m' = organize_path m
    /\ forall k v, Dict.get (known_files m) k = Some v -> Dict.get (known_files m') k = Some v.
Proof.
  destruct (event_path e) as [p|] eqn:Hp.
  - assert (Hev : on_event w m e = process_new_file w m p).
    { destruct e as [[] ?|[] ? ?]; simpl in *; congruence. }
    rewrite Hev.
    destruct (process_new_file_effect w m p)
      as (w' & m' & new & H1 & H2 & H3 & H4 & H5 & H6 & H7 & H8 & _).
    exists w', m', new. by repeat split.
  - assert (Hev : on_event w m e = Some (w, m)).
    { destruct e as [[] ?|[] ? ?]; simpl in *; congruence. }
    rewrite Hev. exists w, m, []. rewrite app_nil_r. by repeat split.
Qed.

(** X19.  Handling an event loses no file: a file that was there is
    still there with its bytes, at its path, or, if it is the file of the
    event, at a path where neither a file nor a directory was before. *)
Theorem on_event_loses_no_file (w w' : World) (m m' : FileMonitor) (e : FsEvent)
    (q : string) (v : Z * list byte) :
  on_event w m e = Some (w', m') ->
  fs_files w !! q = Some v ->
  fs_files w' !! q = Some v
  \/ (event_path e = Some q
      /\ exists dest, path_exists w dest = false /\ fs_files w' !! dest = Some v).
Proof.
  intros He Hq.
  destruct (event_path e) as [p|] eqn:Hp.
  - assert (Hev : on_event w m e = process_new_file w m p).
    { destruct e as [[] ?|[] ? ?]; simpl in *; congruence. }
    rewrite Hev in He.
    destruct (process_new_file_effect w m p)
      as (w1 & m1 & new & H1 & _ & _ & _ & _ & _ & _ & _ & Hfs).
    rewrite He in H1. injection H1 as <- <-.
    destruct (Hfs q v Hq) as [?|[-> ?]]; auto.
  - assert (Hev : on_event w m e = Some (w, m)).
    { destruct e as [[] ?|[] ? ?]; simpl in *; congruence. }
    rewrite Hev in He. injection He as <- <-. by left.
Qed.

Lemma on_event_loses_no_file_witness :
  exists w' m',
    on_event monitor_world monitor_start (Created false "/d/y.bin") = Some (w', m')
    /\ fs_files w' !! "/d/y.bin" = None
    /\ (fs_files w' !! "/d/y.bin" = Some (6%Z, list_byte_of_string "same")
        \/ (event_path (Created false "/d/y.bin") = Some "/d/y.bin"
            /\ exists dest, path_exists monitor_world dest = false
                            /\ fs_files w' !! dest = Some (6%Z, list_byte_of_string "same")))
    /\ (fs_files w' !! "/d/x.bin" = Some (5%Z, list_byte_of_string "same")
        \/ (event_path (Created false "/d/y.bin") = Some "/d/x.bin"
            /\ exists dest, path_exists monitor_world dest = false
                            /\ fs_files w' !! dest = Some (5%Z, list_byte_of_string "same"))).
Proof.
  destruct (on_event monitor_world monitor_start (Created false "/d/y.bin"))
    as [[w' m']|] eqn:He; [|vm_compute in He; discriminate].
  exists w', m'. split; [done|].
  split; [vm_compute in He; injection He as <- _; vm_compute; reflexivity|].
  split.
  - apply (on_event_loses_no_file monitor_world w' monitor_start m' _ _ _ He).
    vm_compute. reflexivity.
  - apply (on_event_loses_no_file monitor_world w' monitor_start m' _ _ _ He).
    vm_compute. reflexivity.
Defined.

Lemma hashable_has_stat w p h :
  _calculate_file_hash (world_env w) p = Some h ->
  exists st_size st_mtime, os_stat w p = inr (st_size, st_mtime).
Proof.
  unfold _calculate_file_hash, world_env, os_open, os_stat. simpl.
  case_bool_decide; [done|].
  destruct (fs_files w !! p) as [[mt content]|]; [by eexists _, _|].
  by case_bool_decide.
Qed.

(** X20.  A file that the monitor does not know, and whose modification
    time [datetime.fromtimestamp] accepts, is entered in the index at the
    first event for it; at a second event for the same file, unchanged,
    it is found there and announced as a duplicate of itself. *)
Theorem new_file_is_its_own_duplicate (w : World) (m : FileMonitor) (p h : string) :
  _calculate_file_hash (world_env w) p = Some h ->
  Dict.get (known_files m) h = None ->
  (forall st_size st_mtime, os_stat w p = inr (st_size, st_mtime) ->
                            datetime_error w st_mtime = None) ->
  exists w1 m1 w2 m2 rest,
    on_event w m (Created false p) = Some (w1, m1)
    /\ (exists file_info, Dict.get (known_files m1) h = Some file_info
                          /\ FileInfo.path file_info = p)
    /\ on_event w1 m1 (Created false p) = Some (w2, m2)
    /\ activity_log m2
       = activity_log m
         ++ [mkLog (clock w + 1) ("New unique file: " ++ Py.basename p);
             mkLog (clock w + 1 + 1)
                   ("Duplicate detected: " ++ Py.basename p ++ " matches " ++ Py.basename p)]
         ++ rest.
Proof.
  intros Hh Hk Htime. cbn [on_event].
  destruct (hashable_has_stat w p h Hh) as (sz & mt & Hst).
  pose proof (Htime sz mt Hst) as Hok.
  assert (H1 : process_new_file w m p
               = Some (with_clock (clock w + 1) w,
                       log_activity (with_clock (clock w + 1) w)
                         ("New unique file: " ++ Py.basename p)
                         (with_known_files
                            (Dict.set (known_files m) h
                               (FileInfo.mk p (Py.basename p) sz mt (Some h) None)) m))).
  { unfold process_new_file.
    change (world_env (with_clock (clock w + 1) w)) with (world_env w).
    rewrite Hh, Hk.
    change (os_stat (with_clock (clock w + 1) w) p) with (os_stat w p).
    rewrite Hst.
    change (datetime_error (with_clock (clock w + 1) w) mt) with (datetime_error w mt).
    by rewrite Hok. }
  set (w1 := with_clock (clock w + 1) w) in *.
  set (m1 := log_activity w1 _ _) in *.
  exists w1, m1.
  assert (Hk1 : Dict.get (known_files m1) h
                = Some (FileInfo.mk p (Py.basename p) sz mt (Some h) None))
    by apply dict_get_set_eq.
  assert (H2 : exists w2 m2 rest,
             process_new_file w1 m1 p = Some (w2, m2)
             /\ activity_log m2
                = activity_log m1
                  ++ mkLog (clock w + 1 + 1)
                       ("Duplicate detected: " ++ Py.basename p ++ " matches "
                        ++ Py.basename p) :: rest).
  { unfold process_new_file.
    change (world_env (with_clock (clock w1 + 1) w1)) with (world_env w).
    rewrite Hh, Hk1. cbn [FileInfo.name].
    set (m2 := log_activity (with_clock (clock w1 + 1) w1) _ m1).
    destruct (auto_organize m2) eqn:Ha.
    - destruct (organize_duplicate_outcome (with_clock (clock w1 + 1) w1) m2 p)
        as (w' & outcome & Ho & _).
      rewrite Ho. eexists _, _, [_]. split; [done|].
      unfold m2. rewrite !log_activity_log. by rewrite <- !app_assoc.
    - eexists _, _, []. split; [done|]. unfold m2. by rewrite !log_activity_log. }
  destruct H2 as (w2 & m2 & rest & H2 & Hlog).
  exists w2, m2, rest. split; [done|].
  split; [by eexists|]. split; [done|].
  rewrite Hlog. unfold m1. rewrite log_activity_log. by rewrite <- !app_assoc.
Qed.

Lemma new_file_is_its_own_duplicate_witness :
  exists w1 m1 w2 m2 rest,
    on_event monitor_world (mkMonitor "/d" false "/d/Auto_Organized" [] [])
             (Created false "/d/x.bin") = Some (w1, m1)
    /\ (exists file_info,
          Dict.get (known_files m1) "51037a4a37730f52c8732586d3aaa316" = Some file_info
          /\ FileInfo.path file_info = "/d/x.bin")
    /\ on_event w1 m1 (Created false "/d/x.bin") = Some (w2, m2)
    /\ activity_log m2
       = [] ++ [mkLog (1000 + 1) ("New unique file: " ++ Py.basename "/d/x.bin");
                mkLog (1000 + 1 + 1)
                      ("Duplicate detected: " ++ Py.basename "/d/x.bin" ++ " matches "
                       ++ Py.basename "/d/x.bin")]
         ++ rest.
Proof.
  apply (new_file_is_its_own_duplicate monitor_world
           (mkMonitor "/d" false "/d/Auto_Organized" [] []) "/d/x.bin"
           "51037a4a37730f52c8732586d3aaa316").
  - vm_compute. reflexivity.
  - reflexivity.
  - reflexivity.
Defined.

(** ** The organizer's plan *)

Lemma dict_set_same {V : Type} (d : Dict.t V) (k : string) (v : V) :
  Dict.get d k = Some v -> Dict.set d k v = d.
Proof.
  induction d as [|[k' v'] d IH]; simpl; [done|].
  destruct (String.eqb k' k) eqn:E.
  - by intros [= ->].
  - intros H. by rewrite IH.
Qed.

Lemma dict_set_set {V : Type} (d : Dict.t V) (k : string) (v v' : V) :
  Dict.set (Dict.set d k v) k v' = Dict.set d k v'.
Proof.
  induction d as [|[k0 v0] d IH]; simpl.
  - by rewrite String.eqb_refl.
  - destruct (String.eqb k0 k) eqn:E; simpl; rewrite E; [done|]. by rewrite IH.
Qed.

(** the appends of the inner loop, taken together *)
Lemma plan_append_fold o folder files :
  forall plan ops,
    Dict.get plan folder = Some ops ->
    fold_left (fun pl file_info => plan_append folder pl (operation o folder file_info))
              files plan
    = Dict.set plan folder (ops ++ map (operation o folder) files).
Proof.
  induction files as [|f files IH]; intros plan ops Hget; simpl.
  - rewrite app_nil_r. symmetry. by apply dict_set_same.
  - unfold plan_append at 2. rewrite Hget.
    rewrite (IH _ (ops ++ [operation o folder f])) by apply dict_get_set_eq.
    by rewrite dict_set_set, <- app_assoc.
Qed.

(** one round of the loop of [generate_organization_plan] stores what the
    group plans, or nothing *)
Lemma plan_group_planned o plan item :
  plan_group o plan item
  = match planned o item with
    | Some (folder, ops) => Dict.set plan folder ops
    | None => plan
    end.
Proof.
  destruct item as [group_id files]. unfold plan_group, planned. cbn [fst snd].
  destruct files as [|first_file [|second files]]; [done..|].
  cbv zeta.
  rewrite (plan_append_fold _ _ _ _ []) by apply dict_get_set_eq.
  by rewrite dict_set_set.
Qed.

Lemma fold_plan_group_get o groups folder :
  forall plan,
    Dict.get (fold_left (plan_group o) groups plan) folder
    = match stored folder (omap (planned o) groups) with
      | Some ops => Some ops
      | None => Dict.get plan folder
      end.
Proof.
  unfold stored.
  induction groups as [|item groups IH] using rev_ind; intros plan; [done|].
  rewrite fold_left_app, omap_app, filter_app. cbn [fold_left omap list_omap].
  rewrite plan_group_planned.
  destruct (planned o item) as [[folder' ops]|] eqn:P.
  - destruct (decide (folder' = folder)) as [->|Hne].
    + rewrite filter_cons_True by done. rewrite filter_nil.
      rewrite last_app_cons. simpl. apply dict_get_set_eq.
    + rewrite filter_cons_False by done. rewrite filter_nil, app_nil_r.
      rewrite dict_get_set_ne by done. apply IH.
  - rewrite filter_nil, app_nil_r. apply IH.
Qed.

Lemma fold_plan_group_keys o groups :
  forall plan, keys_unique plan -> keys_unique (fold_left (plan_group o) groups plan).
Proof.
  induction groups as [|item groups IH]; intros plan H; [done|].
  simpl. apply IH. rewrite plan_group_planned.
  destruct (planned o item) as [[folder ops]|]; [by apply keys_unique_set | done].
Qed.

Lemma stored_planned o folder ops groups :
  stored folder (omap (planned o) groups) = Some ops ->
  exists item, item ∈ groups /\ planned o item = Some (folder, ops).
Proof.
  unfold stored. intros H.
  destruct (last _) as [[folder' ops']|] eqn:L; [|done].
  simpl in H. injection H as ->.
  apply last_Some_elem_of in L. apply list_elem_of_filter in L as [Hf L].
  simpl in Hf. subst folder'.
  apply list_elem_of_omap in L as (item & Hin & Hp). eauto.
Qed.

Lemma plan_get o folder :
  Dict.get (generate_organization_plan o) folder
  = stored folder (omap (planned o) (duplicate_groups o)).
Proof.
  unfold generate_organization_plan, Dict.items. rewrite fold_plan_group_get.
  by destruct (stored _ _).
Qed.

Lemma plan_keys_unique o : keys_unique (generate_organization_plan o).
Proof. apply fold_plan_group_keys, NoDup_nil_2. Qed.

(** X21.  The plan holds, under a folder name, the operations of the last
    group of the organizer that is given this name: what an earlier group
    of the same folder name had planned is not in the plan. *)
Theorem plan_holds_last_group_of_a_folder (o : FileOrganizer) (folder : string) :
  Dict.get (generate_organization_plan o) folder
  = stored folder (omap (planned o) (duplicate_groups o)).
Proof. apply plan_get. Qed.

(** X22.  Every entry of the plan comes from a group of two or more
    records: its folder is named after the first record and the first
    eight characters of the group's identifier, and its operations are, in
    order, those of the records of the group (without the first, when the
    original is kept); each moves a record from its path to its name in
    the folder under the destination directory.  No folder is planned
    twice. *)
Theorem plan_entries_come_from_groups (o : FileOrganizer) (folder : string)
    (ops : list Operation) :
  (folder, ops) ∈ generate_organization_plan o ->
  keys_unique (generate_organization_plan o)
  /\ exists group_id first_file files,
       (group_id, first_file :: files) ∈ duplicate_groups o
       /\ files <> []
       /\ folder = folder_name group_id first_file
       /\ ops = map (operation o folder)
                    (if keep_original o then files else first_file :: files).
Proof.
  intros Hin. split; [apply plan_keys_unique|].
  apply dict_get_elem_unique in Hin; [|apply plan_keys_unique].
  rewrite plan_get in Hin. apply stored_planned in Hin as ([group_id files] & Hg & Hp).
  unfold planned in Hp. cbn [fst snd] in Hp.
  destruct files as [|first_file [|second files]]; [done..|].
  injection Hp as <- <-.
  exists group_id, first_file, (second :: files).
  split; [done|]. split; [done|]. split; [done|].
  by destruct (keep_original o).
Qed.

Lemma plan_entries_come_from_groups_witness :
  generate_organization_plan alike_organizer
  = [("Duplicates_report.pdf_sim_1234",
      [mkOp "/d/e/report.pdf" "/out/Duplicates_report.pdf_sim_1234/report.pdf" 13])]
  /\ keys_unique (generate_organization_plan alike_organizer)
  /\ exists group_id first_file files,
       (group_id, first_file :: files) ∈ duplicate_groups alike_organizer
       /\ files <> []
       /\ "Duplicates_report.pdf_sim_1234" = folder_name group_id first_file
       /\ [mkOp "/d/e/report.pdf" "/out/Duplicates_report.pdf_sim_1234/report.pdf" 13]
          = map (operation alike_organizer "Duplicates_report.pdf_sim_1234")
                (if keep_original alike_organizer then files else first_file :: files).
Proof.
  split; [vm_compute; reflexivity|].
  apply (plan_entries_come_from_groups alike_organizer).
  vm_compute. constructor.
Defined.

Lemma stake_app (n : nat) (a b : string) :
  n <= String.length a -> Py.stake n (a ++ b) = Py.stake n a.
Proof.
  revert a. induction n as [|n IH]; intros a Hn; [by destruct a|].
  destruct a as [|c a]; simpl in *; [lia|]. rewrite IH by lia. done.
Qed.

(** the identifiers made for one name begin alike *)
Lemma mint_prefix env name i j :
  4 <= String.length (Py.str_Z (py_hash env name)) ->
  Py.stake 8 (mint env name i j) = ("sim_" ++ Py.stake 4 (Py.str_Z (py_hash env name)))%string.
Proof.
  intros H. unfold mint.
  set (x := Py.str_Z (py_hash env name)) in *.
  set (y := ("_" ++ Py.str_nat i ++ "_" ++ Py.str_nat j)%string).
  change (Py.stake 8 ("sim_" ++ x ++ y))
    with (String "s" (String "i" (String "m" (String "_" (Py.stake 4 (x ++ y)))))).
  by rewrite stake_app.
Qed.

Lemma stored_later o folder l1 l2 ops :
  stored folder (omap (planned o) l2) = Some ops ->
  stored folder (omap (planned o) (l1 ++ l2)) = Some ops.
Proof.
  unfold stored. rewrite omap_app, filter_app, last_app.
  by destruct (last (filter _ (omap (planned o) l2))).
Qed.

(** X23.  The similarity groups made for one file name are all given the
    same folder name when the text of the name's hash has four characters
    or more, since the folder name takes eight characters of the
    identifier [sim_<hash>_<i>_<j>].  Of two such groups the plan then
    has, under that folder, the operations of the later one or of a group
    after it: the earlier group is organized by no entry of its own. *)
Theorem similarity_groups_share_a_folder (o : FileOrganizer) (env : Env) (name : string)
    (i j i' j' : nat) (first1 first2 : FileInfo.t) (rest1 rest2 : list FileInfo.t)
    (pre mid post : Dict.t (list FileInfo.t)) :
  duplicate_groups o
  = pre ++ (mint env name i j, first1 :: rest1)
        :: mid ++ (mint env name i' j', first2 :: rest2) :: post ->
  rest1 <> [] -> rest2 <> [] ->
  FileInfo.name first1 = name -> FileInfo.name first2 = name ->
  4 <= String.length (Py.str_Z (py_hash env name)) ->
  folder_name (mint env name i j) first1 = folder_name (mint env name i' j') first2
  /\ exists item ops,
       item ∈ (mint env name i' j', first2 :: rest2) :: post
       /\ planned o item = Some (folder_name (mint env name i j) first1, ops)
       /\ Dict.get (generate_organization_plan o) (folder_name (mint env name i j) first1)
          = Some ops.
Proof.
  intros Hg H1 H2 N1 N2 Hlen.
  assert (Hf : folder_name (mint env name i j) first1
               = folder_name (mint env name i' j') first2).
  { unfold folder_name. by rewrite !mint_prefix, N1, N2. }
  split; [done|]. rewrite Hf.
  set (folder := folder_name (mint env name i' j') first2).
  set (tail := (mint env name i' j', first2 :: rest2) :: post).
  assert (Hs : exists ops, stored folder (omap (planned o) tail) = Some ops).
  { unfold stored, tail. cbn [omap list_omap]. unfold planned at 1. cbn [fst snd].
    destruct rest2 as [|second rest2]; [done|].
    fold folder. rewrite filter_cons_True by done. rewrite last_cons.
    destruct (last _); simpl; eauto. }
  destruct Hs as [ops Hs].
  destruct (stored_planned _ _ _ _ Hs) as (item & Hin & Hp).
  exists item, ops. split; [done|]. split; [done|].
  rewrite plan_get, Hg.
  fold tail.
  replace (pre ++ (mint env name i j, first1 :: rest1) :: mid ++ tail)
    with ((pre ++ (mint env name i j, first1 :: rest1) :: mid) ++ tail)
    by (by rewrite <- app_assoc).
  by apply stored_later.
Qed.

Lemma similarity_groups_share_a_folder_witness :
  generate_organization_plan alike_organizer
  = [("Duplicates_report.pdf_sim_1234",
      [mkOp "/d/e/report.pdf" "/out/Duplicates_report.pdf_sim_1234/report.pdf" 13])]
  /\ folder_name (mint alike_env "report.pdf" 0 1) report_1
     = folder_name (mint alike_env "report.pdf" 2 3) report_3
  /\ exists item ops,
       item ∈ [(mint alike_env "report.pdf" 2 3, [report_3; report_4])]
       /\ planned alike_organizer item
          = Some (folder_name (mint alike_env "report.pdf" 0 1) report_1, ops)
       /\ Dict.get (generate_organization_plan alike_organizer)
                   (folder_name (mint alike_env "report.pdf" 0 1) report_1)
          = Some ops.
Proof.
  split; [vm_compute; reflexivity|].
  apply (similarity_groups_share_a_folder alike_organizer alike_env "report.pdf"
           0 1 2 3 report_1 report_3 [report_2] [report_4] [] [] []).
  - reflexivity.
  - discriminate.
  - discriminate.
  - reflexivity.
  - reflexivity.
  - vm_compute. lia.
Defined.

(** ** Hashing and comparing files in [utils] *)

Lemma calculate_file_hash_md5 lib env p algorithm :
  Py.lower algorithm = "md5" ->
  calculate_file_hash lib env p algorithm
  = match _calculate_file_hash env p with
    | Some h => Digest h
    | None => OSError
    end.
Proof.
  intros H. unfold calculate_file_hash, _calculate_file_hash. rewrite H.
  cbn [String.eqb Ascii.eqb Bool.eqb]. by destruct (open_rb env p).
Qed.

(** X24.  With [md5] as the algorithm, in any spelling of capitals, the
    hash that [utils.calculate_file_hash] gives for a readable file is the
    MD5 digest of its whole content, which is also the hash the scanner
    computes for it. *)
Theorem utils_hash_is_scanner_hash (lib : Hashlib) (env : Env) (p algorithm : string)
    (content : list byte) :
  Py.lower algorithm = "md5" ->
  open_rb env p = Some content ->
  calculate_file_hash lib env p algorithm = Digest (MD5.hexdigest content)
  /\ _calculate_file_hash env p = Some (MD5.hexdigest content).
Proof.
  intros Ha Ho. rewrite calculate_file_hash_md5 by done.
  by rewrite (file_hash_of_content _ _ _ Ho).
Qed.

Lemma utils_hash_is_scanner_hash_witness :
  calculate_file_hash no_hashlib abc_env "/d/a.txt" "MD5"
  = Digest (MD5.hexdigest (list_byte_of_string "abc"))
  /\ _calculate_file_hash abc_env "/d/a.txt" = Some (MD5.hexdigest (list_byte_of_string "abc")).
Proof.
  apply (utils_hash_is_scanner_hash no_hashlib abc_env "/d/a.txt" "MD5").
  - vm_compute. reflexivity.
  - vm_compute. reflexivity.
Defined.

Lemma path_exists_file w p f : fs_files w !! p = Some f -> path_exists w p = true.
Proof.
  intros H. unfold path_exists. apply bool_decide_eq_true_2.
  apply elem_of_union_l, elem_of_dom. eauto.
Qed.

Lemma world_hash w p t content :
  fs_files w !! p = Some (t, content) ->
  _calculate_file_hash (world_env w) p
  = if bool_decide (p ∈ fs_denied w) then None else Some (MD5.hexdigest content).
Proof.
  intros H. case_bool_decide as D.
  - unfold _calculate_file_hash, world_env, os_open. simpl.
    by rewrite bool_decide_eq_true_2.
  - apply file_hash_of_content. unfold world_env, os_open. simpl.
    by rewrite bool_decide_eq_false_2, H.
Qed.

(** what [is_same_file] does with two regular files *)
Lemma is_same_file_regular lib w p1 p2 t1 c1 t2 c2 :
  fs_files w !! p1 = Some (t1, c1) ->
  fs_files w !! p2 = Some (t2, c2) ->
  is_same_file lib w p1 p2
  = if negb (length c1 =? length c2)%nat then inr false
    else if bool_decide (p1 ∈ fs_denied w) then inl (EACCES p1)
    else if bool_decide (p2 ∈ fs_denied w) then inl (EACCES p2)
    else inr (String.eqb (MD5.hexdigest c1) (MD5.hexdigest c2)).
Proof.
  intros H1 H2. unfold is_same_file.
  rewrite (path_exists_file _ _ _ H1), (path_exists_file _ _ _ H2). cbn [negb orb].
  unfold getsize, os_stat. rewrite H1, H2.
  assert (E : (Z.of_nat (length c1) =? Z.of_nat (length c2))%Z
              = (length c1 =? length c2)%nat).
  { destruct (Nat.eqb_spec (length c1) (length c2)) as [->|Hne].
    - apply Z.eqb_refl.
    - apply Z.eqb_neq. lia. }
  rewrite E. destruct (length c1 =? length c2)%nat; [|done]. cbn [negb].
  rewrite !calculate_file_hash_md5 by reflexivity.
  rewrite (world_hash _ _ _ _ H1), (world_hash _ _ _ _ H2).
  unfold hash_error, os_open.
  generalize (MD5.hexdigest c1) (MD5.hexdigest c2). intros h1 h2.
  case_bool_decide; [done|]. case_bool_decide; done.
Qed.

(** X25.  For two regular files that may be read, [is_same_file] answers
    without raising, gives the same answer in either order, says [True]
    when the files hold the same bytes, and says [True] only for the same
    bytes or for different contents of one length and one MD5 digest. *)
Theorem is_same_file_compares_content (lib : Hashlib) (w : World) (p1 p2 : string)
    (t1 t2 : Z) (c1 c2 : list byte) :
  fs_files w !! p1 = Some (t1, c1) ->
  fs_files w !! p2 = Some (t2, c2) ->
  p1 ∉ fs_denied w ->
  p2 ∉ fs_denied w ->
  exists answer : bool,
    is_same_file lib w p1 p2 = inr answer
    /\ is_same_file lib w p2 p1 = inr answer
    /\ (c1 = c2 -> answer = true)
    /\ (answer = true -> c1 = c2 \/ (md5_collision c1 c2 /\ length c1 = length c2)).
Proof.
  intros H1 H2 D1 D2.
  rewrite (is_same_file_regular _ _ _ _ _ _ _ _ H1 H2),
          (is_same_file_regular _ _ _ _ _ _ _ _ H2 H1).
  rewrite !bool_decide_eq_false_2 by done.
  rewrite (Nat.eqb_sym (length c2)), (String.eqb_sym (MD5.hexdigest c2)).
  remember (MD5.hexdigest c1) as h1 eqn:E1.
  remember (MD5.hexdigest c2) as h2 eqn:E2.
  destruct (Nat.eqb_spec (length c1) (length c2)) as [Hl|Hl]; cbn [negb].
  - exists (String.eqb h1 h2). split; [done|]. split; [done|]. split.
    + intros ->. apply String.eqb_eq. congruence.
    + intros ->%String.eqb_eq.
      destruct (decide (c1 = c2)) as [|Hne]; [by left|].
      right. split; [|done]. split; [done|]. congruence.
  - exists false. split; [done|]. split; [done|]. split; [|done].
    intros ->. done.
Qed.

Lemma is_same_file_compares_content_witness :
  is_same_file no_hashlib utils_world "/d/a.txt" "/d/b.txt" = inr true
  /\ is_same_file no_hashlib utils_world "/d/a.txt" "/d/c.txt" = inr false
  /\ exists answer : bool,
       is_same_file no_hashlib utils_world "/d/a.txt" "/d/b.txt" = inr answer
       /\ is_same_file no_hashlib utils_world "/d/b.txt" "/d/a.txt" = inr answer
       /\ (list_byte_of_string "abc" = list_byte_of_string "abc" -> answer = true)
       /\ (answer = true ->
           list_byte_of_string "abc" = list_byte_of_string "abc"
           \/ (md5_collision (list_byte_of_string "abc") (list_byte_of_string "abc")
               /\ length (list_byte_of_string "abc") = length (list_byte_of_string "abc"))).
Proof.
  split; [vm_compute; reflexivity|]. split; [vm_compute; reflexivity|].
  apply (is_same_file_compares_content no_hashlib utils_world "/d/a.txt" "/d/b.txt" 1 2).
  - vm_compute. reflexivity.
  - vm_compute. reflexivity.
  - apply (bool_decide_unpack _). vm_compute. exact I.
  - apply (bool_decide_unpack _). vm_compute. exact I.
Defined.

(** X26.  [is_same_file] answers [False] when a path does not exist, and
    for two regular files of different sizes, readable or not; for two
    regular files of one size of which one may not be read it raises the
    error of opening that file instead of answering. *)
Theorem is_same_file_missing_or_unreadable (lib : Hashlib) (w : World) (p1 p2 : string) :
  (path_exists w p1 = false \/ path_exists w p2 = false ->
   is_same_file lib w p1 p2 = inr false)
  /\ (forall t1 c1 t2 c2,
        fs_files w !! p1 = Some (t1, c1) ->
        fs_files w !! p2 = Some (t2, c2) ->
        p1 ∈ fs_denied w \/ p2 ∈ fs_denied w ->
        is_same_file lib w p1 p2
        = if bool_decide (length c1 = length c2)
          then inl (EACCES (if bool_decide (p1 ∈ fs_denied w) then p1 else p2))
          else inr false).
Proof.
  split.
  - intros H. unfold is_same_file.
    destruct H as [-> | ->]; [done|]. by rewrite orb_true_r.
  - intros t1 c1 t2 c2 H1 H2 D.
    rewrite (is_same_file_regular _ _ _ _ _ _ _ _ H1 H2).
    destruct (Nat.eqb_spec (length c1) (length c2)) as [Hl|Hl]; cbn [negb].
    + rewrite (bool_decide_eq_true_2 _ Hl).
      case_bool_decide as D1; [done|].
      destruct D as [D|D]; [done|]. by rewrite bool_decide_eq_true_2.
    + by rewrite (bool_decide_eq_false_2 _ Hl).
Qed.

Lemma is_same_file_missing_or_unreadable_witness :
  is_same_file no_hashlib utils_world "/d/a.txt" "/d/none.txt" = inr false
  /\ is_same_file no_hashlib utils_world "/d/a.txt" "/d/locked.txt"
     = inl (EACCES "/d/locked.txt")
  /\ is_same_file no_hashlib utils_world "/d/locked.txt" "/d/c.txt"
     = inl (EACCES "/d/locked.txt").
Proof.
  split; [|split].
  - apply (is_same_file_missing_or_unreadable no_hashlib utils_world "/d/a.txt" "/d/none.txt").
    right. vm_compute. reflexivity.
  - destruct (is_same_file_missing_or_unreadable no_hashlib utils_world
                "/d/a.txt" "/d/locked.txt") as [_ H].
    apply (H 1%Z (list_byte_of_string "abc") 4%Z (list_byte_of_string "abc")).
    + vm_compute. reflexivity.
    + vm_compute. reflexivity.
    + right. apply (bool_decide_unpack _). vm_compute. exact I.
  - destruct (is_same_file_missing_or_unreadable no_hashlib utils_world
                "/d/locked.txt" "/d/c.txt") as [_ H].
    apply (H 4%Z (list_byte_of_string "abc") 3%Z (list_byte_of_string "xyz")).
    + vm_compute. reflexivity.
    + vm_compute. reflexivity.
    + left. apply (bool_decide_unpack _). vm_compute. exact I.
Defined.

(** ** The report and the statistics *)

Lemma dict_set_new {V : Type} (d : Dict.t V) (k : string) (v : V) :
  Dict.get d k = None -> Dict.set d k v = d ++ [(k, v)].
Proof.
  induction d as [|[k' v'] d IH]; simpl; [done|].
  destruct (String.eqb k' k); [done|]. intros H. by rewrite IH.
Qed.

Lemma fold_add_group_app (items : list (string * list ref)) :
  keys_unique items ->
  forall results,
    (forall k, k ∈ map fst items -> k ∉ map fst results) ->
    fold_left add_group items results
    = results ++ filter (fun item => several (snd item) = true) items.
Proof.
  unfold keys_unique. induction items as [|[k0 l0] items IH]; intros Hnd results Hfresh.
  - by rewrite app_nil_r.
  - apply NoDup_cons in Hnd as [Hk0 Hnd]. simpl in Hk0.
    cbn [fold_left].
    change (add_group results (k0, l0))
      with (if several l0 then Dict.set results k0 l0 else results).
    destruct (several l0) eqn:E.
    + rewrite filter_cons_True by done.
      rewrite dict_set_new by (apply dict_get_None, Hfresh; constructor).
      rewrite IH; [by rewrite <- app_assoc | done |].
      intros k Hk. rewrite map_app. intros [Hin|Hin%list_elem_of_singleton]%elem_of_app.
      * revert Hin. apply Hfresh. by constructor.
      * simpl in Hin. by subst k.
    + rewrite filter_cons_False by (simpl; congruence).
      apply IH; [done|]. intros k Hk. apply Hfresh. by constructor.
Qed.

(** the report of a session, as a list *)
Lemma duplicate_groups_list s :
  session_ok s ->
  get_duplicate_groups s
  = filter (fun item => several (snd item) = true) (duplicate_map s)
    ++ filter (fun item => several (snd item) = true) (similarity_groups s).
Proof.
  intros (D & _ & H & K & S & _). unfold get_duplicate_groups, Dict.items.
  rewrite (fold_add_group_app _ D []) by (intros; apply not_elem_of_nil).
  rewrite app_nil_l. apply fold_add_group_app; [done|].
  intros k Hk Hin. apply S in Hk.
  apply list_elem_of_fmap in Hin as ([k' l] & -> & Hin%list_elem_of_filter).
  destruct Hin as [_ Hin]. rewrite H in Hk; [done|].
  apply list_elem_of_fmap. by exists (k', l).
Qed.

Lemma surplus_app (d1 d2 : list (string * list ref)) : surplus (d1 ++ d2) = surplus d1 + surplus d2.
Proof.
  unfold surplus, Dict.values. by rewrite map_app, filter_app, map_app, sum_list_with_app.
Qed.

Lemma surplus_filter (d : list (string * list ref)) :
  surplus (filter (fun item => several (snd item) = true) d) = surplus d.
Proof.
  unfold surplus, Dict.values. induction d as [|[k l] d IH]; [done|].
  destruct (several l) eqn:E.
  - rewrite filter_cons_True by done. cbn [map snd].
    rewrite !filter_cons_True by done. cbn [map sum_list sum_list_with]. by rewrite IH.
  - rewrite filter_cons_False by (simpl; congruence). cbn [map snd].
    rewrite filter_cons_False by congruence. done.
Qed.

(** X27.  In a session, [get_duplicate_groups] gives the groups of the
    exact-duplicate index that have two or more records, in the order of
    the index, and after them those of the similarity index. *)
Theorem report_lists_hash_groups_then_similarity_groups (s : FileScanner) :
  session_ok s ->
  get_duplicate_groups s
  = filter (fun item => several (snd item) = true) (duplicate_map s)
    ++ filter (fun item => several (snd item) = true) (similarity_groups s).
Proof. apply duplicate_groups_list. Qed.

Lemma report_lists_hash_groups_then_similarity_groups_witness :
  let s := scan abc_tree abc_env (new_scanner "/d" true 1 None) in
  get_duplicate_groups s
  = filter (fun item => several (snd item) = true) (duplicate_map s)
    ++ filter (fun item => several (snd item) = true) (similarity_groups s).
Proof.
  apply (report_lists_hash_groups_then_similarity_groups
           (scan abc_tree abc_env (new_scanner "/d" true 1 None))).
  apply session_ok_process_files, session_ok_inventory_files, session_ok_new.
Defined.

(** X28.  The statistics of a session agree with its report: the counts
    of exact duplicates and of similar files add up to the number of
    records beyond the first in the reported groups, and the number of
    reported groups lies between the count of duplicate groups and that
    count plus the count of similarity groups. *)
Theorem statistics_agree_with_report (s : FileScanner) :
  session_ok s ->
  let stats := get_statistics s in
  Statistics.exact_duplicates stats + Statistics.similar_files stats
  = surplus (get_duplicate_groups s)
  /\ Statistics.duplicate_groups stats <= length (get_duplicate_groups s)
  /\ length (get_duplicate_groups s)
     <= Statistics.duplicate_groups stats + Statistics.similarity_groups stats.
Proof.
  intros Hok. cbn zeta. rewrite (duplicate_groups_list s Hok).
  unfold get_statistics, Dict.items. cbn [Statistics.exact_duplicates
    Statistics.similar_files Statistics.duplicate_groups Statistics.similarity_groups].
  rewrite surplus_app, !surplus_filter, length_app.
  split; [done|]. split; [apply Nat.le_add_r|].
  apply Nat.add_le_mono_l, length_filter.
Qed.

Lemma statistics_agree_with_report_witness :
  let s := scan abc_tree abc_env (new_scanner "/d" true 1 None) in
  let stats := get_statistics s in
  Statistics.exact_duplicates stats = 1
  /\ Statistics.exact_duplicates stats + Statistics.similar_files stats
     = surplus (get_duplicate_groups s)
  /\ Statistics.duplicate_groups stats <= length (get_duplicate_groups s)
  /\ length (get_duplicate_groups s)
     <= Statistics.duplicate_groups stats + Statistics.similarity_groups stats.
Proof.
  split; [vm_compute; reflexivity|].
  apply (statistics_agree_with_report (scan abc_tree abc_env (new_scanner "/d" true 1 None))).
  apply session_ok_process_files, session_ok_inventory_files, session_ok_new.
Defined.

Lemma only_member (l : list ref) (r : ref) :
  occurrences r l = 1 ->
  (forall r', r' <> r -> occurrences r' l = 0) ->
  l = [r].
Proof.
  unfold occurrences. intros H1 H0.
  destruct l as [|a l]; [done|].
  destruct (decide (a = r)) as [->|Hne].
  - f_equal. destruct l as [|b l]; [done|]. exfalso.
    simpl in H1. destruct (Nat.eq_dec r r); [|done].
    destruct (decide (b = r)) as [->|Hb].
    + simpl in H1. destruct (Nat.eq_dec r r); [lia | done].
    + specialize (H0 b Hb). simpl in H0.
      destruct (Nat.eq_dec r b); [by subst|].
      destruct (Nat.eq_dec b b); [lia | done].
  - specialize (H0 a Hne). simpl in H0. destruct (Nat.eq_dec a a); [lia | done].
Qed.

(** X29.  In the first run on an inventory, a record whose file can be
    read and whose hash no other record of the inventory gets is alone
    under its hash in the exact-duplicate index: [get_duplicate_groups]
    has no entry for that hash, and no group that it reports by hash has
    the record. *)
Theorem unique_file_is_not_reported (env : Env) (s : FileScanner) (r : ref)
    (content : list byte) :
  session_ok s ->
  duplicate_map s = [] ->
  NoDup (file_inventory s) ->
  r ∈ file_inventory s ->
  open_rb env (FileInfo.path (obj s r)) = Some content ->
  (forall r', r' ∈ file_inventory s -> r' <> r ->
              _calculate_file_hash env (FileInfo.path (obj s r'))
              <> Some (MD5.hexdigest content)) ->
  let s' := fst (process_files env s) in
  Dict.get (duplicate_map s') (MD5.hexdigest content) = Some [r]
  /\ Dict.get (get_duplicate_groups s') (MD5.hexdigest content) = None
  /\ (forall k files, (k, files) ∈ get_duplicate_groups s' ->
                      Py.startswith k "sim_" = false -> r ∉ files).
Proof.
  intros Hok Hempty Hnd Hr Ho Hother. cbn zeta.
  apply file_hash_of_content in Ho.
  pose proof (hexdigest_not_sim content) as Hsim.
  revert Ho Hother Hsim. generalize (MD5.hexdigest content). intros h Ho Hother Hsim.
  pose proof (session_ok_process_files env s Hok) as Hok'.
  pose proof (duplicate_groups_list _ Hok') as Hlist.
  destruct Hok' as (D' & _ & H' & K' & S' & _).
  set (hf := fun i => _calculate_file_hash env (FileInfo.path (obj s i))).
  assert (C : forall r0 k,
             occurrences r0 (entry (duplicate_map (fst (process_files env s))) k)
             = hits hf r0 k (file_inventory s)).
  { intros r0 k. rewrite process_files_fst.
    destruct (hash_loop_all_counts env hf (file_inventory s) s (fun _ => eq_refl))
      as (_ & _ & _ & _ & _ & C & _).
    destruct (_group_similar_pdfs_keeps env (fst (hash_loop_all env s (file_inventory s))))
      as (D & _).
    rewrite D, C, Hempty. done. }
  assert (E : entry (duplicate_map (fst (process_files env s))) h = [r]).
  { apply only_member.
    - rewrite C, (hits_once hf r h h) by done. by rewrite bool_decide_eq_true_2.
    - intros r' Hne. rewrite C.
      destruct (hits hf r' h (file_inventory s)) eqn:Hh; [done|].
      assert (Hpos : 0 < hits hf r' h (file_inventory s)) by lia.
      apply hits_pos_iff in Hpos as [Hin Hh']. by destruct (Hother r' Hin Hne). }
  assert (G : Dict.get (duplicate_map (fst (process_files env s))) h = Some [r]).
  { rewrite <- E. apply (entry_get _ _ r). rewrite E. constructor. }
  split; [done|]. split.
  - rewrite duplicate_groups_get by done. cbn zeta. rewrite G. simpl.
    assert (Hnone : Dict.get (similarity_groups (fst (process_files env s))) h = None).
    { apply dict_get_None. intros Hk. apply S' in Hk. congruence. }
    by rewrite Hnone.
  - intros k files Hin Hk. rewrite Hlist in Hin.
    apply elem_of_app in Hin as [Hin|Hin]; apply list_elem_of_filter in Hin as [Hsev Hin].
    + apply (dict_get_elem_unique _ _ _ D') in Hin.
      destruct (decide (k = h)) as [->|Hne].
      * rewrite G in Hin. by injection Hin as <-.
      * intros Hmem. apply list_elem_of_In, (count_occ_In Nat.eq_dec) in Hmem.
        assert (Hent : entry (duplicate_map (fst (process_files env s))) k = files).
        { unfold entry. by rewrite Hin. }
        specialize (C r k). rewrite Hent in C. unfold occurrences in C.
        rewrite (hits_once hf r h k) in C by done.
        rewrite bool_decide_eq_false_2 in C by done. lia.
    + assert (Hkey : k ∈ map fst (similarity_groups (fst (process_files env s)))).
      { apply list_elem_of_fmap. by exists (k, files). }
      apply S' in Hkey. congruence.
Qed.

Lemma unique_file_is_not_reported_witness :
  let s := inventory_files abc_tree (new_scanner "/d" true 1 None) in
  let s' := fst (process_files abc_env s) in
  Dict.get (duplicate_map s') (MD5.hexdigest (list_byte_of_string "xyz")) = Some [2]
  /\ Dict.get (get_duplicate_groups s') (MD5.hexdigest (list_byte_of_string "xyz")) = None
  /\ (forall k files, (k, files) ∈ get_duplicate_groups s' ->
                      Py.startswith k "sim_" = false -> 2 ∉ files).
Proof.
  apply (unique_file_is_not_reported abc_env
           (inventory_files abc_tree (new_scanner "/d" true 1 None)) 2
           (list_byte_of_string "xyz")).
  - apply session_ok_inventory_files, session_ok_new.
  - vm_compute. reflexivity.
  - apply (bool_decide_unpack _). vm_compute. exact I.
  - vm_compute. do 3 constructor.
  - vm_compute. reflexivity.
  - intros r' Hin Hne.
    assert (Hcase : r' = 0 \/ r' = 1 \/ r' = 2).
    { vm_compute in Hin. apply list_elem_of_In in Hin. simpl in Hin.
      destruct Hin as [ <- | [ <- | [ <- | Hin ] ] ]; [auto..|done]. }
    destruct Hcase as [ -> | [ -> | -> ] ].
    + vm_compute. discriminate.
    + vm_compute. discriminate.
    + exfalso. apply Hne. reflexivity.
Defined.
